(** * LIMIT-Graph RDF integration: fact extraction and provenance graph

    A shallow embedding of the Python sources
    [triple_generator.py], [named_graphs.py] and [sparql_interface.py],
    followed by the properties of the specification that were checked
    against it.

    Conventions.
    - A Python [str] is a list of Unicode code points.
    - A Python exception is an explicit [Raise] outcome.
    - The interpreter's built-ins that the sources call (Unicode case
      mapping and character classes, the [re] engine, [repr] of a float,
      [uuid.uuid4], [datetime.now]) are the fields of the class
      [Builtins]; every general theorem holds for all of its instances. *)

From Stdlib Require Import List NArith ZArith QArith String Ascii Bool Lia.
From Stdlib Require Import DecimalString.
Import ListNotations.

Local Open Scope list_scope.
Local Open Scope N_scope.

(** ** Python strings *)

Definition char := N.
Definition str := list char.

Definition chr (a : ascii) : char := N_of_ascii a.

(** [py s] is the Python string written with the ASCII characters of [s]. *)
Definition py (s : string) : str := map chr (list_ascii_of_string s).

Fixpoint str_eqb (a b : str) : bool :=
  match a, b with
  | [], [] => true
  | x :: a', y :: b' => (x =? y) && str_eqb a' b'
  | _, _ => false
  end.

(** [w in patterns] on a list of strings. *)
Definition str_in (w : str) (l : list str) : bool := existsb (str_eqb w) l.

(** [len(x)] *)
Definition len {A : Type} (l : list A) : nat := List.length l.

(** [str.replace(old, new)] for one-character [old] and [new]. *)
Definition replace_char (old new : char) (s : str) : str :=
  map (fun c => if c =? old then new else c) s.

Fixpoint startswith (p s : str) : bool :=
  match p, s with
  | [], _ => true
  | x :: p', y :: s' => (x =? y) && startswith p' s'
  | _ :: _, [] => false
  end.

(** [needle in haystack] on strings. *)
Fixpoint contains (needle hay : str) : bool :=
  startswith needle hay ||
  match hay with
  | [] => false
  | _ :: hay' => contains needle hay'
  end.

(** [sep.join(parts)]. *)
Fixpoint join (sep : str) (parts : list str) : str :=
  match parts with
  | [] => []
  | [p] => p
  | p :: rest => p ++ sep ++ join sep rest
  end.

(** [str(n)] for a non-negative [int]. *)
Definition str_of_nat (n : nat) : str :=
  py (NilEmpty.string_of_uint (Nat.to_uint n)).

(** [str(n)] for an [int]. *)
Definition str_of_Z (z : Z) : str :=
  py (NilEmpty.string_of_int (Z.to_int z)).

(** ** Exceptions *)

Inductive exn : Type :=
| ZeroDivisionError
| KeyError (key : str)
| ValueError (msg : str)
| IndexError
| AttributeError (msg : str)
| EngineError (msg : str).

Inductive result (A : Type) : Type :=
| Ok (a : A)
| Raise (e : exn).
Arguments Ok {A} a.
Arguments Raise {A} e.

Definition rbind {A B} (r : result A) (k : A -> result B) : result B :=
  match r with
  | Ok a => k a
  | Raise e => Raise e
  end.

Notation "x <- r ;; k" := (rbind r (fun x => k))
  (at level 61, r at next level, right associativity).

(** [a / b] on two [int]s: true division, [ZeroDivisionError] on [b = 0].
    The quotient is kept as an exact rational. *)
Definition truediv (a b : Z) : result Q :=
  if (b =? 0)%Z then Raise ZeroDivisionError
  else Ok (Qmake a (Z.to_pos b)).

Definition Qgtb (a b : Q) : bool := negb (Qle_bool a b).

(** ** Built-ins of the interpreter *)

Class Builtins : Type := {
  (** [str.lower] *)
  str_lower : str -> str;
  (** [str.isspace] and [str.isalnum] on one code point *)
  chr_isspace : char -> bool;
  chr_isalnum : char -> bool;
  (** [re.finditer(pattern, text, re.IGNORECASE)]: groups 1 and 2 of
      every match, in order *)
  re_finditer : str -> str -> list (str * str);
  (** [repr] of a float, as used by f-strings and [str] *)
  float_repr : Q -> str;
  (** the [n]-th value drawn from [uuid.uuid4()], as [str] *)
  uuid4 : nat -> str;
  (** [datetime.now().isoformat()] at the [n]-th effect *)
  now_isoformat : nat -> str;
  (** the lexical form that rdflib gives a Python [bool] under a
      datatype *)
  literal_bool : option str -> bool -> str
}.

(** [str.split()] with no argument: maximal runs of non-space characters. *)
Fixpoint split_go {rt : Builtins} (cur : str) (s : str) : list str :=
  match s with
  | [] => match cur with [] => [] | _ => [rev cur] end
  | c :: s' =>
      if chr_isspace c then
        match cur with
        | [] => split_go [] s'
        | _ => rev cur :: split_go [] s'
        end
      else split_go (c :: cur) s'
  end.

Definition split {rt : Builtins} (s : str) : list str := split_go [] s.

Fixpoint lstrip {rt : Builtins} (s : str) : str :=
  match s with
  | [] => []
  | c :: s' => if chr_isspace c then lstrip s' else s
  end.

(** [str.strip()] with no argument. *)
Definition strip {rt : Builtins} (s : str) : str :=
  rev (lstrip (rev (lstrip s))).

(** ** RDF terms and graphs (rdflib) *)

(** A literal is identified by its lexical form, language tag and
    datatype, as rdflib's term equality has it. *)
Inductive term : Type :=
| URIRef (uri : str)
| Literal (lexical : str) (lang : option str) (datatype : option str).

Definition triple : Type := (term * term * term)%type.

Definition opt_str_eqb (a b : option str) : bool :=
  match a, b with
  | None, None => true
  | Some x, Some y => str_eqb x y
  | _, _ => false
  end.

Definition term_eqb (a b : term) : bool :=
  match a, b with
  | URIRef x, URIRef y => str_eqb x y
  | Literal x l d, Literal y l' d' =>
      str_eqb x y && opt_str_eqb l l' && opt_str_eqb d d'
  | _, _ => false
  end.

Definition triple_eqb (a b : triple) : bool :=
  let '(s, p, o) := a in
  let '(s', p', o') := b in
  term_eqb s s' && term_eqb p p' && term_eqb o o'.

(** A [Graph] is a set of triples; the list keeps insertion order. *)
Definition Graph := list triple.

Definition graph_contains (g : Graph) (t : triple) : bool :=
  existsb (triple_eqb t) g.

(** [Graph.add]: adding a triple that is present changes nothing. *)
Definition graph_add (g : Graph) (t : triple) : Graph :=
  if graph_contains g t then g else g ++ [t].

(** [Namespace(base)[name]] *)
Definition ns_term (base name : str) : term := URIRef (base ++ name).

(** [str(t)] of a term. *)
Definition term_lexical (t : term) : str :=
  match t with
  | URIRef uri => uri
  | Literal lexical _ _ => lexical
  end.

Definition ascii_letter (c : char) : bool :=
  ((65 <=? c) && (c <=? 90)) || ((97 <=? c) && (c <=? 122)).

Definition ascii_digit (c : char) : bool := (48 <=? c) && (c <=? 57).

(** The groups of a language tag after its first hyphen; [seen] tells
    whether the group at hand has a character. *)
Fixpoint langtag_subtags (seen : bool) (s : str) : bool :=
  match s with
  | [] => seen
  | c :: s' =>
      if ascii_letter c || ascii_digit c then langtag_subtags true s'
      else if c =? 45 then seen && langtag_subtags false s'
      else if c =? 10 then seen && match s' with [] => true | _ => false end
      else false
  end.

Fixpoint langtag_primary (seen : bool) (s : str) : bool :=
  match s with
  | [] => seen
  | c :: s' =>
      if ascii_letter c then langtag_primary true s'
      else if c =? 45 then seen && langtag_subtags false s'
      else if c =? 10 then seen && match s' with [] => true | _ => false end
      else false
  end.

(** rdflib's test of a language tag: a match of the pattern
    ^[a-zA-Z]+(?:-[a-zA-Z0-9]+)*$, that is letters, then groups of a
    hyphen and letters or digits; the end of the pattern also matches
    before one final line feed. *)
Definition _is_valid_langtag (tag : str) : bool := langtag_primary false tag.

(** [tag.lower()] on a language tag: its capital letters in lower case. *)
Definition langtag_lower (tag : str) : str :=
  map (fun c => if (65 <=? c) && (c <=? 90) then c + 32 else c) tag.

(** [Literal(lexical, lang=lang)]: an empty tag is no tag, and a tag that
    is not well formed raises [ValueError].  rdflib compares and hashes
    the tags of literals in lower case, so that a graph takes two
    literals that differ in the case of the tag for one: the literal is
    kept here with its tag in lower case, which is what identifies it. *)
Definition literal_lang (lexical lang : str) : result term :=
  match lang with
  | [] => Ok (Literal lexical None None)
  | _ :: _ =>
      if _is_valid_langtag lang
      then Ok (Literal lexical (Some (langtag_lower lang)) None)
      else Raise (ValueError ([39] ++ lang
                              ++ py "' is not a valid language tag!"))
  end.

Definition RDF_type : term :=
  URIRef (py "http://www.w3.org/1999/02/22-rdf-syntax-ns#type").
Definition RDFS_ns : str := py "http://www.w3.org/2000/01/rdf-schema#".
Definition RDFS_label : term := ns_term RDFS_ns (py "label").
Definition DCTERMS_created : term :=
  URIRef (py "http://purl.org/dc/terms/created").
Definition XSD (name : string) : option str :=
  Some (py "http://www.w3.org/2001/XMLSchema#" ++ py name).

(** A Python [set] of strings; the order of the list carries no meaning. *)
Definition set_add (s : list str) (x : str) : list str :=
  if str_in x s then s else s ++ [x].

(** [d[k] = v] on a [dict] kept in insertion order. *)
Fixpoint dict_set {V : Type} (d : list (str * V)) (k : str) (v : V)
  : list (str * V) :=
  match d with
  | [] => [(k, v)]
  | (k', v') :: d' =>
      if str_eqb k' k then (k', v) :: d' else (k', v') :: dict_set d' k v
  end.

(** [max(items, key=lambda x: x[1])]: the first item whose value is
    not exceeded by a later one. *)
Fixpoint max_by_value (best : str * Q) (items : list (str * Q)) : str * Q :=
  match items with
  | [] => best
  | x :: rest => max_by_value (if Qgtb (snd x) (snd best) then x else best) rest
  end.

(** ** Programs with a state and exceptions *)

Definition prog (S A : Type) : Type := S -> result (A * S).

Definition ret {S A} (a : A) : prog S A := fun s => Ok (a, s).

Definition bind {S A B} (m : prog S A) (k : A -> prog S B) : prog S B :=
  fun s =>
    match m s with
    | Ok (a, s') => k a s'
    | Raise e => Raise e
    end.

Definition lift {S A} (r : result A) : prog S A :=
  fun s =>
    match r with
    | Ok a => Ok (a, s)
    | Raise e => Raise e
    end.

Notation "x <~ m ;; k" := (bind m (fun x => k))
  (at level 61, m at next level, right associativity).
Notation "m ;;; k" := (bind m (fun _ => k))
  (at level 61, right associativity).

(** [for x in xs: body x] *)
Fixpoint for_each {S A} (xs : list A) (body : A -> prog S unit) : prog S unit :=
  match xs with
  | [] => ret tt
  | x :: xs' => body x ;;; for_each xs' body
  end.

(** [for x in xs: acc = body acc x] *)
Fixpoint for_fold {S A B} (xs : list A) (acc : B) (body : B -> A -> prog S B)
  : prog S B :=
  match xs with
  | [] => ret acc
  | x :: xs' => acc' <~ body acc x ;; for_fold xs' acc' body
  end.

(** ** More of the Python library *)

(** [s.endswith(p)] *)
Definition endswith (p s : str) : bool := startswith (rev p) (rev s).

(** [os.path.join(a, b)] on POSIX paths. *)
Definition path_join (a b : str) : str :=
  if startswith (py "/") b then b
  else
    match a with
    | [] => b
    | _ => if endswith (py "/") a then a ++ b else a ++ py "/" ++ b
    end.

(** [d.get(k)] on a [dict] kept in insertion order. *)
Fixpoint dict_find {V : Type} (d : list (str * V)) (k : str) : option V :=
  match d with
  | [] => None
  | (k', v) :: d' => if str_eqb k' k then Some v else dict_find d' k
  end.

(** [s.split(sep)] for a one-character separator. *)
Fixpoint split_on_go (sep : char) (cur : str) (s : str) : list str :=
  match s with
  | [] => [rev cur]
  | c :: s' =>
      if c =? sep then rev cur :: split_on_go sep [] s'
      else split_on_go sep (c :: cur) s'
  end.

Definition split_on (sep : char) (s : str) : list str := split_on_go sep [] s.

(** * triple_generator.py *)

Module TripleGenerator.

(** A value of the feedback dictionary, by the [isinstance] tests of
    [_add_rlhf_triples]: an [int], a [bool], which is an [int] too, a
    [float], or anything else, kept as its [str]. *)
Inductive feedback_value : Type :=
| FbInt (n : Z)
| FbBool (b : bool)
| FbFloat (x : Q)
| FbOther (text : str).

Record LimitGraphTriple : Type := {
  subject : str;
  predicate : str;
  object : str;
  confidence : Q;
  source_language : str;
  annotator_id : str;
  timestamp : str;
  rlhf_feedback : option (list (str * feedback_value));
  provenance : option (list (str * str))
}.

(** The generator object: its graph, and the number of values drawn so
    far from [uuid4] and [datetime.now]. *)
Record state : Type := {
  graph : Graph;
  effects : nat
}.

(** One entry of [corpus_data]: a [dict] read with [doc.get]. *)
Record document : Type := {
  _id : option str;
  text : option str
}.

(** One entry of the list built by [_extract_simple_triples]. *)
Record triple_data : Type := {
  td_subject : str;
  td_predicate : str;
  td_object : str;
  td_confidence : Q;
  td_source_doc : str
}.

Record RDFConversionResult : Type := {
  result_graph : Graph;
  triples_count : nat;
  languages_detected : list str;
  annotators : list str;
  documents_processed : nat
}.

Section Generator.
Context {rt : Builtins}.
(** [self.base_uri] *)
Variable base_uri : str.

Definition LGONT (name : str) : term := ns_term (base_uri ++ py "ontology/") name.
Definition LGDATA (name : str) : term := ns_term (base_uri ++ py "data/") name.
Definition LGPROV (name : str) : term := ns_term (base_uri ++ py "provenance/") name.
Definition LGRLHF (name : str) : term := ns_term (base_uri ++ py "rlhf/") name.

Definition language_patterns : list (str * list str) :=
  [ (py "es", map py ["el"; "la"; "los"; "las"; "de"; "del"; "en"; "con";
                      "por"; "para"; "que"; "es"; "son"]%string);
    (py "ar", [ [1601; 1610]; [1605; 1606]; [1573; 1604; 1609];
                [1593; 1604; 1609]; [1605; 1593]; [1607; 1608];
                [1607; 1610]; [1575; 1604; 1578; 1610];
                [1575; 1604; 1584; 1610] ]);
    (py "id", map py ["yang"; "dan"; "di"; "ke"; "dari"; "untuk"; "dengan";
                      "adalah"; "ini"; "itu"]%string);
    (py "en", map py ["the"; "and"; "or"; "in"; "on"; "at"; "to"; "from";
                      "with"; "is"; "are"]%string) ].

(** [sum(1 for word in words if word in patterns)] *)
Definition score (words patterns : list str) : Z :=
  Z.of_nat (len (filter (fun word => str_in word patterns) words)).

(** One turn of the loop over [language_patterns.items()]. *)
Definition score_language (words : list str)
  (acc : result (list (str * Q))) (item : str * list str)
  : result (list (str * Q)) :=
  language_scores <- acc ;;
  let sc := score words (snd item) in
  if (0 <? sc)%Z then
    q <- truediv sc (Z.of_nat (len words)) ;;
    Ok (dict_set language_scores (fst item) q)
  else Ok language_scores.

Definition detect_language (text : str) : result str :=
  match text with
  | [] => Ok (py "en")
  | _ =>
      let text_lower := str_lower text in
      let words := split text_lower in
      language_scores <-
        fold_left (score_language words) language_patterns (Ok []) ;;
      match language_scores with
      | first :: rest => Ok (fst (max_by_value first rest))
      | [] => Ok (py "en")
      end
  end.

Definition _clean_uri_component (component : str) : str :=
  let cleaned := replace_char (chr "-") (chr "_")
                   (replace_char (chr " ") (chr "_") component) in
  filter (fun c => chr_isalnum c || (c =? chr "_")) cleaned.

Definition _is_entity (value : str) : bool :=
  (len value <? 50)%nat &&
  negb (existsb (fun ch => existsb (N.eqb ch) value)
          [chr "."; chr "!"; chr "?"; chr ","]).

(** *** Effects on the generator *)

Definition graph_add_m (t : triple) : prog state unit :=
  fun s => Ok (tt, {| graph := graph_add (graph s) t; effects := effects s |}).

(** [str(uuid.uuid4())] *)
Definition uuid4_m : prog state str :=
  fun s => Ok (uuid4 (effects s),
               {| graph := graph s; effects := S (effects s) |}).

(** [datetime.now()], kept as its [isoformat()] *)
Definition now_m : prog state str :=
  fun s => Ok (now_isoformat (effects s),
               {| graph := graph s; effects := S (effects s) |}).

Definition convert_limitgraph_edge_to_triple
  (subject predicate object_value : str) (confidence : Q)
  (annotator_id : str) (rlhf_feedback : option (list (str * feedback_value)))
  (source_text : str) : prog state LimitGraphTriple :=
  let combined_text :=
    subject ++ py " " ++ predicate ++ py " " ++ object_value ++ py " "
    ++ source_text in
  detected_language <~ lift (detect_language combined_text) ;;
  conversion_timestamp <~ now_m ;;
  let provenance :=
    [ (py "extraction_method", py "limitgraph_conversion");
      (py "source_system", py "LIMIT-Graph");
      (py "conversion_timestamp", conversion_timestamp);
      (py "source_text", source_text) ] in
  timestamp <~ now_m ;;
  ret {| subject := subject;
         predicate := predicate;
         object := object_value;
         confidence := confidence;
         source_language := detected_language;
         annotator_id := annotator_id;
         timestamp := timestamp;
         rlhf_feedback := rlhf_feedback;
         provenance := Some provenance |}.

Definition _add_provenance_triples (statement_uri : term)
  (triple : LimitGraphTriple) (subject_uri predicate_uri object_uri : term)
  : prog state unit :=
  graph_add_m (statement_uri, RDF_type, LGONT (py "Statement")) ;;;
  graph_add_m (statement_uri, LGONT (py "hasSubject"), subject_uri) ;;;
  graph_add_m (statement_uri, LGONT (py "hasPredicate"), predicate_uri) ;;;
  graph_add_m (statement_uri, LGONT (py "hasObject"), object_uri) ;;;
  graph_add_m (statement_uri, LGONT (py "confidence"),
               Literal (float_repr (confidence triple)) None (XSD "float")) ;;;
  graph_add_m (statement_uri, LGONT (py "sourceLanguage"),
               Literal (source_language triple) None (XSD "string")) ;;;
  graph_add_m (statement_uri, LGONT (py "annotatorId"),
               Literal (annotator_id triple) None (XSD "string")) ;;;
  graph_add_m (statement_uri, LGONT (py "timestamp"),
               Literal (timestamp triple) None (XSD "dateTime")) ;;;
  match provenance triple with
  | Some ((_ :: _) as items) =>
      for_each items (fun '(key, value) =>
        let prop_uri := LGPROV (_clean_uri_component key) in
        graph_add_m (statement_uri, prop_uri,
                     Literal value None (XSD "string")))
  | _ => ret tt
  end.

Definition _add_rlhf_triples (statement_uri : term)
  (rlhf_feedback : list (str * feedback_value)) : prog state unit :=
  u <~ uuid4_m ;;
  let feedback_uri := LGRLHF (py "feedback_" ++ u) in
  graph_add_m (feedback_uri, RDF_type, LGONT (py "RLHFFeedback")) ;;;
  graph_add_m (statement_uri, LGONT (py "hasRLHFFeedback"), feedback_uri) ;;;
  for_each rlhf_feedback (fun '(key, value) =>
    let prop_uri := LGRLHF (_clean_uri_component key) in
    match value with
    | FbInt n =>
        graph_add_m (feedback_uri, prop_uri,
                     Literal (str_of_Z n) None (XSD "integer"))
    | FbBool b =>
        graph_add_m (feedback_uri, prop_uri,
                     Literal (literal_bool (XSD "integer") b) None
                       (XSD "integer"))
    | FbFloat x =>
        graph_add_m (feedback_uri, prop_uri,
                     Literal (float_repr x) None (XSD "float"))
    | FbOther v =>
        graph_add_m (feedback_uri, prop_uri, Literal v None (XSD "string"))
    end).

Definition add_triple_to_graph (triple : LimitGraphTriple) : prog state str :=
  let subject_uri := LGDATA (_clean_uri_component (subject triple)) in
  let predicate_uri := LGONT (_clean_uri_component (predicate triple)) in
  object_uri <~
    (if _is_entity (object triple)
     then ret (LGDATA (_clean_uri_component (object triple)))
     else lift (literal_lang (object triple) (source_language triple))) ;;
  graph_add_m (subject_uri, predicate_uri, object_uri) ;;;
  statement_id <~ uuid4_m ;;
  let statement_uri := LGPROV (py "statement_" ++ statement_id) in
  _add_provenance_triples statement_uri triple
    subject_uri predicate_uri object_uri ;;;
  match rlhf_feedback triple with
  | Some ((_ :: _) as fb) => _add_rlhf_triples statement_uri fb
  | _ => ret tt
  end ;;;
  ret statement_id.

(** The three surface patterns of the extractor. *)
Definition pattern_es_gusta : str :=
  py "A\s+(\w+)\s+le\s+gusta[n]?\s+(.+?)(?:\.|$)".
Definition pattern_es_alergica : str :=
  py "(\w+)\s+es\s+al" ++ [233] ++ py "rgic[ao]\s+a\s+(.+?)(?:\.|$)".
Definition pattern_en_likes : str :=
  py "(\w+)\s+likes?\s+(.+?)(?:\.|$)".

(** The loop [for match in matches: triples.append({...})]. *)
Definition matches_to_triples (pattern predicate text doc_id : str)
  : list triple_data :=
  map (fun m =>
         {| td_subject := strip (fst m);
            td_predicate := predicate;
            td_object := strip (snd m);
            td_confidence := 9 # 10;
            td_source_doc := doc_id |})
      (re_finditer pattern text).

Definition _extract_simple_triples (text doc_id language : str)
  : list triple_data :=
  let triples :=
    if str_eqb language (py "es") then
      matches_to_triples pattern_es_gusta (py "likes") text doc_id
      ++ matches_to_triples pattern_es_alergica (py "allergic_to") text doc_id
    else if str_eqb language (py "en") then
      matches_to_triples pattern_en_likes (py "likes") text doc_id
    else [] in
  triples ++
  [ {| td_subject := py "document_" ++ doc_id;
       td_predicate := py "contains_text";
       td_object := text;
       td_confidence := 1;
       td_source_doc := doc_id |} ].

(** The accumulators of [convert_limitgraph_corpus]. *)
Record counters : Type := {
  languages_so_far : list str;
  triples_added : nat
}.

(** The body of [for triple_data in extracted_triples]. *)
Definition convert_triple_data (annotator_id text : str)
  (triples_added : nat) (td : triple_data) : prog state nat :=
  triple <~ convert_limitgraph_edge_to_triple
              (td_subject td) (td_predicate td) (td_object td)
              (td_confidence td) annotator_id None text ;;
  add_triple_to_graph triple ;;;
  ret (triples_added + 1)%nat.

(** The body of [for doc in corpus_data]. *)
Definition convert_document (annotator_id : str) (acc : counters)
  (doc : document) : prog state counters :=
  u <~ uuid4_m ;;
  let doc_id := match _id doc with Some i => i | None => py "doc_" ++ u end in
  let text := match text doc with Some t => t | None => [] end in
  match text with
  | [] => ret acc
  | _ =>
      language <~ lift (detect_language text) ;;
      let languages_detected := set_add (languages_so_far acc) language in
      let doc_uri := LGDATA (py "document_" ++ _clean_uri_component doc_id) in
      graph_add_m (doc_uri, RDF_type, LGONT (py "Document")) ;;;
      label <~ lift (literal_lang (py "Document " ++ doc_id) language) ;;
      graph_add_m (doc_uri, RDFS_label, label) ;;;
      content <~ lift (literal_lang text language) ;;
      graph_add_m (doc_uri, LGONT (py "content"), content) ;;;
      graph_add_m (doc_uri, LGONT (py "documentId"),
                   Literal doc_id None (XSD "string")) ;;;
      graph_add_m (doc_uri, LGONT (py "language"),
                   Literal language None (XSD "string")) ;;;
      let extracted_triples := _extract_simple_triples text doc_id language in
      n <~ for_fold extracted_triples (triples_added acc)
             (convert_triple_data annotator_id text) ;;
      ret {| languages_so_far := languages_detected; triples_added := n |}
  end.

Definition convert_limitgraph_corpus (corpus_data : list document)
  (annotator_id : str) : prog state RDFConversionResult :=
  acc <~ for_fold corpus_data
           {| languages_so_far := []; triples_added := 0%nat |}
           (convert_document annotator_id) ;;
  _ <~ now_m ;;
  fun s =>
    Ok ({| result_graph := graph s;
           triples_count := triples_added acc;
           languages_detected := languages_so_far acc;
           annotators := [annotator_id];
           documents_processed := len corpus_data |}, s).


(** *** Export *)

(** The outcome of [os.makedirs(output_dir, exist_ok=True)] and of
    [graph.serialize(destination=filepath, format=format_name)]. *)
Variable makedirs : str -> result unit.
Variable serialize : Graph -> str -> str -> result unit.

Definition export_formats : list (str * str) :=
  [ (py "turtle", py "ttl"); (py "xml", py "rdf"); (py "n3", py "n3");
    (py "json-ld", py "jsonld") ].

(** The body of the loop of [export_to_formats], with its [try]. *)
Definition export_format (self_graph : Graph) (output_dir : str)
  (exported_files : list (str * str)) (item : str * str) : list (str * str) :=
  let '(format_name, extension) := item in
  let filename := py "limitgraph_triples." ++ extension in
  let filepath := path_join output_dir filename in
  match serialize self_graph filepath format_name with
  | Ok _ => dict_set exported_files format_name filepath
  | Raise _ => exported_files
  end.

Definition export_to_formats (output_dir : str) : prog state (list (str * str)) :=
  fun s =>
    _ <- makedirs output_dir ;;
    Ok (fold_left (export_format (graph s) output_dir) export_formats [], s).

(** *** Statistics *)

(** [list(self.graph.namespaces())]: the prefixes bound in the graph. *)
Variable graph_namespaces : list (str * str).

Record statistics : Type := {
  stat_total_triples : nat;
  stat_statements : nat;
  stat_documents : nat;
  stat_languages : list str;
  stat_annotators : list str;
  stat_namespaces : list (str * str)
}.

(** [graph.subjects(RDF.type, o)]: one subject for each triple that
    matches. *)
Definition subjects_of_type (g : Graph) (o : term) : list term :=
  map (fun t : triple => fst (fst t))
      (filter (fun t : triple =>
                 term_eqb (snd (fst t)) RDF_type && term_eqb (snd t) o) g).

(** The set built by a loop over [graph.triples((None, p, None))] that
    adds [str] of each object. *)
Definition object_strings (g : Graph) (p : term) : list str :=
  fold_left
    (fun acc (t : triple) =>
       if term_eqb (snd (fst t)) p then set_add acc (term_lexical (snd t))
       else acc)
    g [].

Definition get_statistics (s : state) : statistics :=
  {| stat_total_triples := len (graph s);
     stat_statements :=
       len (subjects_of_type (graph s) (LGONT (py "Statement")));
     stat_documents :=
       len (subjects_of_type (graph s) (LGONT (py "Document")));
     stat_languages := object_strings (graph s) (LGONT (py "language"));
     stat_annotators := object_strings (graph s) (LGONT (py "annotatorId"));
     stat_namespaces := graph_namespaces |}.

End Generator.
End TripleGenerator.

(** * named_graphs.py *)

Module NamedGraphs.

Record RLHFFeedbackTrace : Type := {
  feedback_id : str;
  statement_id : str;
  feedback_type : str;
  quality_score : Q;
  relevance_score : Q;
  cultural_appropriateness : Q;
  feedback_text : option str;
  annotator_id : str;
  timestamp : str;
  session_id : option str
}.

(** The keys of [self.graphs]. *)
Inductive graph_name : Type :=
| main | provenance | annotators | languages | rlhf | audit.

(** The [Dataset]: one graph per name. *)
Record Dataset : Type := {
  g_main : Graph;
  g_provenance : Graph;
  g_annotators : Graph;
  g_languages : Graph;
  g_rlhf : Graph;
  g_audit : Graph
}.

(** [self.dataset.graph(self.graphs[name])] *)
Definition dataset_graph (d : Dataset) (name : graph_name) : Graph :=
  match name with
  | main => g_main d
  | provenance => g_provenance d
  | annotators => g_annotators d
  | languages => g_languages d
  | rlhf => g_rlhf d
  | audit => g_audit d
  end.

Definition dataset_set (d : Dataset) (name : graph_name) (g : Graph) : Dataset :=
  match name with
  | main => {| g_main := g; g_provenance := g_provenance d;
               g_annotators := g_annotators d; g_languages := g_languages d;
               g_rlhf := g_rlhf d; g_audit := g_audit d |}
  | provenance => {| g_main := g_main d; g_provenance := g;
               g_annotators := g_annotators d; g_languages := g_languages d;
               g_rlhf := g_rlhf d; g_audit := g_audit d |}
  | annotators => {| g_main := g_main d; g_provenance := g_provenance d;
               g_annotators := g; g_languages := g_languages d;
               g_rlhf := g_rlhf d; g_audit := g_audit d |}
  | languages => {| g_main := g_main d; g_provenance := g_provenance d;
               g_annotators := g_annotators d; g_languages := g;
               g_rlhf := g_rlhf d; g_audit := g_audit d |}
  | rlhf => {| g_main := g_main d; g_provenance := g_provenance d;
               g_annotators := g_annotators d; g_languages := g_languages d;
               g_rlhf := g; g_audit := g_audit d |}
  | audit => {| g_main := g_main d; g_provenance := g_provenance d;
               g_annotators := g_annotators d; g_languages := g_languages d;
               g_rlhf := g_rlhf d; g_audit := g |}
  end.

(** The manager object: its dataset, and the number of values drawn so
    far from [uuid4] and [datetime.now]. *)
Record state : Type := {
  dataset : Dataset;
  effects : nat
}.

Record AnnotatorProfile : Type := {
  profile_id : str;
  profile_name : str;
  profile_expertise_domains : list str;
  profile_languages : list str;
  profile_reliability_score : Q;
  profile_annotation_count : Z;
  profile_created_date : str
}.

(** The manager object with its registry [self.annotators]. *)
Record manager : Type := {
  store : state;
  annotator_registry : list (str * AnnotatorProfile)
}.

(** A value of [provenance_data], by the type that the [isinstance]
    tests of [add_provenance_trace] look at. *)
Inductive pyvalue : Type :=
| PyInt (n : Z)
| PyFloat (x : Q)
| PyBool (b : bool)
| PyDatetime (isoformat : str)
| PyOther (text : str).

Section Manager.
Context {rt : Builtins}.
(** [self.base_uri] *)
Variable base_uri : str.

Definition LGONT (name : str) : term := ns_term (base_uri ++ py "ontology/") name.
Definition LGPROV (name : str) : term := ns_term (base_uri ++ py "provenance/") name.
Definition LGRLHF (name : str) : term := ns_term (base_uri ++ py "rlhf/") name.
Definition LGANG (name : str) : term := ns_term (base_uri ++ py "annotators/") name.

(** [graph.add(t)] on the named graph [name]. *)
Definition add_to (name : graph_name) (t : triple) : prog state unit :=
  fun s =>
    Ok (tt, {| dataset := dataset_set (dataset s) name
                            (graph_add (dataset_graph (dataset s) name) t);
               effects := effects s |}).

Definition uuid4_m : prog state str :=
  fun s => Ok (uuid4 (effects s),
               {| dataset := dataset s; effects := S (effects s) |}).

Definition now_m : prog state str :=
  fun s => Ok (now_isoformat (effects s),
               {| dataset := dataset s; effects := S (effects s) |}).

Definition _clean_uri_component (component : str) : str :=
  let cleaned := replace_char (chr "-") (chr "_")
                   (replace_char (chr " ") (chr "_") component) in
  filter (fun c => chr_isalnum c || (c =? chr "_")) cleaned.

Definition _add_audit_entry (action : str) (details : list (str * str))
  : prog state unit :=
  audit_id <~ uuid4_m ;;
  let audit_uri := LGPROV (py "audit_" ++ audit_id) in
  add_to audit (audit_uri, RDF_type, LGONT (py "AuditEntry")) ;;;
  add_to audit (audit_uri, LGONT (py "action"), Literal action None None) ;;;
  created <~ now_m ;;
  add_to audit (audit_uri, DCTERMS_created,
                Literal created None (XSD "dateTime")) ;;;
  for_each details (fun '(key, value) =>
    let prop_uri := LGPROV (_clean_uri_component key) in
    add_to audit (audit_uri, prop_uri, Literal value None None)).

Definition add_rlhf_feedback_trace (feedback_trace : RLHFFeedbackTrace)
  : prog state str :=
  let feedback_uri := LGRLHF (py "feedback_" ++ feedback_id feedback_trace) in
  add_to rlhf (feedback_uri, RDF_type, LGONT (py "RLHFFeedback")) ;;;
  add_to rlhf (feedback_uri, LGONT (py "feedbackId"),
               Literal (feedback_id feedback_trace) None None) ;;;
  add_to rlhf (feedback_uri, LGONT (py "statementId"),
               Literal (statement_id feedback_trace) None None) ;;;
  add_to rlhf (feedback_uri, LGONT (py "feedbackType"),
               Literal (feedback_type feedback_trace) None None) ;;;
  add_to rlhf (feedback_uri, LGONT (py "qualityScore"),
               Literal (float_repr (quality_score feedback_trace)) None
                 (XSD "float")) ;;;
  add_to rlhf (feedback_uri, LGONT (py "relevanceScore"),
               Literal (float_repr (relevance_score feedback_trace)) None
                 (XSD "float")) ;;;
  add_to rlhf (feedback_uri, LGONT (py "culturalAppropriateness"),
               Literal (float_repr (cultural_appropriateness feedback_trace))
                 None (XSD "float")) ;;;
  add_to rlhf (feedback_uri, DCTERMS_created,
               Literal (timestamp feedback_trace) None (XSD "dateTime")) ;;;
  let annotator_uri := LGANG (annotator_id feedback_trace) in
  add_to rlhf (feedback_uri, LGONT (py "providedBy"), annotator_uri) ;;;
  match feedback_text feedback_trace with
  | Some ((_ :: _) as txt) =>
      add_to rlhf (feedback_uri, LGONT (py "feedbackText"),
                   Literal txt None None)
  | _ => ret tt
  end ;;;
  match session_id feedback_trace with
  | Some ((_ :: _) as sid) =>
      add_to rlhf (feedback_uri, LGONT (py "sessionId"),
                   Literal sid None None)
  | _ => ret tt
  end ;;;
  _add_audit_entry (py "rlhf_feedback_added")
    [ (py "feedback_id", feedback_id feedback_trace);
      (py "annotator_id", annotator_id feedback_trace);
      (py "feedback_type", feedback_type feedback_trace) ] ;;;
  ret (feedback_id feedback_trace).


(** *** The annotator registry *)

Definition LGLANG (name : str) : term := ns_term (base_uri ++ py "languages/") name.

Definition FOAF_name : term := URIRef (py "http://xmlns.com/foaf/0.1/name").

(** [register_annotator]: the entry of the registry, then the profile in
    the annotators graph. *)
Definition register_annotator (annotator_profile : AnnotatorProfile)
  : prog manager str :=
  fun mgr =>
    let registry :=
      dict_set (annotator_registry mgr) (profile_id annotator_profile)
        annotator_profile in
    let annotator_uri := LGANG (profile_id annotator_profile) in
    r <- (add_to annotators (annotator_uri, RDF_type, LGONT (py "Annotator")) ;;;
          add_to annotators (annotator_uri, FOAF_name,
                             Literal (profile_name annotator_profile) None None) ;;;
          add_to annotators (annotator_uri, LGONT (py "annotatorId"),
                             Literal (profile_id annotator_profile) None None) ;;;
          add_to annotators (annotator_uri, LGONT (py "reliabilityScore"),
                             Literal (float_repr
                                        (profile_reliability_score
                                           annotator_profile))
                               None (XSD "float")) ;;;
          add_to annotators (annotator_uri, LGONT (py "annotationCount"),
                             Literal (str_of_Z
                                        (profile_annotation_count
                                           annotator_profile))
                               None (XSD "integer")) ;;;
          add_to annotators (annotator_uri, DCTERMS_created,
                             Literal (profile_created_date annotator_profile)
                               None (XSD "dateTime")) ;;;
          for_each (profile_expertise_domains annotator_profile)
            (fun domain =>
               add_to annotators (annotator_uri, LGONT (py "expertiseIn"),
                                  Literal domain None None)) ;;;
          for_each (profile_languages annotator_profile)
            (fun lang =>
               add_to annotators (annotator_uri, LGONT (py "speaksLanguage"),
                                  LGLANG lang)))
           (store mgr) ;;
    Ok (profile_id annotator_profile,
        {| store := snd r; annotator_registry := registry |}).

(** *** Language metadata *)

(** [self.supported_languages]: name, right-to-left flag, script. *)
Definition supported_languages : list (str * (str * bool * str)) :=
  [ (py "en", (py "English", false, py "Latin"));
    (py "es", (py "Spanish", false, py "Latin"));
    (py "ar", (py "Arabic", true, py "Arabic"));
    (py "id", (py "Indonesian", false, py "Latin"));
    (py "zh", (py "Chinese", false, py "Chinese"));
    (py "hi", (py "Hindi", false, py "Devanagari")) ].

(** The lexical form that rdflib gives a Python [bool] under a datatype. *)
Variable bool_lexical : option str -> bool -> str.

Definition _ensure_language_metadata (language_code : str) : prog state unit :=
  fun s =>
    let languages_graph := dataset_graph (dataset s) languages in
    let lang_uri := LGLANG language_code in
    if graph_contains languages_graph (lang_uri, RDF_type, LGONT (py "Language"))
    then Ok (tt, s)
    else
      (add_to languages (lang_uri, RDF_type, LGONT (py "Language")) ;;;
       add_to languages (lang_uri, LGONT (py "languageCode"),
                         Literal language_code None None) ;;;
       match dict_find supported_languages language_code with
       | Some (lang_name, rtl, script) =>
           add_to languages (lang_uri, RDFS_label, Literal lang_name None None) ;;;
           add_to languages (lang_uri, LGONT (py "isRightToLeft"),
                             Literal (bool_lexical (XSD "boolean") rtl) None
                               (XSD "boolean")) ;;;
           add_to languages (lang_uri, LGONT (py "script"),
                             Literal script None None)
       | None => ret tt
       end) s.

(** *** Provenance records *)

(** The literal written for one value of [provenance_data], by the
    order of the [isinstance] tests: a [bool] is an [int]. *)
Definition provenance_literal (value : pyvalue) : term :=
  match value with
  | PyInt n => Literal (str_of_Z n) None (XSD "integer")
  | PyFloat x => Literal (float_repr x) None (XSD "float")
  | PyBool b => Literal (bool_lexical (XSD "integer") b) None (XSD "integer")
  | PyDatetime iso => Literal iso None (XSD "dateTime")
  | PyOther text => Literal text None None
  end.

Definition add_provenance_trace (statement_uri : term)
  (provenance_data : list (str * pyvalue)) : prog state str :=
  prov_id <~ uuid4_m ;;
  let prov_uri := LGPROV (py "provenance_" ++ prov_id) in
  add_to provenance (prov_uri, RDF_type, LGONT (py "ProvenanceRecord")) ;;;
  add_to provenance (prov_uri, LGONT (py "tracesStatement"), statement_uri) ;;;
  created <~ now_m ;;
  add_to provenance (prov_uri, DCTERMS_created,
                     Literal created None (XSD "dateTime")) ;;;
  for_each provenance_data (fun '(key, value) =>
    let prop_uri := LGPROV (_clean_uri_component key) in
    add_to provenance (prov_uri, prop_uri, provenance_literal value)) ;;;
  ret prov_id.

(** *** Export *)

Variable makedirs : str -> result unit.
Variable serialize : Graph -> str -> str -> result unit.

(** The keys of [self.graphs], in the order of the table. *)
Definition graph_names : list graph_name :=
  [main; provenance; annotators; languages; rlhf; audit].

Definition graph_name_str (name : graph_name) : str :=
  py match name with
     | main => "main"
     | provenance => "provenance"
     | annotators => "annotators"
     | languages => "languages"
     | rlhf => "rlhf"
     | audit => "audit"
     end.

Definition named_graph_formats : list (str * str) :=
  [ (py "turtle", py "ttl"); (py "xml", py "rdf"); (py "json-ld", py "jsonld") ].

(** The body of the inner loop of [export_named_graphs], with its [try]. *)
Definition export_named_graph_format (d : Dataset) (output_dir : str)
  (name : graph_name) (exported_files : list (str * list (str * str)))
  (item : str * str) : list (str * list (str * str)) :=
  let '(format_name, extension) := item in
  let filename := graph_name_str name ++ py "_graph." ++ extension in
  let filepath := path_join output_dir filename in
  match serialize (dataset_graph d name) filepath format_name with
  | Ok _ =>
      let exported_files :=
        match dict_find exported_files (graph_name_str name) with
        | Some _ => exported_files
        | None => dict_set exported_files (graph_name_str name) []
        end in
      let inner :=
        match dict_find exported_files (graph_name_str name) with
        | Some files => files
        | None => []
        end in
      dict_set exported_files (graph_name_str name)
        (dict_set inner format_name filepath)
  | Raise _ => exported_files
  end.

Definition export_named_graphs (output_dir : str)
  : prog state (list (str * list (str * str))) :=
  fun s =>
    _ <- makedirs output_dir ;;
    Ok (fold_left
          (fun exported_files name =>
             fold_left (export_named_graph_format (dataset s) output_dir name)
               named_graph_formats exported_files)
          graph_names [], s).

End Manager.
End NamedGraphs.

(** * sparql_interface.py *)

Module SparqlInterface.

Definition nl : str := [10].
Definition dq : str := [34].

(** The scanner of [str.format]: in running text, after an opening
    brace, inside a replacement field, after a closing brace. *)
Inductive format_mode : Type :=
| Text
| Open
| Field (name_rev : str)
| Close.

Fixpoint dict_get (kwargs : list (str * str)) (name : str) : result str :=
  match kwargs with
  | [] => Raise (KeyError name)
  | (k, v) :: rest => if str_eqb k name then Ok v else dict_get rest name
  end.

(** [template.format(name=value, ...)] for templates whose replacement fields
    are plain names.  A substituted value is not scanned again. *)
Fixpoint format_go (kwargs : list (str * str)) (mode : format_mode)
  (template : str) : result str :=
  match template with
  | [] =>
      match mode with
      | Text => Ok []
      | _ => Raise (ValueError (py "Single brace encountered in format string"))
      end
  | c :: rest =>
      match mode with
      | Text =>
          if c =? chr "{" then format_go kwargs Open rest
          else if c =? chr "}" then format_go kwargs Close rest
          else out <- format_go kwargs Text rest ;; Ok (c :: out)
      | Open =>
          if c =? chr "{" then
            out <- format_go kwargs Text rest ;; Ok (chr "{" :: out)
          else if c =? chr "}" then Raise IndexError
          else format_go kwargs (Field [c]) rest
      | Field name_rev =>
          if c =? chr "}" then
            value <- dict_get kwargs (rev name_rev) ;;
            out <- format_go kwargs Text rest ;;
            Ok (value ++ out)
          else if c =? chr "{" then
            Raise (ValueError (py "unexpected brace in field name"))
          else format_go kwargs (Field (c :: name_rev)) rest
      | Close =>
          if c =? chr "}" then
            out <- format_go kwargs Text rest ;; Ok (chr "}" :: out)
          else Raise (ValueError (py "Single brace encountered in format string"))
      end
  end.

Definition format (template : str) (kwargs : list (str * str)) : result str :=
  format_go kwargs Text template.

(** [self.query_templates['multilingual_search'].template] *)
Definition multilingual_search_template : str :=
  nl ++
  py "            PREFIX lgont: <{lgont}>" ++ nl ++
  py "            PREFIX lglang: <{lglang}>" ++ nl ++
  py "            PREFIX rdfs: <{rdfs}>" ++ nl ++
  py "            " ++ nl ++
  py "            SELECT ?entity ?label ?language ?text ?confidence" ++ nl ++
  py "            WHERE {{" ++ nl ++
  py "                ?langAnnotation lgont:annotatesStatement ?statement ." ++ nl ++
  py "                ?langAnnotation lgont:text ?text ." ++ nl ++
  py "                ?langAnnotation lgont:languageCode ?language ." ++ nl ++
  py "                ?langAnnotation lgont:confidence ?confidence ." ++ nl ++
  py "                ?statement lgont:hasSubject ?entity ." ++ nl ++
  py "                ?entity rdfs:label ?label ." ++ nl ++
  py "                FILTER(CONTAINS(LCASE(?text), LCASE(" ++ dq
    ++ py "{search_term}" ++ dq ++ py ")))" ++ nl ++
  py "                {language_filter}" ++ nl ++
  py "            }}" ++ nl ++
  py "            ORDER BY DESC(?confidence)" ++ nl ++
  py "            ".

(** One row of a query result: each variable with its binding. *)
Definition row : Type := list (str * option term).

(** What the engine answers: the rows of bindings of a SELECT, the
    boolean of an ASK, or the triples of a CONSTRUCT or DESCRIBE. *)
Inductive answer : Type :=
| SelectRows (rows : list row)
| AskAnswer (b : bool)
| GraphTriples (ts : list triple).

(** One element of [list(self.dataset.query(query))]. *)
Inductive item : Type :=
| RowItem (r : row)
| BoolItem (b : bool)
| TripleItem (t : triple).

(** Iterating over a result gives its rows, its one boolean, or its
    triples. *)
Definition answer_items (a : answer) : list item :=
  match a with
  | SelectRows rows => map RowItem rows
  | AskAnswer b => [BoolItem b]
  | GraphTriples ts => map TripleItem ts
  end.

Record SPARQLQueryResult : Type := {
  query : str;
  results : list (list (str * str));
  execution_time : Q;
  result_count : nat;
  languages_found : list str;
  query_type : str
}.

(** [str(value)] of a binding. *)
Definition term_str (value : option term) : str :=
  match value with
  | Some (URIRef u) => u
  | Some (Literal lexical _ _) => lexical
  | None => py "None"
  end.

(** [str(e)] *)
Definition exn_str (e : exn) : str :=
  match e with
  | ZeroDivisionError => py "division by zero"
  | KeyError key => [39] ++ key ++ [39]
  | ValueError msg => msg
  | IndexError => py "Replacement index 0 out of range for positional args tuple"
  | AttributeError msg => msg
  | EngineError msg => msg
  end.

Section Interface.
Context {rt : Builtins}.
(** [self.base_uri] *)
Variable base_uri : str.
(** [self.dataset.query]: the answer, or the exception raised. *)
Variable dataset_query : str -> result answer.

Definition LGONT : str := base_uri ++ py "ontology/".
Definition LGLANG : str := base_uri ++ py "languages/".

Definition _determine_query_type (query : str) : str :=
  let query_lower := str_lower query in
  if contains (py "select") query_lower then py "select"
  else if contains (py "construct") query_lower then py "construct"
  else if contains (py "ask") query_lower then py "ask"
  else if contains (py "describe") query_lower then py "describe"
  else py "unknown".

(** The body of [for row in results]. *)
Definition process_row (acc : list (list (str * str)) * list str) (r : row)
  : list (list (str * str)) * list str :=
  let '(processed_results, languages_found) := acc in
  let '(result_dict, languages_found) :=
    fold_left
      (fun (st : list (str * str) * list str) (binding : str * option term) =>
         let '(result_dict, languages_found) := st in
         let '(var, value) := binding in
         match value with
         | Some (Literal _ (Some ((_ :: _) as language)) _) =>
             (dict_set result_dict var (term_str value),
              set_add languages_found language)
         | _ => (dict_set result_dict var (term_str value), languages_found)
         end)
      r ([], languages_found) in
  (processed_results ++ [result_dict], languages_found).

(** One turn of [for row in results]: [row.labels] is there on a row of
    bindings only, and reading it off a [bool] or a [tuple] raises. *)
Definition process_item
  (acc : result (list (list (str * str)) * list str)) (it : item)
  : result (list (list (str * str)) * list str) :=
  collected <- acc ;;
  match it with
  | RowItem r => Ok (process_row collected r)
  | BoolItem _ =>
      Raise (AttributeError (py "'bool' object has no attribute 'labels'"))
  | TripleItem _ =>
      Raise (AttributeError (py "'tuple' object has no attribute 'labels'"))
  end.

(** The [try] block of [execute_query]. *)
Definition execute_query_try (query : str) (start_time end_time : Q)
  : result SPARQLQueryResult :=
  results <- dataset_query query ;;
  collected <- fold_left process_item (answer_items results) (Ok ([], [])) ;;
  let '(processed_results, languages_found) := collected in
  let execution_time := (end_time - start_time)%Q in
  let query_type := _determine_query_type query in
  Ok {| query := query;
        results := processed_results;
        execution_time := execution_time;
        result_count := len processed_results;
        languages_found := languages_found;
        query_type := query_type |}.

(** [start_time] and [end_time] are the two readings of the clock. *)
Definition execute_query (query : str) (start_time end_time : Q)
  : SPARQLQueryResult :=
  match execute_query_try query start_time end_time with
  | Ok r => r
  | Raise e =>
      let execution_time := (end_time - start_time)%Q in
      {| query := query;
         results := [[(py "error", exn_str e)]];
         execution_time := execution_time;
         result_count := 0;
         languages_found := [];
         query_type := py "error" |}
  end.

(** The query string built by [multilingual_search]. *)
Definition multilingual_search_query (search_term : str)
  (languages : option (list str)) (min_confidence : Q) (limit : Z)
  : result str :=
  let language_filter :=
    match languages with
    | Some ((_ :: _) as langs) =>
        if negb (str_in (py "all") langs) then
          let lang_conditions :=
            map (fun lang => py "?language = " ++ dq ++ lang ++ dq) langs in
          py "FILTER(" ++ join (py " || ") lang_conditions ++ py ")"
        else []
    | _ => []
    end in
  let language_filter :=
    match language_filter with
    | _ :: _ =>
        language_filter ++ py " FILTER(?confidence >= "
        ++ float_repr min_confidence ++ py ")"
    | [] => py "FILTER(?confidence >= " ++ float_repr min_confidence ++ py ")"
    end in
  query <- format multilingual_search_template
             [ (py "lgont", LGONT);
               (py "lglang", LGLANG);
               (py "rdfs", RDFS_ns);
               (py "search_term", search_term);
               (py "language_filter", language_filter) ] ;;
  Ok (query ++ nl ++ py "LIMIT " ++ str_of_Z limit).

Definition multilingual_search (search_term : str)
  (languages : option (list str)) (min_confidence : Q) (limit : Z)
  (start_time end_time : Q) : result SPARQLQueryResult :=
  query <- multilingual_search_query search_term languages min_confidence limit ;;
  Ok (execute_query query start_time end_time).


(** *** The other query templates *)

Definition LGDATA : str := base_uri ++ py "data/".
Definition LGRLHF : str := base_uri ++ py "rlhf/".
Definition DCTERMS_ns : str := py "http://purl.org/dc/terms/".
Definition SKOS_ns : str := py "http://www.w3.org/2004/02/skos/core#".

(** [self.query_templates['entities_by_type'].template] *)
Definition entities_by_type_template : str :=
  nl ++
  py "            PREFIX lgont: <{lgont}>" ++ nl ++
  py "            PREFIX lgdata: <{lgdata}>" ++ nl ++
  py "            PREFIX rdfs: <{rdfs}>" ++ nl ++
  py "            " ++ nl ++
  py "            SELECT ?entity ?label ?type" ++ nl ++
  py "            WHERE {{" ++ nl ++
  py "                ?entity rdf:type ?type ." ++ nl ++
  py "                ?entity rdfs:label ?label ." ++ nl ++
  py "                FILTER(?type = lgont:{entity_type})" ++ nl ++
  py "                {language_filter}" ++ nl ++
  py "            }}" ++ nl ++
  py "            ORDER BY ?label" ++ nl ++
  py "            ".

(** [self.query_templates['relationships'].template] *)
Definition relationships_template : str :=
  nl ++
  py "            PREFIX lgont: <{lgont}>" ++ nl ++
  py "            PREFIX lgdata: <{lgdata}>" ++ nl ++
  py "            PREFIX rdfs: <{rdfs}>" ++ nl ++
  py "            " ++ nl ++
  py "            SELECT ?subject ?predicate ?object ?subjectLabel ?objectLabel" ++ nl ++
  py "            WHERE {{" ++ nl ++
  py "                ?statement lgont:hasSubject ?subject ." ++ nl ++
  py "                ?statement lgont:hasPredicate ?predicate ." ++ nl ++
  py "                ?statement lgont:hasObject ?object ." ++ nl ++
  py "                ?subject rdfs:label ?subjectLabel ." ++ nl ++
  py "                ?object rdfs:label ?objectLabel ." ++ nl ++
  py "                {subject_filter}" ++ nl ++
  py "                {predicate_filter}" ++ nl ++
  py "                {language_filter}" ++ nl ++
  py "            }}" ++ nl ++
  py "            ORDER BY ?subjectLabel" ++ nl ++
  py "            ".

(** [self.query_templates['rlhf_analysis'].template] *)
Definition rlhf_analysis_template : str :=
  nl ++
  py "            PREFIX lgont: <{lgont}>" ++ nl ++
  py "            PREFIX lgrlhf: <{lgrlhf}>" ++ nl ++
  py "            PREFIX dcterms: <{dcterms}>" ++ nl ++
  py "            " ++ nl ++
  py "            SELECT ?feedback ?statementId ?feedbackType ?qualityScore " ++ nl ++
  py "                   ?relevanceScore ?culturalScore ?annotator ?timestamp" ++ nl ++
  py "            WHERE {{" ++ nl ++
  py "                ?feedback lgont:statementId ?statementId ." ++ nl ++
  py "                ?feedback lgont:feedbackType ?feedbackType ." ++ nl ++
  py "                ?feedback lgont:qualityScore ?qualityScore ." ++ nl ++
  py "                ?feedback lgont:relevanceScore ?relevanceScore ." ++ nl ++
  py "                ?feedback lgont:culturalAppropriateness ?culturalScore ." ++ nl ++
  py "                ?feedback lgont:providedBy ?annotator ." ++ nl ++
  py "                ?feedback dcterms:created ?timestamp ." ++ nl ++
  py "                {feedback_type_filter}" ++ nl ++
  py "                {quality_filter}" ++ nl ++
  py "            }}" ++ nl ++
  py "            ORDER BY DESC(?qualityScore)" ++ nl ++
  py "            ".

(** [self.query_templates['cross_cultural'].template] *)
Definition cross_cultural_template : str :=
  nl ++
  py "            PREFIX lgont: <{lgont}>" ++ nl ++
  py "            PREFIX lglang: <{lglang}>" ++ nl ++
  py "            PREFIX skos: <{skos}>" ++ nl ++
  py "            PREFIX rdfs: <{rdfs}>" ++ nl ++
  py "            " ++ nl ++
  py "            SELECT ?concept ?label ?altLabel ?language ?culturalContext" ++ nl ++
  py "            WHERE {{" ++ nl ++
  py "                ?concept rdfs:label ?label ." ++ nl ++
  py "                ?concept skos:altLabel ?altLabel ." ++ nl ++
  py "                ?langAnnotation lgont:annotatesStatement ?statement ." ++ nl ++
  py "                ?statement lgont:hasSubject ?concept ." ++ nl ++
  py "                ?langAnnotation lgont:languageCode ?language ." ++ nl ++
  py "                ?langAnnotation lgont:culturalContext ?culturalContext ." ++ nl ++
  py "                FILTER(CONTAINS(LCASE(?label), LCASE(" ++ dq
    ++ py "{concept_term}" ++ dq ++ py ")) || " ++ nl ++
  py "                       CONTAINS(LCASE(?altLabel), LCASE(" ++ dq
    ++ py "{concept_term}" ++ dq ++ py ")))" ++ nl ++
  py "                {language_filter}" ++ nl ++
  py "            }}" ++ nl ++
  py "            ORDER BY ?language ?culturalContext" ++ nl ++
  py "            ".

(** The query string built by [find_entities_by_type]. *)
Definition find_entities_by_type_query (entity_type : str)
  (language : option str) (limit : Z) : result str :=
  let language_filter :=
    match language with
    | Some ((_ :: _) as lang) =>
        if negb (str_eqb lang (py "all"))
        then py "FILTER(LANG(?label) = " ++ dq ++ lang ++ dq ++ py ")"
        else []
    | _ => []
    end in
  query <- format entities_by_type_template
             [ (py "lgont", LGONT);
               (py "lgdata", LGDATA);
               (py "rdfs", RDFS_ns);
               (py "entity_type", entity_type);
               (py "language_filter", language_filter) ] ;;
  Ok (query ++ nl ++ py "LIMIT " ++ str_of_Z limit).

(** The query string built by [find_relationships]. *)
Definition find_relationships_query (subject predicate language : option str)
  (limit : Z) : result str :=
  let subject_filter :=
    match subject with
    | Some ((_ :: _) as subject) =>
        py "FILTER(CONTAINS(LCASE(?subjectLabel), LCASE(" ++ dq ++ subject
        ++ dq ++ py ")))"
    | _ => []
    end in
  let predicate_filter :=
    match predicate with
    | Some ((_ :: _) as predicate) =>
        py "FILTER(CONTAINS(STR(?predicate), " ++ dq ++ predicate ++ dq
        ++ py "))"
    | _ => []
    end in
  let language_filter :=
    match language with
    | Some ((_ :: _) as lang) =>
        if negb (str_eqb lang (py "all"))
        then py "FILTER(LANG(?subjectLabel) = " ++ dq ++ lang ++ dq
             ++ py " || LANG(?objectLabel) = " ++ dq ++ lang ++ dq ++ py ")"
        else []
    | _ => []
    end in
  query <- format relationships_template
             [ (py "lgont", LGONT);
               (py "lgdata", LGDATA);
               (py "rdfs", RDFS_ns);
               (py "subject_filter", subject_filter);
               (py "predicate_filter", predicate_filter);
               (py "language_filter", language_filter) ] ;;
  Ok (query ++ nl ++ py "LIMIT " ++ str_of_Z limit).

(** The query string built by [analyze_rlhf_feedback]. *)
Definition analyze_rlhf_feedback_query (feedback_type : option str)
  (min_quality : Q) (limit : Z) : result str :=
  let feedback_type_filter :=
    match feedback_type with
    | Some ((_ :: _) as feedback_type) =>
        py "FILTER(?feedbackType = " ++ dq ++ feedback_type ++ dq ++ py ")"
    | _ => []
    end in
  let quality_filter :=
    if Qgtb min_quality 0
    then py "FILTER(?qualityScore >= " ++ float_repr min_quality ++ py ")"
    else [] in
  query <- format rlhf_analysis_template
             [ (py "lgont", LGONT);
               (py "lgrlhf", LGRLHF);
               (py "dcterms", DCTERMS_ns);
               (py "feedback_type_filter", feedback_type_filter);
               (py "quality_filter", quality_filter) ] ;;
  Ok (query ++ nl ++ py "LIMIT " ++ str_of_Z limit).

(** The query string built by [cross_cultural_analysis]. *)
Definition cross_cultural_analysis_query (concept_term : str)
  (languages : option (list str)) (limit : Z) : result str :=
  let language_filter :=
    match languages with
    | Some ((_ :: _) as langs) =>
        if negb (str_in (py "all") langs) then
          let lang_conditions :=
            map (fun lang => py "?language = " ++ dq ++ lang ++ dq) langs in
          py "FILTER(" ++ join (py " || ") lang_conditions ++ py ")"
        else []
    | _ => []
    end in
  query <- format cross_cultural_template
             [ (py "lgont", LGONT);
               (py "lglang", LGLANG);
               (py "skos", SKOS_ns);
               (py "rdfs", RDFS_ns);
               (py "concept_term", concept_term);
               (py "language_filter", language_filter) ] ;;
  Ok (query ++ nl ++ py "LIMIT " ++ str_of_Z limit).

(** *** Listings read from a query result *)

(** [int(s)] on a string: the number, or [ValueError]. *)
Variable int_of_str : str -> result Z.

(** [self.supported_languages] *)
Definition supported_languages : list (str * str) :=
  [ (py "en", py "English"); (py "es", py "Spanish"); (py "ar", py "Arabic");
    (py "id", py "Indonesian"); (py "zh", py "Chinese"); (py "hi", py "Hindi");
    (py "fr", py "French"); (py "de", py "German") ].

(** [row.get(key, default)] on a row of [result.results]. *)
Definition row_get (r : list (str * str)) (key default : str) : str :=
  match dict_find r key with
  | Some v => v
  | None => default
  end.

(** [int(row.get('count', 0))] *)
Definition row_count (r : list (str * str)) : result Z :=
  match dict_find r (py "count") with
  | Some v => int_of_str v
  | None => Ok 0%Z
  end.

Record language_entry : Type := {
  le_code : str;
  le_name : str;
  le_annotation_count : Z
}.

Definition available_languages_query : str :=
  nl ++
  py "        PREFIX lglang: <" ++ LGLANG ++ py ">" ++ nl ++
  py "        PREFIX lgont: <" ++ LGONT ++ py ">" ++ nl ++
  py "        " ++ nl ++
  py "        SELECT DISTINCT ?language ?languageName (COUNT(?annotation) as ?count)" ++ nl ++
  py "        WHERE {" ++ nl ++
  py "            ?annotation lgont:languageCode ?language ." ++ nl ++
  py "            OPTIONAL {" ++ nl ++
  py "                ?langEntity lgont:languageCode ?language ." ++ nl ++
  py "                ?langEntity rdfs:label ?languageName ." ++ nl ++
  py "            }" ++ nl ++
  py "        }" ++ nl ++
  py "        GROUP BY ?language ?languageName" ++ nl ++
  py "        ORDER BY DESC(?count)" ++ nl ++
  py "        ".

(** The body of the loop of [get_available_languages]. *)
Definition language_of_row (acc : result (list language_entry))
  (r : list (str * str)) : result (list language_entry) :=
  languages <- acc ;;
  let lang_code := row_get r (py "language") [] in
  let lang_name :=
    row_get r (py "languageName")
      (match dict_find supported_languages lang_code with
       | Some n => n
       | None => lang_code
       end) in
  count <- row_count r ;;
  Ok (languages ++ [ {| le_code := lang_code;
                        le_name := lang_name;
                        le_annotation_count := count |} ]).

Definition get_available_languages (start_time end_time : Q)
  : result (list language_entry) :=
  let result := execute_query available_languages_query start_time end_time in
  fold_left language_of_row (results result) (Ok []).

Record entity_type_entry : Type := {
  et_uri : str;
  et_name : str;
  et_label : str;
  et_count : Z
}.

Definition entity_types_query : str :=
  nl ++
  py "        PREFIX lgont: <" ++ LGONT ++ py ">" ++ nl ++
  py "        PREFIX rdfs: <" ++ RDFS_ns ++ py ">" ++ nl ++
  py "        " ++ nl ++
  py "        SELECT DISTINCT ?type ?typeLabel (COUNT(?entity) as ?count)" ++ nl ++
  py "        WHERE {" ++ nl ++
  py "            ?entity rdf:type ?type ." ++ nl ++
  py "            ?type rdfs:label ?typeLabel ." ++ nl ++
  py "            FILTER(STRSTARTS(STR(?type), STR(lgont:)))" ++ nl ++
  py "        }" ++ nl ++
  py "        GROUP BY ?type ?typeLabel" ++ nl ++
  py "        ORDER BY DESC(?count)" ++ nl ++
  py "        ".

(** The body of the loop of [get_entity_types]. *)
Definition entity_type_of_row (acc : result (list entity_type_entry))
  (r : list (str * str)) : result (list entity_type_entry) :=
  entity_types <- acc ;;
  let entity_type := row_get r (py "type") [] in
  let type_label := row_get r (py "typeLabel") [] in
  count <- row_count r ;;
  let simple_name :=
    if existsb (N.eqb (chr "/")) entity_type
    then last (split_on (chr "/") entity_type) []
    else entity_type in
  Ok (entity_types ++ [ {| et_uri := entity_type;
                           et_name := simple_name;
                           et_label := type_label;
                           et_count := count |} ]).

Definition get_entity_types (start_time end_time : Q)
  : result (list entity_type_entry) :=
  let result := execute_query entity_types_query start_time end_time in
  fold_left entity_type_of_row (results result) (Ok []).

(** *** Export of a query result *)

(** [json.dumps(data, indent=2, ensure_ascii=False)] on the fields of a
    result; the text that [csv.DictWriter] writes for the rows with the
    keys of the first row as its header, or the exception it raises; the
    outcome of opening a file for writing. *)
Variable json_dumps : SPARQLQueryResult -> str.
Variable csv_write : list (list (str * str)) -> result str.
Variable open_w : str -> result unit.

(** The files written so far: path and content. *)
Definition files : Type := list (str * str).

Definition write_file (path content : str) : prog files unit :=
  fun fs => _ <- open_w path ;; Ok (tt, dict_set fs path content).

Definition export_query_results (result : SPARQLQueryResult)
  (output_format : str) (output_file : option str) : prog files str :=
  if str_eqb output_format (py "json") then
    let data := json_dumps result in
    match output_file with
    | Some ((_ :: _) as output_file) =>
        write_file output_file data ;;; ret output_file
    | _ => ret data
    end
  else if str_eqb output_format (py "csv") then
    match results result with
    | [] => ret []
    | _ :: _ =>
        csv_content <~ lift (csv_write (results result)) ;;
        match output_file with
        | Some ((_ :: _) as output_file) =>
            write_file output_file csv_content ;;; ret output_file
        | _ => ret csv_content
        end
    end
  else lift (Raise (ValueError (py "Unsupported output format: "
                                ++ output_format))).

End Interface.
End SparqlInterface.

(** * rdflib.py *)

Module LimitgraphToRdf.

(** [limitgraph_to_rdf(triples, base_uri)] *)
Definition limitgraph_to_rdf (triples : list (str * str * str)) (base_uri : str)
  : Graph :=
  fold_left
    (fun g (t : str * str * str) =>
       let '(subj, pred, obj) := t in
       graph_add g (ns_term base_uri subj, ns_term base_uri pred,
                    ns_term base_uri obj))
    triples [].

End LimitgraphToRdf.

(** * An instance of the built-ins for evaluation

    The tables are those of CPython on the code points below 128; other
    code points are left alone by [ascii_lower] and belong to no class.
    The pattern engine reports no match, so the instance evaluates the
    model on texts on which no surface pattern fires. *)

Definition ascii_lower (s : str) : str :=
  map (fun c => if (65 <=? c) && (c <=? 90) then c + 32 else c) s.

Definition ascii_isspace (c : char) : bool :=
  ((9 <=? c) && (c <=? 13)) || ((28 <=? c) && (c <=? 32)).

Definition ascii_isalnum (c : char) : bool :=
  ((48 <=? c) && (c <=? 57)) || ((65 <=? c) && (c <=? 90))
  || ((97 <=? c) && (c <=? 122)).

(** Digits of the fractional part [r / d], at most [fuel] of them. *)
Fixpoint frac_digits (fuel : nat) (r d : Z) : list nat :=
  match fuel with
  | O => []
  | S fuel' =>
      if (r =? 0)%Z then []
      else Z.to_nat (10 * r / d) :: frac_digits fuel' (10 * r mod d) d
  end.

(** The shortest decimal form of a non-negative rational whose expansion
    terminates within 17 digits, written as [repr] writes a float. *)
Definition decimal_repr (q : Q) : str :=
  let n := Qnum q in
  let d := Zpos (Qden q) in
  str_of_nat (Z.to_nat (n / d)) ++ py "." ++
  match frac_digits 17 (n mod d) d with
  | [] => py "0"
  | ds => flat_map str_of_nat ds
  end.

Definition example_uuid4 (n : nat) : str :=
  py "00000000-0000-4000-8000-" ++ str_of_nat n.

Definition example_now (n : nat) : str :=
  py "2024-01-01T00:00:" ++ str_of_nat n.

Definition ascii_builtins : Builtins := {|
  str_lower := ascii_lower;
  chr_isspace := ascii_isspace;
  chr_isalnum := ascii_isalnum;
  re_finditer := fun _ _ => [];
  float_repr := decimal_repr;
  uuid4 := example_uuid4;
  now_isoformat := example_now;
  literal_bool := fun _ b => if b then py "true" else py "false"
|}.

(** * Vocabulary of the specification *)

(** The codes the classifier can name: the keys of its lexicon table. *)
Definition classifier_codes : list str :=
  map fst TripleGenerator.language_patterns.

(** The cleaning rule in the words of the specification: every white
    space character and every hyphen becomes the connector, then every
    character that is neither alphanumeric nor the connector is dropped. *)
Definition clean_as_specified {rt : Builtins} (label : str) : str :=
  filter (fun c => chr_isalnum c || (c =? chr "_"))
    (map (fun c => if chr_isspace c || (c =? chr "-") then chr "_" else c)
       label).

(** The characters that the source turns into the connector, and the
    connector itself. *)
Definition is_connector_source (c : char) : bool :=
  (c =? chr " ") || (c =? chr "-") || (c =? chr "_").

(** [s.count(c)] *)
Definition count (c : char) (s : str) : nat := len (filter (N.eqb c) s).

(** The namespaces in which the two classes mint identifiers. *)
Inductive namespace : Type :=
| NsData | NsOntology | NsProvenance | NsRlhf | NsAnnotators | NsLanguages.

Definition namespace_uri (base_uri : str) (ns : namespace) : str :=
  base_uri ++
  py match ns with
     | NsData => "data/"
     | NsOntology => "ontology/"
     | NsProvenance => "provenance/"
     | NsRlhf => "rlhf/"
     | NsAnnotators => "annotators/"
     | NsLanguages => "languages/"
     end.

(** Minting: [self.<NS>[self._clean_uri_component(label)]]. *)
Definition mint {rt : Builtins} (base_uri : str) (ns : namespace) (label : str)
  : term :=
  ns_term (namespace_uri base_uri ns) (TripleGenerator._clean_uri_component label).

(** The escape characters of a SPARQL string literal (ECHAR). *)
Definition is_echar (c : char) : bool :=
  existsb (N.eqb c)
    [chr "t"; chr "b"; chr "n"; chr "r"; chr "f"; 92; 34; 39].

(** A SPARQL lexer on a double-quoted string literal, started after the
    opening quote: the body up to the first quote that is not escaped,
    and the text after that quote.  [None] when the literal is not
    closed or holds a bare line break or a bad escape. *)
Fixpoint read_literal (s : str) : option (str * str) :=
  match s with
  | [] => None
  | c :: s' =>
      if c =? 34 then Some ([], s')
      else if c =? 92 then
        match s' with
        | e :: s'' =>
            if is_echar e then
              match read_literal s'' with
              | Some (body, rest) => Some (c :: e :: body, rest)
              | None => None
              end
            else None
        | [] => None
        end
      else if (c =? 10) || (c =? 13) then None
      else
        match read_literal s' with
        | Some (body, rest) => Some (c :: body, rest)
        | None => None
        end
  end.

(** A character that needs no escape inside a literal. *)
Definition plain_char (c : char) : bool :=
  negb ((c =? 34) || (c =? 92) || (c =? 10) || (c =? 13)).

(** The rendering of the multilingual-search template up to the opening
    quote of the search-term literal, and after its closing quote. *)
Definition rendered_head (lgont lglang rdfs : str) : str :=
  SparqlInterface.nl ++
  py "            PREFIX lgont: <" ++ lgont ++ py ">" ++ SparqlInterface.nl ++
  py "            PREFIX lglang: <" ++ lglang ++ py ">" ++ SparqlInterface.nl ++
  py "            PREFIX rdfs: <" ++ rdfs ++ py ">" ++ SparqlInterface.nl ++
  py "            " ++ SparqlInterface.nl ++
  py "            SELECT ?entity ?label ?language ?text ?confidence"
    ++ SparqlInterface.nl ++
  py "            WHERE {" ++ SparqlInterface.nl ++
  py "                ?langAnnotation lgont:annotatesStatement ?statement ."
    ++ SparqlInterface.nl ++
  py "                ?langAnnotation lgont:text ?text ." ++ SparqlInterface.nl ++
  py "                ?langAnnotation lgont:languageCode ?language ."
    ++ SparqlInterface.nl ++
  py "                ?langAnnotation lgont:confidence ?confidence ."
    ++ SparqlInterface.nl ++
  py "                ?statement lgont:hasSubject ?entity ." ++ SparqlInterface.nl ++
  py "                ?entity rdfs:label ?label ." ++ SparqlInterface.nl ++
  py "                FILTER(CONTAINS(LCASE(?text), LCASE(".

Definition rendered_tail (language_filter : str) (limit : Z) : str :=
  py ")))" ++ SparqlInterface.nl ++
  py "                " ++ language_filter ++ SparqlInterface.nl ++
  py "            }" ++ SparqlInterface.nl ++
  py "            ORDER BY DESC(?confidence)" ++ SparqlInterface.nl ++
  py "            " ++ SparqlInterface.nl ++
  py "LIMIT " ++ str_of_Z limit.

(** The dictionary that [execute_query] builds from one row. *)
Definition row_dict (r : SparqlInterface.row) : list (str * str) :=
  fold_left (fun d (binding : str * option term) =>
               dict_set d (fst binding) (SparqlInterface.term_str (snd binding)))
            r [].

(** The triples that [add_rlhf_feedback_trace] adds to the feedback
    graph, in the order of the calls. *)
Definition feedback_triples {rt : Builtins} (base_uri : str)
  (tr : NamedGraphs.RLHFFeedbackTrace) : list triple :=
  let feedback_uri :=
    NamedGraphs.LGRLHF base_uri (py "feedback_" ++ NamedGraphs.feedback_id tr) in
  let ont := NamedGraphs.LGONT base_uri in
  [ (feedback_uri, RDF_type, ont (py "RLHFFeedback"));
    (feedback_uri, ont (py "feedbackId"),
     Literal (NamedGraphs.feedback_id tr) None None);
    (feedback_uri, ont (py "statementId"),
     Literal (NamedGraphs.statement_id tr) None None);
    (feedback_uri, ont (py "feedbackType"),
     Literal (NamedGraphs.feedback_type tr) None None);
    (feedback_uri, ont (py "qualityScore"),
     Literal (float_repr (NamedGraphs.quality_score tr)) None (XSD "float"));
    (feedback_uri, ont (py "relevanceScore"),
     Literal (float_repr (NamedGraphs.relevance_score tr)) None (XSD "float"));
    (feedback_uri, ont (py "culturalAppropriateness"),
     Literal (float_repr (NamedGraphs.cultural_appropriateness tr)) None
       (XSD "float"));
    (feedback_uri, DCTERMS_created,
     Literal (NamedGraphs.timestamp tr) None (XSD "dateTime"));
    (feedback_uri, ont (py "providedBy"),
     NamedGraphs.LGANG base_uri (NamedGraphs.annotator_id tr)) ]
  ++ match NamedGraphs.feedback_text tr with
     | Some ((_ :: _) as txt) =>
         [(feedback_uri, ont (py "feedbackText"), Literal txt None None)]
     | _ => []
     end
  ++ match NamedGraphs.session_id tr with
     | Some ((_ :: _) as sid) =>
         [(feedback_uri, ont (py "sessionId"), Literal sid None None)]
     | _ => []
     end.

(** The triples that [_add_audit_entry] adds to the audit graph. *)
Definition audit_triples {rt : Builtins} (base_uri : str)
  (audit_id created action : str) (details : list (str * str)) : list triple :=
  let audit_uri := NamedGraphs.LGPROV base_uri (py "audit_" ++ audit_id) in
  [ (audit_uri, RDF_type, NamedGraphs.LGONT base_uri (py "AuditEntry"));
    (audit_uri, NamedGraphs.LGONT base_uri (py "action"),
     Literal action None None);
    (audit_uri, DCTERMS_created, Literal created None (XSD "dateTime")) ]
  ++ map (fun '(key, value) =>
            (audit_uri,
             NamedGraphs.LGPROV base_uri (NamedGraphs._clean_uri_component key),
             Literal value None None))
         details.

(** The audit entries of a graph: its nodes of type [AuditEntry]. *)
Definition is_audit_entry (base_uri : str) (t : triple) : bool :=
  let '(_, p, o) := t in
  term_eqb p RDF_type && term_eqb o (NamedGraphs.LGONT base_uri (py "AuditEntry")).

Definition audit_entries (base_uri : str) (g : Graph) : list triple :=
  filter (is_audit_entry base_uri) g.

Definition empty_dataset : NamedGraphs.Dataset :=
  {| NamedGraphs.g_main := []; NamedGraphs.g_provenance := [];
     NamedGraphs.g_annotators := []; NamedGraphs.g_languages := [];
     NamedGraphs.g_rlhf := []; NamedGraphs.g_audit := [] |}.

(** A trace whose [feedback_type] is none of the three kinds. *)
Definition bogus_trace : NamedGraphs.RLHFFeedbackTrace :=
  {| NamedGraphs.feedback_id := py "fb_001";
     NamedGraphs.statement_id := py "statement_001";
     NamedGraphs.feedback_type := py "bogus";
     NamedGraphs.quality_score := 9 # 10;
     NamedGraphs.relevance_score := 85 # 100;
     NamedGraphs.cultural_appropriateness := 95 # 100;
     NamedGraphs.feedback_text := None;
     NamedGraphs.annotator_id := py "ann_001";
     NamedGraphs.timestamp := py "2024-01-01T00:00:00";
     NamedGraphs.session_id := None |}.

(** A candidate fact of the universal rule of the extractor. *)
Definition is_contains_text (td : TripleGenerator.triple_data) : bool :=
  str_eqb (TripleGenerator.td_predicate td) (py "contains_text").

(** The term [add_triple_to_graph] writes for the object of a fact. *)
Definition object_term {rt : Builtins} (base_uri : str) (value lang : str)
  : term :=
  if TripleGenerator._is_entity value
  then TripleGenerator.LGDATA base_uri
         (TripleGenerator._clean_uri_component value)
  else Literal value
         (match lang with [] => None | _ :: _ => Some (langtag_lower lang) end)
         None.

(** The triples that [_add_provenance_triples] adds, in the order of
    the calls. *)
Definition statement_triples {rt : Builtins} (base_uri : str) (st : term)
  (tr : TripleGenerator.LimitGraphTriple)
  (subject_uri predicate_uri object_uri : term) : list triple :=
  let ont := TripleGenerator.LGONT base_uri in
  [ (st, RDF_type, ont (py "Statement"));
    (st, ont (py "hasSubject"), subject_uri);
    (st, ont (py "hasPredicate"), predicate_uri);
    (st, ont (py "hasObject"), object_uri);
    (st, ont (py "confidence"),
     Literal (float_repr (TripleGenerator.confidence tr)) None (XSD "float"));
    (st, ont (py "sourceLanguage"),
     Literal (TripleGenerator.source_language tr) None (XSD "string"));
    (st, ont (py "annotatorId"),
     Literal (TripleGenerator.annotator_id tr) None (XSD "string"));
    (st, ont (py "timestamp"),
     Literal (TripleGenerator.timestamp tr) None (XSD "dateTime")) ]
  ++ match TripleGenerator.provenance tr with
     | Some ((_ :: _) as items) =>
         map (fun '(key, value) =>
                (st,
                 TripleGenerator.LGPROV base_uri
                   (TripleGenerator._clean_uri_component key),
                 Literal value None (XSD "string")))
             items
     | _ => []
     end.

(** The triples that [add_triple_to_graph] adds for a triple without
    feedback whose statement gets the identifier [statement_id]: the
    fact, then its statement. *)
Definition written_triples {rt : Builtins} (base_uri : str)
  (tr : TripleGenerator.LimitGraphTriple) (statement_id : str) : list triple :=
  let subject_uri :=
    TripleGenerator.LGDATA base_uri
      (TripleGenerator._clean_uri_component (TripleGenerator.subject tr)) in
  let predicate_uri :=
    TripleGenerator.LGONT base_uri
      (TripleGenerator._clean_uri_component (TripleGenerator.predicate tr)) in
  let object_uri :=
    object_term base_uri (TripleGenerator.object tr)
      (TripleGenerator.source_language tr) in
  (subject_uri, predicate_uri, object_uri)
  :: statement_triples base_uri
       (TripleGenerator.LGPROV base_uri (py "statement_" ++ statement_id))
       tr subject_uri predicate_uri object_uri.

(** A triple that records a source language names a classifier code. *)
Definition source_language_ok (base_uri : str) (t : triple) : Prop :=
  forall s o,
    t = (s, TripleGenerator.LGONT base_uri (py "sourceLanguage"), o) ->
    exists l, In l classifier_codes /\ o = Literal l None (XSD "string").

(** From [s] to [s'] the graph lost nothing, and every triple it gained
    satisfies [P]. *)
Definition grows (P : triple -> Prop) (s s' : TripleGenerator.state) : Prop :=
  (forall t, In t (TripleGenerator.graph s) -> In t (TripleGenerator.graph s')) /\
  (forall t, In t (TripleGenerator.graph s') ->
             In t (TripleGenerator.graph s) \/ P t).

(** The statement of the contains_text fact of a document is in the
    graph: the fact itself, and a statement node with its subject,
    predicate, object, confidence and source text. *)
Definition contains_text_written {rt : Builtins} (base_uri : str)
  (doc_id text : str) (g : Graph) : Prop :=
  exists source_language statement_id,
    In source_language classifier_codes /\
    let ont := TripleGenerator.LGONT base_uri in
    let subject_uri :=
      TripleGenerator.LGDATA base_uri
        (TripleGenerator._clean_uri_component (py "document_" ++ doc_id)) in
    let predicate_uri :=
      ont (TripleGenerator._clean_uri_component (py "contains_text")) in
    let object_uri := object_term base_uri text source_language in
    let st := TripleGenerator.LGPROV base_uri (py "statement_" ++ statement_id) in
    In (subject_uri, predicate_uri, object_uri) g /\
    In (st, RDF_type, ont (py "Statement")) g /\
    In (st, ont (py "hasSubject"), subject_uri) g /\
    In (st, ont (py "hasPredicate"), predicate_uri) g /\
    In (st, ont (py "hasObject"), object_uri) g /\
    In (st, ont (py "confidence"),
        Literal (float_repr 1) None (XSD "float")) g /\
    In (st, ont (py "sourceLanguage"),
        Literal source_language None (XSD "string")) g /\
    In (st,
        TripleGenerator.LGPROV base_uri
          (TripleGenerator._clean_uri_component (py "source_text")),
        Literal text None (XSD "string")) g.

(** What one turn of the loop over the extracted candidates leaves in
    the graph for the candidate [td]. *)
Definition candidate_written {rt : Builtins} (base_uri text : str)
  (td : TripleGenerator.triple_data) (s : TripleGenerator.state) : Prop :=
  exists tr statement_id,
    TripleGenerator.subject tr = TripleGenerator.td_subject td /\
    TripleGenerator.predicate tr = TripleGenerator.td_predicate td /\
    TripleGenerator.object tr = TripleGenerator.td_object td /\
    TripleGenerator.confidence tr = TripleGenerator.td_confidence td /\
    In (TripleGenerator.source_language tr) classifier_codes /\
    (exists a b c,
       TripleGenerator.provenance tr
       = Some [a; b; c; (py "source_text", text)]) /\
    forall t, In t (written_triples base_uri tr statement_id) ->
              In t (TripleGenerator.graph s).

(** What the loop over the corpus leaves in the graph for [doc]. *)
Definition document_written {rt : Builtins} (base_uri : str)
  (doc : TripleGenerator.document) (s : TripleGenerator.state) : Prop :=
  forall t,
    TripleGenerator.text doc = Some t -> t <> [] ->
    exists doc_id,
      (forall i, TripleGenerator._id doc = Some i -> doc_id = i) /\
      contains_text_written base_uri doc_id t (TripleGenerator.graph s).

Definition languages_ok (acc : TripleGenerator.counters) : Prop :=
  forall l, In l (TripleGenerator.languages_so_far acc) ->
            In l classifier_codes.

(** The triples of a graph that state contains_text with a literal
    object. *)
Definition contains_text_literals {rt : Builtins} (base_uri : str) (g : Graph)
  : list triple :=
  filter (fun t : triple =>
            let '(_, p, o) := t in
            term_eqb p (TripleGenerator.LGONT base_uri
                          (TripleGenerator._clean_uri_component
                             (py "contains_text")))
            && match o with Literal _ _ _ => true | URIRef _ => false end)
         g.

(** The number of stop words of a lexicon among the tokens of a text. *)
Definition hits {rt : Builtins} (text : str) (patterns : list str) : Z :=
  TripleGenerator.score (split (str_lower text)) patterns.

(** The dictionary [language_scores] that the loop of [detect_language]
    builds from an empty one. *)
Definition scored_languages (words : list str)
  (table : list (str * list str)) : list (str * Q) :=
  map (fun item : str * list str =>
         (fst item,
          Qmake (TripleGenerator.score words (snd item))
                (Z.to_pos (Z.of_nat (len words)))))
      (filter (fun item : str * list str =>
                 (0 <? TripleGenerator.score words (snd item))%Z) table).

(** [g'] is [g] after some calls of [Graph.add]. *)
Definition graph_extends (g g' : Graph) : Prop :=
  exists ts, g' = fold_left graph_add ts g.

(** [if text:] on the text of a document. *)
Definition has_text (doc : TripleGenerator.document) : bool :=
  match TripleGenerator.text doc with
  | Some (_ :: _) => true
  | _ => false
  end.

(** The triples that [register_annotator] adds to the annotators graph,
    in the order of the calls. *)
Definition annotator_triples {rt : Builtins} (base_uri : str)
  (p : NamedGraphs.AnnotatorProfile) : list triple :=
  let annotator_uri := NamedGraphs.LGANG base_uri (NamedGraphs.profile_id p) in
  let ont := NamedGraphs.LGONT base_uri in
  [ (annotator_uri, RDF_type, ont (py "Annotator"));
    (annotator_uri, NamedGraphs.FOAF_name,
     Literal (NamedGraphs.profile_name p) None None);
    (annotator_uri, ont (py "annotatorId"),
     Literal (NamedGraphs.profile_id p) None None);
    (annotator_uri, ont (py "reliabilityScore"),
     Literal (float_repr (NamedGraphs.profile_reliability_score p)) None
       (XSD "float"));
    (annotator_uri, ont (py "annotationCount"),
     Literal (str_of_Z (NamedGraphs.profile_annotation_count p)) None
       (XSD "integer"));
    (annotator_uri, DCTERMS_created,
     Literal (NamedGraphs.profile_created_date p) None (XSD "dateTime")) ]
  ++ map (fun domain =>
            (annotator_uri, ont (py "expertiseIn"), Literal domain None None))
         (NamedGraphs.profile_expertise_domains p)
  ++ map (fun lang =>
            (annotator_uri, ont (py "speaksLanguage"),
             NamedGraphs.LGLANG base_uri lang))
         (NamedGraphs.profile_languages p).

(** The triples that [_ensure_language_metadata] adds for a language
    that the graph does not have yet. *)
Definition language_triples (base_uri : str) (bool_lexical : option str -> bool -> str)
  (language_code : str) : list triple :=
  let lang_uri := NamedGraphs.LGLANG base_uri language_code in
  let ont := NamedGraphs.LGONT base_uri in
  [ (lang_uri, RDF_type, ont (py "Language"));
    (lang_uri, ont (py "languageCode"), Literal language_code None None) ]
  ++ match dict_find NamedGraphs.supported_languages language_code with
     | Some (lang_name, rtl, script) =>
         [ (lang_uri, RDFS_label, Literal lang_name None None);
           (lang_uri, ont (py "isRightToLeft"),
            Literal (bool_lexical (XSD "boolean") rtl) None (XSD "boolean"));
           (lang_uri, ont (py "script"), Literal script None None) ]
     | None => []
     end.

(** The triples that [add_provenance_trace] adds to the provenance
    graph. *)
Definition provenance_record_triples {rt : Builtins} (base_uri : str)
  (bool_lexical : option str -> bool -> str)
  (prov_id created : str) (statement_uri : term)
  (provenance_data : list (str * NamedGraphs.pyvalue)) : list triple :=
  let prov_uri := NamedGraphs.LGPROV base_uri (py "provenance_" ++ prov_id) in
  [ (prov_uri, RDF_type, NamedGraphs.LGONT base_uri (py "ProvenanceRecord"));
    (prov_uri, NamedGraphs.LGONT base_uri (py "tracesStatement"), statement_uri);
    (prov_uri, DCTERMS_created, Literal created None (XSD "dateTime")) ]
  ++ map (fun '(key, value) =>
            (prov_uri,
             NamedGraphs.LGPROV base_uri (NamedGraphs._clean_uri_component key),
             NamedGraphs.provenance_literal bool_lexical value))
         provenance_data.

(** [exported_files[graph][format]] when both keys are there. *)
Definition exported_path (exported_files : list (str * list (str * str)))
  (graph_key format_name : str) : option str :=
  match dict_find exported_files graph_key with
  | Some inner => dict_find inner format_name
  | None => None
  end.

(** What [get_available_languages] makes of one row of a result: the
    code is the binding of language, or empty; the name is the binding of
    languageName, or else the name of the code in the table of supported
    languages, or else the code; the count is the binding of count read
    as a number. *)
Definition language_listed (int_of_str : str -> result Z)
  (r : list (str * str)) (entry : SparqlInterface.language_entry) : Prop :=
  SparqlInterface.le_code entry = SparqlInterface.row_get r (py "language") [] /\
  SparqlInterface.le_name entry
  = match dict_find r (py "languageName") with
    | Some n => n
    | None =>
        match dict_find SparqlInterface.supported_languages
                (SparqlInterface.le_code entry) with
        | Some n => n
        | None => SparqlInterface.le_code entry
        end
    end /\
  SparqlInterface.row_count int_of_str r
  = Ok (SparqlInterface.le_annotation_count entry).

(** What [get_entity_types] makes of one row of a result.  The name is
    the part of the URI after its last slash. *)
Definition entity_type_listed (int_of_str : str -> result Z)
  (r : list (str * str)) (entry : SparqlInterface.entity_type_entry) : Prop :=
  SparqlInterface.et_uri entry = SparqlInterface.row_get r (py "type") [] /\
  SparqlInterface.et_label entry
  = SparqlInterface.row_get r (py "typeLabel") [] /\
  SparqlInterface.row_count int_of_str r = Ok (SparqlInterface.et_count entry) /\
  existsb (N.eqb (chr "/")) (SparqlInterface.et_name entry) = false /\
  exists pre,
    SparqlInterface.et_uri entry = pre ++ SparqlInterface.et_name entry /\
    (pre = [] \/ exists pre', pre = pre' ++ [chr "/"]).

(** The RDF triple that [limitgraph_to_rdf] makes of one triple of
    names. *)
Definition plain_triple (base_uri : str) (t : str * str * str) : triple :=
  let '(subj, pred, obj) := t in
  (ns_term base_uri subj, ns_term base_uri pred, ns_term base_uri obj).

(** Some triple of [g] with the predicate [p] has an object whose
    string is [l]. *)
Definition has_object_string (g : Graph) (p : term) (l : str) : Prop :=
  exists sb o, In (sb, p, o) g /\ term_lexical o = l.

(** [add_triple_to_graph] can build the object of the fact [tr]: the
    object is an entity, so that no literal is built, or the language tag
    is empty or well formed. *)
Definition object_accepted {rt : Builtins}
  (tr : TripleGenerator.LimitGraphTriple) : Prop :=
  TripleGenerator._is_entity (TripleGenerator.object tr) = true \/
  TripleGenerator.source_language tr = [] \/
  _is_valid_langtag (TripleGenerator.source_language tr) = true.

(** The triples that the conversion writes for a document itself,
    before its facts. *)
Definition document_triples {rt : Builtins}
  (base_uri doc_id text language : str) : list triple :=
  let doc_uri :=
    TripleGenerator.LGDATA base_uri
      (py "document_" ++ TripleGenerator._clean_uri_component doc_id) in
  let ont := TripleGenerator.LGONT base_uri in
  [ (doc_uri, RDF_type, ont (py "Document"));
    (doc_uri, RDFS_label,
     Literal (py "Document " ++ doc_id) (Some language) None);
    (doc_uri, ont (py "content"), Literal text (Some language) None);
    (doc_uri, ont (py "documentId"), Literal doc_id None (XSD "string"));
    (doc_uri, ont (py "language"), Literal language None (XSD "string")) ].

(** [fact] is what the conversion writes for the candidate [td] of a
    document with the text [text] when [n] values have been drawn: the
    fact and one statement of it, with the candidate's subject,
    predicate, object and confidence, the language that the classifier
    gives the candidate, the two times read next, the identifier drawn
    after them, and the text as source text. *)
Definition fact_written_at {rt : Builtins} (base_uri annotator_id text : str)
  (td : TripleGenerator.triple_data) (n : nat) (fact : list triple) : Prop :=
  exists language,
    TripleGenerator.detect_language
      (TripleGenerator.td_subject td ++ py " "
       ++ TripleGenerator.td_predicate td ++ py " "
       ++ TripleGenerator.td_object td ++ py " " ++ text)
    = Ok language /\
    fact
    = written_triples base_uri
        {| TripleGenerator.subject := TripleGenerator.td_subject td;
           TripleGenerator.predicate := TripleGenerator.td_predicate td;
           TripleGenerator.object := TripleGenerator.td_object td;
           TripleGenerator.confidence := TripleGenerator.td_confidence td;
           TripleGenerator.source_language := language;
           TripleGenerator.annotator_id := annotator_id;
           TripleGenerator.timestamp := now_isoformat (S n);
           TripleGenerator.rlhf_feedback := None;
           TripleGenerator.provenance :=
             Some [ (py "extraction_method", py "limitgraph_conversion");
                    (py "source_system", py "LIMIT-Graph");
                    (py "conversion_timestamp", now_isoformat n);
                    (py "source_text", text) ] |}
        (uuid4 (S (S n))).

(** One fact for each candidate, in their order; each takes three
    values. *)
Fixpoint facts_written_from {rt : Builtins} (base_uri annotator_id text : str)
  (n : nat) (tds : list TripleGenerator.triple_data)
  (facts : list (list triple)) : Prop :=
  match tds, facts with
  | [], [] => True
  | td :: tds', fact :: facts' =>
      fact_written_at base_uri annotator_id text td n fact /\
      facts_written_from base_uri annotator_id text (S (S (S n))) tds' facts'
  | _, _ => False
  end.

(** [w] is what the conversion writes for the document [doc] when [n]
    values have been drawn: nothing when the text is missing or empty;
    otherwise the triples of the document, and one fact for each
    candidate of the extractor, in their order. *)
Definition document_writes_at {rt : Builtins} (base_uri annotator_id : str)
  (doc : TripleGenerator.document) (n : nat)
  (w : list triple * list (list triple)) : Prop :=
  match TripleGenerator.text doc with
  | Some ((_ :: _) as t) =>
      let doc_id :=
        match TripleGenerator._id doc with
        | Some i => i
        | None => py "doc_" ++ uuid4 n
        end in
      exists language,
        TripleGenerator.detect_language t = Ok language /\
        fst w = document_triples base_uri doc_id t language /\
        facts_written_from base_uri annotator_id t (S n)
          (TripleGenerator._extract_simple_triples t doc_id language) (snd w)
  | _ => w = ([], [])
  end.

(** The number of values drawn for a document with the writes [w]: one
    for its identifier and three for each fact. *)
Definition values_drawn (w : list triple * list (list triple)) : nat :=
  S (3 * len (snd w)).

(** The writes for the documents of a corpus, in their order. *)
Fixpoint corpus_writes_from {rt : Builtins} (base_uri annotator_id : str)
  (n : nat) (docs : list TripleGenerator.document)
  (writes : list (list triple * list (list triple))) : Prop :=
  match docs, writes with
  | [], [] => True
  | doc :: docs', w :: writes' =>
      document_writes_at base_uri annotator_id doc n w /\
      corpus_writes_from base_uri annotator_id (values_drawn w + n) docs' writes'
  | _, _ => False
  end.

(** All the triples of the writes for one document, in the order in
    which they are added. *)
Definition written_block (w : list triple * list (list triple))
  : list triple :=
  fst w ++ List.concat (snd w).

(** * Properties *)

(** ** Strings *)

Lemma str_eqb_eq (a b : str) : str_eqb a b = true <-> a = b.
Proof.
  revert b; induction a as [|x a IH]; intros [|y b]; simpl;
    try (split; [discriminate | congruence]); [tauto|].
  rewrite andb_true_iff, N.eqb_eq, IH.
  split; [intros [-> ->]; reflexivity | intros E; inversion E; auto].
Qed.

Lemma str_eqb_refl (a : str) : str_eqb a a = true.
Proof. apply str_eqb_eq; reflexivity. Qed.

Lemma str_in_In (w : str) (l : list str) : str_in w l = true <-> In w l.
Proof.
  unfold str_in; rewrite existsb_exists; split.
  - intros (x & Hx & E); apply str_eqb_eq in E; subst; assumption.
  - intros Hw; exists w; split; [assumption | apply str_eqb_refl].
Qed.

Lemma set_add_In (s : list str) (x y : str) :
  In y (set_add s x) <-> In y s \/ y = x.
Proof.
  unfold set_add; destruct (str_in x s) eqn:E.
  - apply str_in_In in E; split; [tauto | intros [?| ->]; assumption].
  - rewrite in_app_iff; simpl; intuition.
Qed.

(** ** The language classifier *)

Section Classifier.
Context {rt : Builtins}.
Import TripleGenerator.

Lemma split_go_whitespace (s : str) :
  forallb chr_isspace s = true -> split_go [] s = [].
Proof.
  induction s as [|c s IH]; simpl; [reflexivity|].
  intros Hs; apply andb_true_iff in Hs as [Hc Hs].
  rewrite Hc; auto.
Qed.

Lemma score_le_len (words patterns : list str) :
  (0 <= score words patterns <= Z.of_nat (len words))%Z.
Proof.
  unfold score, len; split; [lia|].
  apply inj_le, filter_length_le.
Qed.

Lemma truediv_score (words patterns : list str) :
  (0 < score words patterns)%Z ->
  len words <> 0%nat /\
  truediv (score words patterns) (Z.of_nat (len words))
  = Ok (Qmake (score words patterns) (Z.to_pos (Z.of_nat (len words)))).
Proof.
  intros Hpos; pose proof (score_le_len words patterns) as Hle.
  assert (Hne : (Z.of_nat (len words) <> 0)%Z) by lia.
  split; [lia|].
  unfold truediv; apply Z.eqb_neq in Hne; rewrite Hne; reflexivity.
Qed.

Lemma dict_set_keys {V : Type} (d : list (str * V)) (k : str) (v : V) (x : str) :
  In x (map fst (dict_set d k v)) -> x = k \/ In x (map fst d).
Proof.
  induction d as [|[k' v'] d IH]; simpl.
  - intros [E|[]]; auto.
  - destruct (str_eqb k' k) eqn:E; simpl; intros [Hx|Hx]; auto.
    destruct (IH Hx); auto.
Qed.

Lemma dict_set_nonempty {V : Type} (d : list (str * V)) (k : str) (v : V) :
  dict_set d k v <> [].
Proof.
  destruct d as [|[k' v'] d]; simpl; [discriminate|].
  destruct (str_eqb k' k); discriminate.
Qed.

Lemma score_language_step (words : list str) (acc : list (str * Q))
  (lang : str) (patterns : list str) :
  score_language words (Ok acc) (lang, patterns)
  = if (0 <? score words patterns)%Z
    then q <- truediv (score words patterns) (Z.of_nat (len words)) ;;
         Ok (dict_set acc lang q)
    else Ok acc.
Proof. reflexivity. Qed.

(** The loop over the lexicon never raises, and only records codes of
    the lexicon. *)
Lemma score_languages_ok (words : list str) (table : list (str * list str)) :
  forall acc, exists scores,
    fold_left (score_language words) table (Ok acc) = Ok scores /\
    forall x, In x (map fst scores) ->
              In x (map fst acc) \/ In x (map fst table).
Proof.
  induction table as [|[lang patterns] table IH]; intros acc; cbn [fold_left].
  - exists acc; auto.
  - rewrite score_language_step.
    destruct (0 <? score words patterns)%Z eqn:Hpos.
    + apply Z.ltb_lt in Hpos.
      destruct (truediv_score words patterns Hpos) as [_ ->]; simpl.
      destruct (IH (dict_set acc lang
                      (Qmake (score words patterns)
                             (Z.to_pos (Z.of_nat (len words))))))
        as (scores & -> & Hkeys).
      exists scores; split; [reflexivity|].
      intros x Hx; destruct (Hkeys x Hx) as [Hd|Ht]; auto.
      apply dict_set_keys in Hd as [->|Hd]; auto.
    + destruct (IH acc) as (scores & -> & Hkeys).
      exists scores; split; [reflexivity|].
      intros x Hx; simpl; destruct (Hkeys x Hx); auto.
Qed.

Lemma score_languages_none (words : list str) (table : list (str * list str)) :
  (forall lang patterns, In (lang, patterns) table ->
                         score words patterns = 0%Z) ->
  forall acc, fold_left (score_language words) table (Ok acc) = Ok acc.
Proof.
  induction table as [|[lang patterns] table IH]; intros Hzero acc;
    cbn [fold_left]; [reflexivity|].
  rewrite score_language_step.
  rewrite (Hzero lang patterns) by (left; reflexivity); simpl.
  apply IH; intros l p Hin; apply (Hzero l p); right; assumption.
Qed.

Lemma max_by_value_In (items : list (str * Q)) :
  forall best, In (max_by_value best items) (best :: items).
Proof.
  induction items as [|x items IH]; intros best; simpl; [auto|].
  destruct (IH (if Qgtb (snd x) (snd best) then x else best)) as [E|Hin].
  - destruct (Qgtb (snd x) (snd best)); rewrite <- E; auto.
  - auto.
Qed.

Lemma en_is_classifier_code : In (py "en") classifier_codes.
Proof. unfold classifier_codes; simpl; auto 10. Qed.

Lemma detect_language_code (text : str) :
  exists code, detect_language text = Ok code /\ In code classifier_codes.
Proof.
  destruct text as [|c text].
  - exists (py "en"); split; [reflexivity | apply en_is_classifier_code].
  - unfold detect_language.
    destruct (score_languages_ok (split (str_lower (c :: text)))
                language_patterns []) as (scores & -> & Hkeys); simpl.
    destruct scores as [|first rest].
    + exists (py "en"); split; [reflexivity | apply en_is_classifier_code].
    + exists (fst (max_by_value first rest)); split; [reflexivity|].
      destruct (Hkeys (fst (max_by_value first rest))) as [[]|Hin];
        [|exact Hin].
      apply in_map, max_by_value_In.
Qed.

(** C5.  The classifier answers every text with a code of its own
    lexicon table (es, ar, id, en); its answer is a function of the text
    alone; and it is the default code en when the text is empty or when no
    language of the table has a positive stop-word score. *)
Theorem detect_language_supported_deterministic (text : str) :
  exists code,
    detect_language text = Ok code /\
    In code classifier_codes /\
    (forall r1 r2, detect_language text = r1 -> detect_language text = r2 ->
                   r1 = r2) /\
    (text = [] -> code = py "en") /\
    ((forall lang patterns, In (lang, patterns) language_patterns ->
        (score (split (str_lower text)) patterns <= 0)%Z) ->
     code = py "en").
Proof.
  destruct (detect_language_code text) as (code & Hcode & Hin).
  exists code; repeat split; try assumption.
  - intros r1 r2 <- <-; reflexivity.
  - intros ->; simpl in Hcode; congruence.
  - intros Hzero; destruct text as [|c text];
      [simpl in Hcode; congruence|].
    unfold detect_language in Hcode.
    rewrite score_languages_none in Hcode; [simpl in Hcode; congruence|].
    intros lang patterns Hlp.
    pose proof (Hzero lang patterns Hlp).
    pose proof (score_le_len (split (str_lower (c :: text))) patterns); lia.
Qed.

(** C9.  The classifier is total: it never divides by a zero token
    count, because a positive score needs a token.  On a text made of
    white space only the token list is empty, every score is zero, and the
    answer is the default code en. *)
Theorem detect_language_total_whitespace :
  (forall text, exists code, detect_language text = Ok code) /\
  (forall words patterns,
     (0 < score words patterns)%Z ->
     len words <> 0%nat /\
     exists q, truediv (score words patterns) (Z.of_nat (len words)) = Ok q) /\
  (forall text,
     text <> [] -> forallb chr_isspace text = true -> str_lower text = text ->
     split (str_lower text) = [] /\
     (forall patterns, score (split (str_lower text)) patterns = 0%Z) /\
     detect_language text = Ok (py "en")).
Proof.
  split; [|split].
  - intros text; destruct (detect_language_code text) as (code & Hcode & _).
    exists code; exact Hcode.
  - intros words patterns Hpos.
    destruct (truediv_score words patterns Hpos) as [Hlen Hdiv].
    split; [assumption | eexists; exact Hdiv].
  - intros text Hne Hws Hlow.
    assert (Hsplit : split (str_lower text) = []).
    { rewrite Hlow; apply split_go_whitespace; assumption. }
    split; [assumption|]; split.
    + intros patterns; rewrite Hsplit; reflexivity.
    + destruct text as [|c text]; [congruence|].
      unfold detect_language; rewrite Hsplit.
      rewrite score_languages_none; [reflexivity|].
      intros; reflexivity.
Qed.

End Classifier.

(** ** Identifier minting *)

Section Minting.
Context {rt : Builtins}.
Variable base_uri : str.

Lemma clean_same_in_both_classes (component : str) :
  NamedGraphs._clean_uri_component component
  = TripleGenerator._clean_uri_component component.
Proof. reflexivity. Qed.

Lemma mint_is_namespace_lookup (label : str) :
  mint base_uri NsData label
  = TripleGenerator.LGDATA base_uri (TripleGenerator._clean_uri_component label) /\
  mint base_uri NsOntology label
  = TripleGenerator.LGONT base_uri (TripleGenerator._clean_uri_component label) /\
  mint base_uri NsProvenance label
  = NamedGraphs.LGPROV base_uri (NamedGraphs._clean_uri_component label) /\
  mint base_uri NsRlhf label
  = TripleGenerator.LGRLHF base_uri (TripleGenerator._clean_uri_component label).
Proof. repeat split. Qed.

Lemma clean_unfold (label : str) :
  TripleGenerator._clean_uri_component label
  = filter (fun c => chr_isalnum c || (c =? chr "_"))
      (map (fun c => if (c =? chr " ") || (c =? chr "-") then chr "_" else c)
         label).
Proof.
  unfold TripleGenerator._clean_uri_component, replace_char.
  rewrite map_map; f_equal.
  apply map_ext; intros c.
  destruct (c =? chr " ") eqn:E1; [reflexivity|].
  destruct (c =? chr "-"); reflexivity.
Qed.

Lemma clean_count_connector (label : str) :
  count (chr "_") (TripleGenerator._clean_uri_component label)
  = len (filter is_connector_source label).
Proof.
  rewrite clean_unfold; unfold count, len, is_connector_source.
  induction label as [|c label IH]; [reflexivity|].
  cbn [map filter].
  destruct (c =? chr " ") eqn:E1; cbn [orb].
  - rewrite orb_true_r; cbn [filter List.length].
    rewrite N.eqb_refl. cbn [List.length]. rewrite IH; reflexivity.
  - destruct (c =? chr "-") eqn:E2; cbn [orb].
    + rewrite orb_true_r; cbn [filter].
    rewrite N.eqb_refl. cbn [List.length]. rewrite IH; reflexivity.
    + destruct (c =? chr "_") eqn:E3.
      * rewrite orb_true_r; cbn [filter].
        rewrite N.eqb_sym, E3. cbn [List.length]. rewrite IH; reflexivity.
      * rewrite orb_false_r.
        destruct (chr_isalnum c); cbn [filter]; [|exact IH].
        rewrite N.eqb_sym, E3; exact IH.
Qed.

Lemma mint_injective_namespace (ns1 ns2 : namespace) (l1 l2 : str) :
  mint base_uri ns1 l1 = mint base_uri ns2 l2 -> ns1 = ns2.
Proof.
  unfold mint, ns_term, namespace_uri; intros E.
  injection E as E; rewrite <- !app_assoc in E.
  apply app_inv_head in E.
  destruct ns1, ns2; try reflexivity; simpl in E; discriminate.
Qed.

(** C7 (as the code has it).  Cleaning turns every space (U+0020) and
    every hyphen into one underscore, so the underscores of the result
    count the spaces, hyphens and underscores of the label; it keeps
    nothing but alphanumeric characters and underscores; and a minted
    identifier starts with the URI of its namespace, so two identifiers
    minted in different namespaces differ whatever their labels. *)
Theorem clean_uri_component_minting (label : str) :
  TripleGenerator._clean_uri_component label
  = filter (fun c => chr_isalnum c || (c =? chr "_"))
      (map (fun c => if (c =? chr " ") || (c =? chr "-") then chr "_" else c)
         label) /\
  count (chr "_") (TripleGenerator._clean_uri_component label)
  = len (filter is_connector_source label) /\
  (forall c, In c (TripleGenerator._clean_uri_component label) ->
             chr_isalnum c = true \/ c = chr "_") /\
  (forall ns, mint base_uri ns label
              = URIRef (namespace_uri base_uri ns
                        ++ TripleGenerator._clean_uri_component label)) /\
  (forall ns1 ns2 other, ns1 <> ns2 ->
                         mint base_uri ns1 label <> mint base_uri ns2 other).
Proof.
  split; [apply clean_unfold|].
  split; [apply clean_count_connector|].
  split; [|split].
  - intros c Hc; unfold TripleGenerator._clean_uri_component in Hc.
    apply filter_In in Hc as [_ Hc].
    apply orb_true_iff in Hc as [Hc|Hc]; [left; exact Hc|].
    right; apply N.eqb_eq; exact Hc.
  - intros ns; reflexivity.
  - intros ns1 ns2 other Hne E; apply Hne.
    exact (mint_injective_namespace ns1 ns2 label other E).
Qed.

End Minting.

(** C7, counterexample.  A tab is white space, yet cleaning the label
    a<TAB>b drops it instead of putting the connector in its place. *)
Lemma clean_uri_component_drops_tab :
  let label := py "a" ++ [9] ++ py "b" in
  @chr_isspace ascii_builtins 9 = true /\
  @TripleGenerator._clean_uri_component ascii_builtins label = py "ab" /\
  @clean_as_specified ascii_builtins label = py "a_b" /\
  @TripleGenerator._clean_uri_component ascii_builtins label
  <> @clean_as_specified ascii_builtins label.
Proof. repeat split; discriminate. Qed.

Lemma clean_uri_component_minting_witness :
  NsData <> NsOntology /\
  @mint ascii_builtins (py "http://limitgraph.org/") NsData (py "likes")
  <> @mint ascii_builtins (py "http://limitgraph.org/") NsOntology (py "likes").
Proof.
  split; [discriminate|].
  apply (@clean_uri_component_minting ascii_builtins
           (py "http://limitgraph.org/") (py "likes")).
  discriminate.
Defined.

(** ** The query template engine *)

Lemma startswith_contains (p s : str) :
  startswith p s = true -> contains p s = true.
Proof. intros Hp; destruct s; simpl contains; rewrite Hp; reflexivity. Qed.

Lemma read_literal_plain (s rest : str) :
  forallb plain_char s = true ->
  read_literal (s ++ SparqlInterface.dq ++ rest) = Some (s, rest).
Proof.
  induction s as [|c s IH]; intros Hs; [reflexivity|].
  cbn [forallb] in Hs; apply andb_true_iff in Hs as [Hc Hs].
  unfold plain_char in Hc; apply negb_true_iff in Hc.
  apply orb_false_iff in Hc as [Hc H13].
  apply orb_false_iff in Hc as [Hc H10].
  apply orb_false_iff in Hc as [H34 H92].
  cbn [app read_literal]; rewrite H34, H92, H10, H13; cbn [orb].
  rewrite (IH Hs); reflexivity.
Qed.

Section Queries.
Context {rt : Builtins}.
Variable base_uri : str.
Import SparqlInterface.

Lemma format_multilingual_search_template
  (lgont lglang rdfs search_term language_filter : str) :
  format multilingual_search_template
    [ (py "lgont", lgont); (py "lglang", lglang); (py "rdfs", rdfs);
      (py "search_term", search_term);
      (py "language_filter", language_filter) ]
  = Ok (rendered_head lgont lglang rdfs ++ dq ++ search_term ++ dq
        ++ py ")))" ++ nl ++ py "                " ++ language_filter ++ nl ++
        py "            }" ++ nl ++
        py "            ORDER BY DESC(?confidence)" ++ nl ++
        py "            ").
Proof. unfold rendered_head; rewrite <- !app_assoc; reflexivity. Qed.

(** C1 (as the code has it).  The search term is copied into the query
    as it is, between the quotes of the literal after LCASE( : what comes
    before and after it does not depend on it.  When the term holds no
    double quote, backslash or line break, a SPARQL lexer reads the
    literal back as the term itself and goes on with the text of the
    template. *)
Theorem multilingual_search_interpolates_verbatim
  (languages : option (list str)) (min_confidence : Q) (limit : Z) :
  exists language_filter,
    let head := rendered_head (LGONT base_uri) (LGLANG base_uri) RDFS_ns in
    let tail := rendered_tail language_filter limit in
    (forall search_term,
       multilingual_search_query base_uri search_term languages
         min_confidence limit
       = Ok (head ++ dq ++ search_term ++ dq ++ tail)) /\
    (forall search_term,
       forallb plain_char search_term = true ->
       read_literal (search_term ++ dq ++ tail) = Some (search_term, tail)).
Proof.
  unfold multilingual_search_query.
  match goal with
  | |- context [format _ [_; _; _; _; (_, ?f)]] => exists f
  end.
  split.
  - intros search_term.
    rewrite format_multilingual_search_template; cbn [rbind].
    unfold rendered_tail; rewrite <- !app_assoc; reflexivity.
  - intros search_term Hplain; apply read_literal_plain; exact Hplain.
Qed.

(** What [_determine_query_type] computes: the first of the keywords
    select, construct, ask, describe that occurs anywhere in the
    lower-cased query.  A leading CONSTRUCT, ASK or DESCRIBE therefore
    decides the shape only when none of the keywords tried before it
    occurs in the query. *)
Theorem determine_query_type_by_containment (query : str) :
  let query_lower := str_lower query in
  (contains (py "select") query_lower = true ->
   _determine_query_type query = py "select") /\
  (startswith (py "construct") query_lower = true ->
   contains (py "select") query_lower = false ->
   _determine_query_type query = py "construct") /\
  (startswith (py "ask") query_lower = true ->
   contains (py "select") query_lower = false ->
   contains (py "construct") query_lower = false ->
   _determine_query_type query = py "ask") /\
  (startswith (py "describe") query_lower = true ->
   contains (py "select") query_lower = false ->
   contains (py "construct") query_lower = false ->
   contains (py "ask") query_lower = false ->
   _determine_query_type query = py "describe").
Proof.
  unfold _determine_query_type; cbv zeta; repeat split.
  - intros ->; reflexivity.
  - intros Hc ->; rewrite (startswith_contains _ _ Hc); reflexivity.
  - intros Ha -> ->; rewrite (startswith_contains _ _ Ha); reflexivity.
  - intros Hd -> -> ->; rewrite (startswith_contains _ _ Hd); reflexivity.
Qed.

Variable dataset_query : str -> result answer.

Lemma process_bindings_dict (r : row) :
  forall d langs,
    fst (fold_left
           (fun (st : list (str * str) * list str)
                (binding : str * option term) =>
              let '(result_dict, languages_found) := st in
              let '(var, value) := binding in
              match value with
              | Some (Literal _ (Some ((_ :: _) as language)) _) =>
                  (dict_set result_dict var (term_str value),
                   set_add languages_found language)
              | _ => (dict_set result_dict var (term_str value),
                      languages_found)
              end) r (d, langs))
    = fold_left (fun d (binding : str * option term) =>
                   dict_set d (fst binding) (term_str (snd binding))) r d.
Proof.
  induction r as [|[var value] r IH]; intros d langs; [reflexivity|].
  cbn [fold_left fst snd].
  destruct value as [[u|lexical [[|c language]|] datatype]|]; apply IH.
Qed.

Lemma process_rows_results (rows : list row) :
  forall processed langs,
    fst (fold_left process_row rows (processed, langs))
    = processed ++ map row_dict rows.
Proof.
  induction rows as [|r rows IH]; intros processed langs; cbn [fold_left map].
  - rewrite app_nil_r; reflexivity.
  - unfold process_row at 2.
    pose proof (process_bindings_dict r [] langs) as Hd.
    match goal with
    | H : fst ?f = _ |- _ => destruct f as [result_dict langs'] eqn:Ef
    end.
    cbn [fst] in Hd; rewrite IH, Hd, <- app_assoc; reflexivity.
Qed.


Lemma collect_rows (rows : list row) :
  forall acc,
    fold_left process_item (map RowItem rows) (Ok acc)
    = Ok (fold_left process_row rows acc).
Proof.
  induction rows as [|r rows IH]; intros acc; [reflexivity|].
  cbn [map fold_left]; unfold process_item at 2; cbn [rbind]; apply IH.
Qed.


Lemma execute_query_rows (query : str) (start_time end_time : Q)
  (rows : list row) :
  dataset_query query = Ok (SelectRows rows) ->
  execute_query_try dataset_query query start_time end_time
  = Ok {| SparqlInterface.query := query;
          results := map row_dict rows;
          execution_time := (end_time - start_time)%Q;
          result_count := len (map row_dict rows);
          languages_found := snd (fold_left process_row rows ([], []));
          query_type := _determine_query_type query |}.
Proof.
  intros Hrows; unfold execute_query_try; rewrite Hrows; cbn [rbind].
  cbn [answer_items]; rewrite collect_rows; cbn [rbind].
  pose proof (process_rows_results rows [] []) as Hres.
  destruct (fold_left process_row rows ([], [])) as [processed langs].
  cbn [fst snd app] in *; subst processed; reflexivity.
Qed.


End Queries.

(** C1, counterexample.  With the search term O, double quote, Brien
    the query holds the term as it is; the lexer closes the literal at
    the quote of the term, after O, and the rest of the term and of the
    template follows the literal instead of being part of it. *)
Lemma multilingual_search_breaks_on_quote :
  let base_uri := py "http://limitgraph.org/" in
  let search_term := py "O" ++ SparqlInterface.dq ++ py "Brien" in
  let head := rendered_head (SparqlInterface.LGONT base_uri)
                (SparqlInterface.LGLANG base_uri) RDFS_ns in
  let tail := rendered_tail (py "FILTER(?confidence >= 0.5)") 50 in
  @SparqlInterface.multilingual_search_query ascii_builtins base_uri
    search_term None (1 # 2) 50
  = Ok (head ++ SparqlInterface.dq ++ search_term ++ SparqlInterface.dq ++ tail) /\
  read_literal (search_term ++ SparqlInterface.dq ++ tail)
  = Some (py "O", py "Brien" ++ SparqlInterface.dq ++ tail) /\
  (forall body,
     read_literal (search_term ++ SparqlInterface.dq ++ tail)
     <> Some (body, tail)).
Proof.
  cbv zeta; split; [vm_compute; reflexivity|].
  split; [vm_compute; reflexivity|].
  intros body; vm_compute; intros E; discriminate E.
Qed.

Lemma multilingual_search_interpolates_verbatim_witness :
  exists tail,
    forallb plain_char (py "manzanas") = true /\
    read_literal (py "manzanas" ++ SparqlInterface.dq ++ tail)
    = Some (py "manzanas", tail).
Proof.
  destruct (@multilingual_search_interpolates_verbatim ascii_builtins
              (py "http://limitgraph.org/") (Some [py "es"; py "en"])
              (1 # 2) 50) as (language_filter & _ & Hread).
  exists (rendered_tail language_filter 50).
  split; [reflexivity|].
  apply Hread; reflexivity.
Defined.

(** C8.  The classifier does not read the leading keyword: a CONSTRUCT
    query with a sub-select and an ASK query over a variable named
    ?selected come out as selections, and DESCRIBE ?task comes out as an
    existence check, because task holds ask. *)
Lemma determine_query_type_ignores_leading_keyword :
  @SparqlInterface._determine_query_type ascii_builtins
    (py "CONSTRUCT { ?s ?p ?o } WHERE { { SELECT ?s ?p ?o WHERE { ?s ?p ?o } LIMIT 10 } }")
  = py "select" /\
  @SparqlInterface._determine_query_type ascii_builtins
    (py "ASK { ?s ?p ?selected }") = py "select" /\
  @SparqlInterface._determine_query_type ascii_builtins
    (py "DESCRIBE ?task") = py "ask".
Proof. repeat split. Qed.

Lemma determine_query_type_by_containment_witness :
  startswith (py "construct")
    (@str_lower ascii_builtins (py "CONSTRUCT { ?s ?p ?o } WHERE { ?s ?p ?o }"))
  = true /\
  @SparqlInterface._determine_query_type ascii_builtins
    (py "CONSTRUCT { ?s ?p ?o } WHERE { ?s ?p ?o }") = py "construct".
Proof.
  split; [reflexivity|].
  apply (@determine_query_type_by_containment ascii_builtins
           (py "CONSTRUCT { ?s ?p ?o } WHERE { ?s ?p ?o }")); reflexivity.
Defined.



(** ** Graphs *)

Lemma opt_str_eqb_eq (a b : option str) : opt_str_eqb a b = true <-> a = b.
Proof.
  destruct a as [a|], b as [b|]; simpl;
    try (split; [discriminate | congruence]); [|tauto].
  rewrite str_eqb_eq; split; congruence.
Qed.

Lemma term_eqb_eq (a b : term) : term_eqb a b = true <-> a = b.
Proof.
  destruct a as [x|x l d], b as [y|y l' d']; simpl;
    try (split; [discriminate | congruence]).
  - rewrite str_eqb_eq; split; congruence.
  - rewrite !andb_true_iff, str_eqb_eq, !opt_str_eqb_eq.
    split; [intros [[-> ->] ->]; reflexivity | intros E; inversion E; auto].
Qed.

Lemma triple_eqb_eq (a b : triple) : triple_eqb a b = true <-> a = b.
Proof.
  destruct a as [[s p] o], b as [[s' p'] o']; simpl.
  rewrite !andb_true_iff, !term_eqb_eq.
  split; [intros [[-> ->] ->]; reflexivity | intros E; inversion E; auto].
Qed.

Lemma graph_contains_In (g : Graph) (t : triple) :
  graph_contains g t = true <-> In t g.
Proof.
  unfold graph_contains; rewrite existsb_exists; split.
  - intros (x & Hx & E); apply triple_eqb_eq in E; subst; assumption.
  - intros Ht; exists t; split; [assumption | apply triple_eqb_eq; reflexivity].
Qed.

Lemma graph_add_In (g : Graph) (t x : triple) :
  In x (graph_add g t) <-> In x g \/ x = t.
Proof.
  unfold graph_add; destruct (graph_contains g t) eqn:E.
  - apply graph_contains_In in E; split; [tauto | intros [?| ->]; assumption].
  - rewrite in_app_iff; simpl; intuition.
Qed.

Lemma graph_add_all_In (ts : list triple) :
  forall g x, In x (fold_left graph_add ts g) <-> In x g \/ In x ts.
Proof.
  induction ts as [|t ts IH]; intros g x; cbn [fold_left].
  - simpl; tauto.
  - rewrite IH, graph_add_In; simpl; intuition.
Qed.

Lemma graph_add_filter (f : triple -> bool) (g : Graph) (t : triple) :
  filter f (graph_add g t)
  = if graph_contains g t then filter f g
    else filter f g ++ (if f t then [t] else []).
Proof.
  unfold graph_add; destruct (graph_contains g t); [reflexivity|].
  rewrite filter_app; reflexivity.
Qed.

Lemma graph_add_filter_out (f : triple -> bool) (g : Graph) (t : triple) :
  f t = false -> filter f (graph_add g t) = filter f g.
Proof.
  intros Hf; rewrite graph_add_filter, Hf, app_nil_r.
  destruct (graph_contains g t); reflexivity.
Qed.

Lemma graph_add_all_filter_out (f : triple -> bool) (ts : list triple) :
  forallb (fun t => negb (f t)) ts = true ->
  forall g, filter f (fold_left graph_add ts g) = filter f g.
Proof.
  induction ts as [|t ts IH]; intros Hts g; cbn [fold_left]; [reflexivity|].
  cbn [forallb] in Hts; apply andb_true_iff in Hts as [Ht Hts].
  rewrite (IH Hts); apply graph_add_filter_out.
  apply negb_true_iff; exact Ht.
Qed.

(** ** The partitioned store *)

Section Store.
Context {rt : Builtins}.
Variable base_uri : str.
Import NamedGraphs.

Lemma bind_ret {S A B} (a : A) (k : A -> prog S B) (s : S) :
  bind (ret a) k s = k a s.
Proof. reflexivity. Qed.

Lemma bind_add_to_rlhf {B} (t : triple) (k : unit -> prog state B)
  (m p a l r u : Graph) (n : nat) :
  bind (add_to rlhf t) k
    {| dataset := {| g_main := m; g_provenance := p; g_annotators := a;
                     g_languages := l; g_rlhf := r; g_audit := u |};
       effects := n |}
  = k tt {| dataset := {| g_main := m; g_provenance := p; g_annotators := a;
                          g_languages := l; g_rlhf := graph_add r t;
                          g_audit := u |};
            effects := n |}.
Proof. reflexivity. Qed.

Lemma bind_add_to_audit {B} (t : triple) (k : unit -> prog state B)
  (m p a l r u : Graph) (n : nat) :
  bind (add_to audit t) k
    {| dataset := {| g_main := m; g_provenance := p; g_annotators := a;
                     g_languages := l; g_rlhf := r; g_audit := u |};
       effects := n |}
  = k tt {| dataset := {| g_main := m; g_provenance := p; g_annotators := a;
                          g_languages := l; g_rlhf := r;
                          g_audit := graph_add u t |};
            effects := n |}.
Proof. reflexivity. Qed.

Lemma bind_uuid4_m {B} (k : str -> prog state B) (d : Dataset) (n : nat) :
  bind uuid4_m k {| dataset := d; effects := n |}
  = k (uuid4 n) {| dataset := d; effects := S n |}.
Proof. reflexivity. Qed.

Lemma bind_now_m {B} (k : str -> prog state B) (d : Dataset) (n : nat) :
  bind now_m k {| dataset := d; effects := n |}
  = k (now_isoformat n) {| dataset := d; effects := S n |}.
Proof. reflexivity. Qed.

Lemma for_each_add_to_audit (audit_uri : term) (details : list (str * str)) :
  forall m p a l r u n,
    for_each details (fun '(key, value) =>
      add_to audit (audit_uri, LGPROV base_uri (_clean_uri_component key),
                    Literal value None None))
      {| dataset := {| g_main := m; g_provenance := p; g_annotators := a;
                       g_languages := l; g_rlhf := r; g_audit := u |};
         effects := n |}
    = Ok (tt, {| dataset :=
                   {| g_main := m; g_provenance := p; g_annotators := a;
                      g_languages := l; g_rlhf := r;
                      g_audit :=
                        fold_left graph_add
                          (map (fun '(key, value) =>
                                  (audit_uri,
                                   LGPROV base_uri (_clean_uri_component key),
                                   Literal value None None)) details) u |};
                 effects := n |}).
Proof.
  induction details as [|[key value] details IH]; intros m p a l r u n.
  - reflexivity.
  - cbn [for_each map fold_left]; rewrite bind_add_to_audit.
    apply IH.
Qed.

Lemma add_audit_entry_effect (action : str) (details : list (str * str))
  (m p a l r u : Graph) (n : nat) :
  _add_audit_entry base_uri action details
    {| dataset := {| g_main := m; g_provenance := p; g_annotators := a;
                     g_languages := l; g_rlhf := r; g_audit := u |};
       effects := n |}
  = Ok (tt, {| dataset :=
                 {| g_main := m; g_provenance := p; g_annotators := a;
                    g_languages := l; g_rlhf := r;
                    g_audit :=
                      fold_left graph_add
                        (audit_triples base_uri (uuid4 n)
                           (now_isoformat (S n)) action details) u |};
               effects := S (S n) |}).
Proof.
  unfold _add_audit_entry, audit_triples; cbv zeta.
  rewrite bind_uuid4_m; cbv beta.
  rewrite !bind_add_to_audit.
  rewrite bind_now_m; cbv beta.
  rewrite bind_add_to_audit.
  rewrite for_each_add_to_audit.
  rewrite fold_left_app; reflexivity.
Qed.

Lemma add_rlhf_feedback_trace_effect (tr : RLHFFeedbackTrace) (s : state) :
  add_rlhf_feedback_trace base_uri tr s
  = Ok (feedback_id tr,
        {| dataset :=
             {| g_main := g_main (dataset s);
                g_provenance := g_provenance (dataset s);
                g_annotators := g_annotators (dataset s);
                g_languages := g_languages (dataset s);
                g_rlhf := fold_left graph_add (feedback_triples base_uri tr)
                            (g_rlhf (dataset s));
                g_audit :=
                  fold_left graph_add
                    (audit_triples base_uri (uuid4 (effects s))
                       (now_isoformat (S (effects s)))
                       (py "rlhf_feedback_added")
                       [ (py "feedback_id", feedback_id tr);
                         (py "annotator_id", annotator_id tr);
                         (py "feedback_type", feedback_type tr) ])
                    (g_audit (dataset s)) |};
           effects := S (S (effects s)) |}).
Proof.
  destruct s as [[m p a l r u] n]; cbn [dataset effects g_main g_provenance
    g_annotators g_languages g_rlhf g_audit].
  unfold add_rlhf_feedback_trace, feedback_triples; cbv zeta.
  rewrite !bind_add_to_rlhf.
  destruct (feedback_text tr) as [[|c1 txt]|];
    destruct (session_id tr) as [[|c2 sid]|];
    rewrite ?bind_add_to_rlhf, ?bind_ret, ?bind_add_to_rlhf, ?bind_ret;
    unfold bind; rewrite add_audit_entry_effect;
    cbn [app fold_left]; reflexivity.
Qed.

(** C2 (as the code has it).  The store does not look at the kind of a
    feedback trace: for every trace the operation succeeds and returns
    the feedback id, the feedback graph then holds the trace with the
    kind as it was given, the audit graph holds an entry that records
    that kind, nothing is removed, and the four other graphs are as
    before. *)
Theorem add_feedback_accepts_any_kind (tr : RLHFFeedbackTrace) (s : state) :
  exists s',
    add_rlhf_feedback_trace base_uri tr s = Ok (feedback_id tr, s') /\
    In (LGRLHF base_uri (py "feedback_" ++ feedback_id tr),
        LGONT base_uri (py "feedbackType"),
        Literal (feedback_type tr) None None)
       (g_rlhf (dataset s')) /\
    (exists audit_uri,
       In (audit_uri, RDF_type, LGONT base_uri (py "AuditEntry"))
          (g_audit (dataset s')) /\
       In (audit_uri,
           LGPROV base_uri (_clean_uri_component (py "feedback_type")),
           Literal (feedback_type tr) None None)
          (g_audit (dataset s'))) /\
    incl (g_rlhf (dataset s)) (g_rlhf (dataset s')) /\
    incl (g_audit (dataset s)) (g_audit (dataset s')) /\
    g_main (dataset s') = g_main (dataset s) /\
    g_provenance (dataset s') = g_provenance (dataset s) /\
    g_annotators (dataset s') = g_annotators (dataset s) /\
    g_languages (dataset s') = g_languages (dataset s).
Proof.
  eexists; split; [apply add_rlhf_feedback_trace_effect|].
  cbn [dataset g_rlhf g_audit g_main g_provenance g_annotators g_languages].
  split.
  { apply graph_add_all_In; right; unfold feedback_triples.
    apply in_or_app; left; simpl; auto 10. }
  split.
  { exists (LGPROV base_uri (py "audit_" ++ uuid4 (effects s))); split;
      apply graph_add_all_In; right; unfold audit_triples; simpl; auto 10. }
  split; [intros x Hx; apply graph_add_all_In; left; exact Hx|].
  split; [intros x Hx; apply graph_add_all_In; left; exact Hx|].
  repeat split.
Qed.

(** C6.  A call of the add-feedback operation, which always succeeds,
    leaves the audit graph with exactly one audit entry more, provided
    the identifier drawn for the entry is not the one of an entry the
    graph already has. *)
Theorem add_feedback_appends_one_audit_entry
  (tr : RLHFFeedbackTrace) (s s' : state) (r : str) :
  add_rlhf_feedback_trace base_uri tr s = Ok (r, s') ->
  graph_contains (g_audit (dataset s))
    (LGPROV base_uri (py "audit_" ++ uuid4 (effects s)), RDF_type,
     LGONT base_uri (py "AuditEntry")) = false ->
  len (audit_entries base_uri (g_audit (dataset s')))
  = S (len (audit_entries base_uri (g_audit (dataset s)))).
Proof.
  rewrite add_rlhf_feedback_trace_effect; intros E Hfresh.
  injection E as _ <-; cbn [dataset g_audit].
  assert (Hlit : forall s p lexical lang dt,
             is_audit_entry base_uri (s, p, Literal lexical lang dt) = false).
  { intros; unfold is_audit_entry, LGONT, ns_term; cbn [term_eqb].
    apply andb_false_r. }
  unfold audit_entries, audit_triples; cbv zeta; cbn [app map fold_left].
  rewrite !graph_add_filter_out by apply Hlit.
  rewrite graph_add_filter.
  match goal with
  | |- context [graph_contains ?g ?t] =>
      replace (graph_contains g t) with false by (symmetry; exact Hfresh)
  end.
  unfold is_audit_entry at 2.
  assert (Ht : forall t, term_eqb t t = true)
    by (intros t; apply term_eqb_eq; reflexivity).
  rewrite !Ht; cbn [andb].
  unfold len; rewrite length_app; cbn [List.length]; lia.
Qed.

End Store.

(** C2, counterexample.  A trace of kind bogus is accepted: the call
    returns its feedback id, and the feedback graph and the audit graph,
    empty before, hold nine and six triples after. *)
Lemma add_feedback_stores_unknown_kind :
  let s0 := {| NamedGraphs.dataset := empty_dataset;
               NamedGraphs.effects := 0 |} in
  exists s',
    @NamedGraphs.add_rlhf_feedback_trace ascii_builtins
      (py "http://limitgraph.org/") bogus_trace s0
    = Ok (py "fb_001", s') /\
    len (NamedGraphs.g_rlhf (NamedGraphs.dataset s')) = 9%nat /\
    len (NamedGraphs.g_audit (NamedGraphs.dataset s')) = 6%nat /\
    NamedGraphs.dataset s' <> NamedGraphs.dataset s0 /\
    In (NamedGraphs.LGRLHF (py "http://limitgraph.org/") (py "feedback_fb_001"),
        NamedGraphs.LGONT (py "http://limitgraph.org/") (py "feedbackType"),
        Literal (py "bogus") None None)
       (NamedGraphs.g_rlhf (NamedGraphs.dataset s')).
Proof.
  cbv zeta; eexists; split; [vm_compute; reflexivity|].
  split; [reflexivity|]; split; [reflexivity|].
  split; [discriminate|].
  vm_compute; auto 10.
Qed.

Lemma add_feedback_appends_one_audit_entry_witness :
  let s0 := {| NamedGraphs.dataset := empty_dataset;
               NamedGraphs.effects := 0 |} in
  exists s',
    @NamedGraphs.add_rlhf_feedback_trace ascii_builtins
      (py "http://limitgraph.org/") bogus_trace s0 = Ok (py "fb_001", s') /\
    len (audit_entries (py "http://limitgraph.org/")
           (NamedGraphs.g_audit (NamedGraphs.dataset s'))) = 1%nat.
Proof.
  cbv zeta; eexists; split; [vm_compute; reflexivity|].
  eapply (@add_feedback_appends_one_audit_entry ascii_builtins
            (py "http://limitgraph.org/") bogus_trace
            {| NamedGraphs.dataset := empty_dataset;
               NamedGraphs.effects := 0 |});
    [vm_compute; reflexivity | reflexivity].
Defined.

(** ** The fact extractor and writer *)

Lemma bind_ok {S A B} (m : prog S A) (k : A -> prog S B) (s s' : S) (a : A) :
  m s = Ok (a, s') -> bind m k s = k a s'.
Proof. unfold bind; intros ->; reflexivity. Qed.

Lemma bind_lift_ok {S A B} (r : result A) (k : A -> prog S B) (s : S) (a : A) :
  r = Ok a -> bind (lift r) k s = k a s.
Proof. intros ->; reflexivity. Qed.

Lemma ns_uri_neq (base ns name other : str) :
  (forall tail, rev (ns ++ name) ++ tail <> rev other) ->
  other <> (base ++ ns) ++ name.
Proof.
  intros Hne E; apply (Hne (rev base)).
  rewrite E, <- (app_assoc base ns name).
  rewrite (rev_app_distr base (ns ++ name)); reflexivity.
Qed.

Lemma literal_lang_valid (lexical lang : str) :
  lang <> [] -> _is_valid_langtag lang = true ->
  literal_lang lexical lang
  = Ok (Literal lexical (Some (langtag_lower lang)) None).
Proof.
  intros Hne Hvalid; destruct lang as [|c lang]; [contradiction Hne; reflexivity|].
  unfold literal_lang; rewrite Hvalid; reflexivity.
Qed.

Lemma classifier_code_tag (l : str) :
  In l classifier_codes ->
  l <> [] /\ _is_valid_langtag l = true /\ langtag_lower l = l.
Proof.
  intros Hin; vm_compute in Hin.
  repeat destruct Hin as [Hin|Hin]; try contradiction; subst l;
    (split; [discriminate|split; reflexivity]).
Qed.

Lemma literal_lang_code (lexical l : str) :
  In l classifier_codes ->
  literal_lang lexical l = Ok (Literal lexical (Some l) None).
Proof.
  intros Hin; destruct (classifier_code_tag l Hin) as (Hne & Hvalid & Hlower).
  rewrite (literal_lang_valid lexical l Hne Hvalid), Hlower; reflexivity.
Qed.

Section Corpus.
Context {rt : Builtins}.
Variable base_uri : str.
Import TripleGenerator.

Lemma bind_graph_add_m {B} (t : triple) (k : unit -> prog state B)
  (g : Graph) (n : nat) :
  bind (graph_add_m t) k {| graph := g; effects := n |}
  = k tt {| graph := graph_add g t; effects := n |}.
Proof. reflexivity. Qed.

Lemma bind_generator_uuid4 {B} (k : str -> prog state B) (g : Graph) (n : nat) :
  bind uuid4_m k {| graph := g; effects := n |}
  = k (uuid4 n) {| graph := g; effects := S n |}.
Proof. reflexivity. Qed.

Lemma bind_generator_now {B} (k : str -> prog state B) (g : Graph) (n : nat) :
  bind now_m k {| graph := g; effects := n |}
  = k (now_isoformat n) {| graph := g; effects := S n |}.
Proof. reflexivity. Qed.

Lemma grows_refl (P : triple -> Prop) (s : state) : grows P s s.
Proof. split; auto. Qed.

Lemma grows_trans (P : triple -> Prop) (s1 s2 s3 : state) :
  grows P s1 s2 -> grows P s2 s3 -> grows P s1 s3.
Proof.
  intros [H12 H21] [H23 H32]; split; [auto|].
  intros t Ht; destruct (H32 t Ht) as [H2|HP]; auto.
Qed.

Lemma grows_add_all (P : triple -> Prop) (ts : list triple)
  (g : Graph) (n n' : nat) :
  (forall t, In t ts -> P t) ->
  grows P {| graph := g; effects := n |}
          {| graph := fold_left graph_add ts g; effects := n' |}.
Proof.
  intros HP; split; cbn [graph]; intros t Ht.
  - apply graph_add_all_In; left; exact Ht.
  - apply graph_add_all_In in Ht as [Ht|Ht]; auto.
Qed.

Lemma for_each_provenance (st : term) (items : list (str * str)) :
  forall g n,
    for_each items (fun '(key, value) =>
      graph_add_m (st, LGPROV base_uri (_clean_uri_component key),
                   Literal value None (XSD "string")))
      {| graph := g; effects := n |}
    = Ok (tt, {| graph :=
                   fold_left graph_add
                     (map (fun '(key, value) =>
                             (st, LGPROV base_uri (_clean_uri_component key),
                              Literal value None (XSD "string"))) items) g;
                 effects := n |}).
Proof.
  induction items as [|[key value] items IH]; intros g n; [reflexivity|].
  cbn [for_each map fold_left]; rewrite bind_graph_add_m; apply IH.
Qed.

Lemma add_provenance_triples_effect (st : term) (tr : LimitGraphTriple)
  (subject_uri predicate_uri object_uri : term) (g : Graph) (n : nat) :
  _add_provenance_triples base_uri st tr subject_uri predicate_uri object_uri
    {| graph := g; effects := n |}
  = Ok (tt,
        {| graph :=
             fold_left graph_add
               (statement_triples base_uri st tr
                  subject_uri predicate_uri object_uri) g;
           effects := n |}).
Proof.
  unfold _add_provenance_triples, statement_triples; cbv zeta.
  rewrite !bind_graph_add_m.
  rewrite fold_left_app; cbn [fold_left].
  destruct (provenance tr) as [[|item items]|].
  - reflexivity.
  - apply for_each_provenance.
  - reflexivity.
Qed.

Lemma object_term_built (tr : LimitGraphTriple) (s : state) :
  object_accepted tr ->
  (if _is_entity (object tr)
   then ret (LGDATA base_uri (_clean_uri_component (object tr)))
   else lift (literal_lang (object tr) (source_language tr))) s
  = Ok (object_term base_uri (object tr) (source_language tr), s).
Proof.
  unfold object_accepted, object_term; intros Hacc.
  destruct (_is_entity (object tr)); [reflexivity|].
  destruct Hacc as [Hacc|[Hacc|Hacc]]; [discriminate Hacc| |].
  - rewrite Hacc; reflexivity.
  - destruct (source_language tr) as [|c lang] eqn:E; [reflexivity|].
    unfold lift, literal_lang; rewrite Hacc; reflexivity.
Qed.

Lemma object_term_refused (tr : LimitGraphTriple) (s : state) :
  ~ object_accepted tr ->
  (if _is_entity (object tr)
   then ret (LGDATA base_uri (_clean_uri_component (object tr)))
   else lift (literal_lang (object tr) (source_language tr))) s
  = Raise (ValueError ([39] ++ source_language tr
                       ++ py "' is not a valid language tag!")).
Proof.
  unfold object_accepted; intros Hacc.
  destruct (_is_entity (object tr)); [contradiction Hacc; left; reflexivity|].
  destruct (source_language tr) as [|c lang] eqn:E;
    [contradiction Hacc; right; left; reflexivity|].
  unfold lift, literal_lang.
  destruct (_is_valid_langtag (c :: lang));
    [contradiction Hacc; right; right; reflexivity|reflexivity].
Qed.

Lemma code_accepted (tr : LimitGraphTriple) :
  In (source_language tr) classifier_codes -> object_accepted tr.
Proof.
  intros Hin; right; right; exact (proj1 (proj2 (classifier_code_tag _ Hin))).
Qed.

Lemma add_triple_to_graph_effect (tr : LimitGraphTriple) (g : Graph) (n : nat) :
  rlhf_feedback tr = None ->
  object_accepted tr ->
  add_triple_to_graph base_uri tr {| graph := g; effects := n |}
  = Ok (uuid4 n,
        {| graph := fold_left graph_add (written_triples base_uri tr (uuid4 n)) g;
           effects := S n |}).
Proof.
  intros Hfb Hacc; unfold add_triple_to_graph, written_triples.
  cbv zeta; rewrite Hfb.
  rewrite (bind_ok _ _ _ _ _ (object_term_built tr _ Hacc)).
  rewrite bind_graph_add_m, bind_generator_uuid4; cbv beta.
  erewrite bind_ok by apply add_provenance_triples_effect.
  reflexivity.
Qed.

Lemma convert_edge_effect (subject predicate object_value : str)
  (confidence : Q) (annotator_id source_text lang : str) (g : Graph) (n : nat) :
  detect_language
    (subject ++ py " " ++ predicate ++ py " " ++ object_value ++ py " "
     ++ source_text) = Ok lang ->
  convert_limitgraph_edge_to_triple subject predicate object_value confidence
    annotator_id None source_text {| graph := g; effects := n |}
  = Ok ({| TripleGenerator.subject := subject;
           TripleGenerator.predicate := predicate;
           object := object_value;
           TripleGenerator.confidence := confidence;
           source_language := lang;
           TripleGenerator.annotator_id := annotator_id;
           timestamp := now_isoformat (S n);
           rlhf_feedback := None;
           provenance :=
             Some [ (py "extraction_method", py "limitgraph_conversion");
                    (py "source_system", py "LIMIT-Graph");
                    (py "conversion_timestamp", now_isoformat n);
                    (py "source_text", source_text) ] |},
        {| graph := g; effects := S (S n) |}).
Proof.
  intros Hdl; unfold convert_limitgraph_edge_to_triple; cbv zeta.
  rewrite (bind_lift_ok _ _ _ _ Hdl).
  rewrite bind_generator_now; cbv beta.
  rewrite bind_generator_now; reflexivity.
Qed.

Lemma for_fold_spec {A B} (P : triple -> Prop) (I : B -> Prop)
  (Q : A -> state -> Prop) (body : B -> A -> prog state B) (xs : list A) :
  (forall x s s', Q x s -> grows P s s' -> Q x s') ->
  (forall x acc s,
     In x xs -> I acc ->
     exists acc' s',
       body acc x s = Ok (acc', s') /\ I acc' /\ grows P s s' /\ Q x s') ->
  forall acc s,
    I acc ->
    exists acc' s',
      for_fold xs acc body s = Ok (acc', s') /\ I acc' /\ grows P s s' /\
      forall x, In x xs -> Q x s'.
Proof.
  intros Hmono; induction xs as [|x xs IH]; intros Hbody acc s Hacc.
  - exists acc, s; repeat split; auto; intros x [].
  - destruct (Hbody x acc s (or_introl eq_refl) Hacc)
      as (acc1 & s1 & Hrun & Hacc1 & Hgrow1 & Hq).
    destruct (IH (fun y a t Hy => Hbody y a t (or_intror Hy)) acc1 s1 Hacc1)
      as (acc2 & s2 & Hrest & Hacc2 & Hgrow2 & Hqs).
    exists acc2, s2; split.
    + cbn [for_fold]; rewrite (bind_ok _ _ _ _ _ Hrun); exact Hrest.
    + split; [exact Hacc2|]; split; [exact (grows_trans _ _ _ _ Hgrow1 Hgrow2)|].
      intros y [<-|Hy]; [exact (Hmono _ _ _ Hq Hgrow2) | exact (Hqs y Hy)].
Qed.

(** *** Predicates of the ontology namespace *)

Lemma LGONT_inj (a b : str) : LGONT base_uri a = LGONT base_uri b -> a = b.
Proof.
  unfold LGONT, ns_term; intros E; injection E as E.
  exact (app_inv_head _ _ _ E).
Qed.

Lemma LGPROV_not_LGONT (a b : str) : LGPROV base_uri a <> LGONT base_uri b.
Proof.
  unfold LGPROV, LGONT, ns_term; intros E; injection E as E.
  rewrite <- !app_assoc in E; apply app_inv_head in E; discriminate E.
Qed.

Lemma RDF_type_not_source_language :
  RDF_type <> LGONT base_uri (py "sourceLanguage").
Proof.
  unfold RDF_type, LGONT, ns_term; intros E; injection E as E.
  revert E; apply ns_uri_neq; intros tail; vm_compute; discriminate.
Qed.

Lemma RDFS_label_not_source_language :
  RDFS_label <> LGONT base_uri (py "sourceLanguage").
Proof.
  unfold RDFS_label, RDFS_ns, LGONT, ns_term; intros E; injection E as E.
  revert E; apply ns_uri_neq; intros tail; vm_compute; discriminate.
Qed.

Lemma clean_length (label : str) :
  (len (_clean_uri_component label) <= len label)%nat.
Proof.
  unfold _clean_uri_component, replace_char, len.
  etransitivity; [apply filter_length_le|].
  rewrite !length_map; apply le_n.
Qed.

Lemma clean_not_source_language (label : str) :
  (len label < 14)%nat ->
  LGONT base_uri (_clean_uri_component label)
  <> LGONT base_uri (py "sourceLanguage").
Proof.
  intros Hlen E; apply LGONT_inj in E.
  pose proof (clean_length label) as Hle; rewrite E in Hle.
  change (len (py "sourceLanguage")) with 14%nat in Hle; lia.
Qed.

Ltac not_source_language :=
  let s := fresh "s" in
  let o := fresh "o" in
  let E := fresh "E" in
  intros s o E; exfalso;
  apply (f_equal (fun t : triple => snd (fst t))) in E; cbn [fst snd] in E;
  first [ exact (RDF_type_not_source_language E)
        | exact (RDFS_label_not_source_language E)
        | exact (LGPROV_not_LGONT _ _ E)
        | apply LGONT_inj in E; discriminate E ].

Lemma statement_triples_ok (st : term) (tr : LimitGraphTriple)
  (subject_uri predicate_uri object_uri : term) :
  In (source_language tr) classifier_codes ->
  forall t,
    In t (statement_triples base_uri st tr subject_uri predicate_uri object_uri) ->
    source_language_ok base_uri t.
Proof.
  intros Hlang t Ht; unfold statement_triples in Ht; cbv zeta in Ht.
  apply in_app_or in Ht as [Ht|Ht].
  - cbn [In] in Ht.
    destruct Ht as [<-|[<-|[<-|[<-|[<-|[<-|[<-|[<-|[]]]]]]]]];
      try not_source_language.
    intros s o E; apply (f_equal snd) in E; cbn [snd] in E; subst o.
    exists (source_language tr); split; [exact Hlang | reflexivity].
  - destruct (provenance tr) as [[|item items]|]; try destruct Ht.
    + destruct item as [key value]; subst t; not_source_language.
    + apply in_map_iff in H as ([key value] & <- & _); not_source_language.
Qed.

Lemma written_triples_ok (tr : LimitGraphTriple) (statement_id : str) :
  In (source_language tr) classifier_codes ->
  (len (predicate tr) < 14)%nat ->
  forall t,
    In t (written_triples base_uri tr statement_id) ->
    source_language_ok base_uri t.
Proof.
  intros Hlang Hlen t [<-|Ht].
  - intros s o E; exfalso.
    apply (f_equal (fun t : triple => snd (fst t))) in E; cbn [fst snd] in E.
    exact (clean_not_source_language _ Hlen E).
  - exact (statement_triples_ok _ _ _ _ _ Hlang t Ht).
Qed.

(** *** The extractor *)

Lemma matches_to_triples_predicate (pattern predicate text doc_id : str) :
  Forall (fun td => td_predicate td = predicate)
         (matches_to_triples pattern predicate text doc_id).
Proof.
  unfold matches_to_triples; apply Forall_forall; intros td Htd.
  apply in_map_iff in Htd as (m & <- & _); reflexivity.
Qed.

Lemma extract_simple_triples_shape (text doc_id language : str) :
  exists domain,
    _extract_simple_triples text doc_id language
    = domain ++
      [ {| td_subject := py "document_" ++ doc_id;
           td_predicate := py "contains_text";
           td_object := text;
           td_confidence := 1;
           td_source_doc := doc_id |} ] /\
    Forall (fun td => td_predicate td = py "likes" \/
                      td_predicate td = py "allergic_to") domain.
Proof.
  unfold _extract_simple_triples; cbv zeta.
  eexists; split; [reflexivity|].
  destruct (str_eqb language (py "es")); [|destruct (str_eqb language (py "en"))].
  - apply Forall_app; split;
      (eapply Forall_impl; [|apply matches_to_triples_predicate]);
      cbv beta; intros td ->; auto.
  - eapply Forall_impl; [|apply matches_to_triples_predicate].
    cbv beta; intros td ->; auto.
  - constructor.
Qed.

Lemma filter_contains_text_domain (domain : list triple_data) :
  Forall (fun td => td_predicate td = py "likes" \/
                    td_predicate td = py "allergic_to") domain ->
  filter is_contains_text domain = [].
Proof.
  induction 1 as [|td domain Htd _ IH]; [reflexivity|].
  cbn [filter]; unfold is_contains_text at 1.
  destruct Htd as [-> | ->]; exact IH.
Qed.

Lemma extract_predicate_short (text doc_id language : str) (td : triple_data) :
  In td (_extract_simple_triples text doc_id language) ->
  (len (td_predicate td) < 14)%nat.
Proof.
  destruct (extract_simple_triples_shape text doc_id language)
    as (domain & -> & Hdomain).
  intros Htd; apply in_app_or in Htd as [Htd|[<-|[]]].
  - rewrite Forall_forall in Hdomain.
    destruct (Hdomain td Htd) as [-> | ->]; vm_compute; lia.
  - vm_compute; lia.
Qed.

(** *** The writer *)

Lemma convert_triple_data_spec (annotator_id text : str) (k : nat)
  (td : triple_data) (s : state) :
  (len (td_predicate td) < 14)%nat ->
  exists s',
    convert_triple_data base_uri annotator_id text k td s
    = Ok ((k + 1)%nat, s') /\
    grows (source_language_ok base_uri) s s' /\
    candidate_written base_uri text td s'.
Proof.
  intros Hshort; destruct s as [g n].
  destruct (detect_language_code
              (td_subject td ++ py " " ++ td_predicate td ++ py " "
               ++ td_object td ++ py " " ++ text)) as (lang & Hdl & Hlang).
  unfold convert_triple_data.
  erewrite bind_ok by (apply convert_edge_effect; exact Hdl).
  erewrite bind_ok
    by (apply add_triple_to_graph_effect;
        [reflexivity|apply code_accepted; exact Hlang]).
  eexists; split; [reflexivity|]; split.
  - apply grows_add_all; apply written_triples_ok; assumption.
  - match goal with
    | |- candidate_written _ _ _
           {| graph := fold_left graph_add (written_triples _ ?tr ?sid) _;
              effects := _ |} => exists tr, sid
    end.
    cbn [subject predicate object confidence source_language provenance graph].
    split; [reflexivity|]; split; [reflexivity|]; split; [reflexivity|].
    split; [reflexivity|]; split; [exact Hlang|]; split.
    + do 3 eexists; reflexivity.
    + intros t Ht; apply graph_add_all_In; right; exact Ht.
Qed.

Lemma candidate_written_mono (P : triple -> Prop) (text : str)
  (td : triple_data) (s s' : state) :
  candidate_written base_uri text td s -> grows P s s' -> candidate_written base_uri text td s'.
Proof.
  intros (tr & sid & Hs & Hp & Ho & Hc & Hl & Hprov & Hin) [Hkeep _].
  exists tr, sid; repeat split; auto.
Qed.

Ltac in_list := repeat (first [left; reflexivity | right]).

Lemma candidate_contains_text (doc_id text : str) (s : state) :
  candidate_written base_uri text
    {| td_subject := py "document_" ++ doc_id;
       td_predicate := py "contains_text";
       td_object := text;
       td_confidence := 1;
       td_source_doc := doc_id |} s ->
  contains_text_written base_uri doc_id text (graph s).
Proof.
  cbn [td_subject td_predicate td_object td_confidence].
  intros (tr & sid & Hs & Hp & Ho & Hc & Hl & (a & b & c & Hprov) & Hin).
  exists (source_language tr), sid; split; [exact Hl|]; cbv zeta.
  unfold written_triples, statement_triples in Hin; cbv zeta in Hin.
  rewrite Hs, Hp, Ho, Hc, Hprov in Hin.
  destruct a as [ka va], b as [kb vb], c as [kc vc].
  cbn [In app map] in Hin.
  repeat split; apply Hin; in_list.
Qed.

Lemma contains_text_written_mono (doc_id text : str) (g g' : Graph) :
  (forall t, In t g -> In t g') ->
  contains_text_written base_uri doc_id text g ->
  contains_text_written base_uri doc_id text g'.
Proof.
  intros Hkeep (lang & sid & Hlang & H); cbv zeta in H.
  exists lang, sid; split; [exact Hlang|]; cbv zeta.
  repeat match goal with
         | H : _ /\ _ |- _ => destruct H
         end.
  repeat split; apply Hkeep; assumption.
Qed.

Lemma convert_document_spec (annotator_id : str) (acc : counters)
  (doc : document) (s : state) :
  languages_ok acc ->
  exists acc' s',
    convert_document base_uri annotator_id acc doc s = Ok (acc', s') /\
    languages_ok acc' /\
    grows (source_language_ok base_uri) s s' /\
    document_written base_uri doc s'.
Proof.
  intros Hacc; destruct s as [g n]; unfold convert_document.
  rewrite bind_generator_uuid4; cbv beta zeta.
  set (doc_id := match _id doc with
                 | Some i => i
                 | None => py "doc_" ++ uuid4 n
                 end).
  destruct (text doc) as [[|c t]|] eqn:Htext.
  - exists acc, {| graph := g; effects := S n |}; repeat split; auto.
    intros t Ht; congruence.
  - destruct (detect_language_code (c :: t)) as (language & Hdl & Hlanguage).
    rewrite (bind_lift_ok _ _ _ _ Hdl).
    rewrite bind_graph_add_m.
    rewrite (bind_lift_ok _ _ _ _ (literal_lang_code _ _ Hlanguage)); cbv beta.
    rewrite bind_graph_add_m.
    rewrite (bind_lift_ok _ _ _ _ (literal_lang_code _ _ Hlanguage)); cbv beta.
    rewrite !bind_graph_add_m.
    destruct (for_fold_spec (source_language_ok base_uri) (fun _ : nat => True)
                (candidate_written base_uri (c :: t))
                (convert_triple_data base_uri annotator_id (c :: t))
                (_extract_simple_triples (c :: t) doc_id language)
                (candidate_written_mono _ (c :: t)))
      with (acc := triples_added acc)
           (s := {| graph :=
                      fold_left graph_add
                        [ (LGDATA base_uri
                             (py "document_" ++ _clean_uri_component doc_id),
                           RDF_type, LGONT base_uri (py "Document"));
                          (LGDATA base_uri
                             (py "document_" ++ _clean_uri_component doc_id),
                           RDFS_label,
                           Literal (py "Document " ++ doc_id) (Some language)
                             None);
                          (LGDATA base_uri
                             (py "document_" ++ _clean_uri_component doc_id),
                           LGONT base_uri (py "content"),
                           Literal (c :: t) (Some language) None);
                          (LGDATA base_uri
                             (py "document_" ++ _clean_uri_component doc_id),
                           LGONT base_uri (py "documentId"),
                           Literal doc_id None (XSD "string"));
                          (LGDATA base_uri
                             (py "document_" ++ _clean_uri_component doc_id),
                           LGONT base_uri (py "language"),
                           Literal language None (XSD "string")) ] g;
                    effects := S n |})
      as (k & s' & Hloop & _ & Hgrow & Hwritten).
    + intros td k s0 Htd _.
      destruct (convert_triple_data_spec annotator_id (c :: t) k td s0
                  (extract_predicate_short _ _ _ _ Htd))
        as (s1 & Hrun & Hg & Hw).
      exists (k + 1)%nat, s1; auto.
    + exact I.
    + cbn [fold_left] in Hloop.
      rewrite (bind_ok _ _ _ _ _ Hloop).
      eexists; eexists; split; [reflexivity|]; split; [|split].
      * intros l Hl; cbn [languages_so_far] in Hl.
        apply set_add_In in Hl as [Hl| ->]; auto.
      * eapply grows_trans; [|exact Hgrow].
        apply grows_add_all; intros x Hx; cbn [In] in Hx.
        destruct Hx as [<-|[<-|[<-|[<-|[<-|[]]]]]]; not_source_language.
      * intros t' Ht' _; rewrite Htext in Ht'; injection Ht' as <-.
        exists doc_id; split.
        { intros i Hi; subst doc_id; rewrite Hi; reflexivity. }
        apply candidate_contains_text, Hwritten.
        destruct (extract_simple_triples_shape (c :: t) doc_id language)
          as (domain & -> & _).
        apply in_or_app; right; left; reflexivity.
  - exists acc, {| graph := g; effects := S n |}; repeat split; auto.
    intros t Ht; congruence.
Qed.

Lemma document_written_mono (P : triple -> Prop) (doc : document)
  (s s' : state) :
  document_written base_uri doc s -> grows P s s' -> document_written base_uri doc s'.
Proof.
  intros Hdoc [Hkeep _] t Ht Hne.
  destruct (Hdoc t Ht Hne) as (doc_id & Hid & Hct).
  exists doc_id; split; [exact Hid|].
  exact (contains_text_written_mono _ _ _ _ Hkeep Hct).
Qed.

Lemma convert_limitgraph_corpus_spec (corpus_data : list document)
  (annotator_id : str) (s : state) :
  exists r s',
    convert_limitgraph_corpus base_uri corpus_data annotator_id s = Ok (r, s') /\
    result_graph r = graph s' /\
    (forall l, In l (languages_detected r) -> In l classifier_codes) /\
    grows (source_language_ok base_uri) s s' /\
    forall doc, In doc corpus_data -> document_written base_uri doc s'.
Proof.
  destruct (for_fold_spec (source_language_ok base_uri) languages_ok
              (document_written base_uri) (convert_document base_uri annotator_id)
              corpus_data (document_written_mono _))
    with (acc := {| languages_so_far := []; triples_added := 0%nat |}) (s := s)
    as (acc & [g n] & Hloop & Hacc & Hgrow & Hdocs).
  - intros doc acc0 s0 _ Hacc0; apply convert_document_spec; exact Hacc0.
  - intros l [].
  - unfold convert_limitgraph_corpus.
    rewrite (bind_ok _ _ _ _ _ Hloop), bind_generator_now.
    eexists; eexists; split; [reflexivity|].
    cbn [result_graph languages_detected graph].
    split; [reflexivity|]; split; [exact Hacc|]; split.
    + destruct Hgrow as [Hkeep Hnew]; split; cbn [graph] in *; auto.
    + intros doc Hdoc t Ht Hne.
      destruct (Hdocs doc Hdoc t Ht Hne) as (doc_id & Hid & Hct).
      exists doc_id; split; [exact Hid | exact Hct].
Qed.

Lemma convert_documents_skip (annotator_id : str)
  (corpus_data : list document) :
  (forall doc, In doc corpus_data -> text doc = None \/ text doc = Some []) ->
  forall acc g n,
    for_fold corpus_data acc (convert_document base_uri annotator_id)
      {| graph := g; effects := n |}
    = Ok (acc, {| graph := g; effects := (n + len corpus_data)%nat |}).
Proof.
  induction corpus_data as [|doc rest IH]; intros Hempty acc g n.
  - cbn [for_fold len List.length]; rewrite Nat.add_0_r; reflexivity.
  - cbn [for_fold].
    assert (Hdoc : convert_document base_uri annotator_id acc doc
                     {| graph := g; effects := n |}
                   = Ok (acc, {| graph := g; effects := S n |})).
    { unfold convert_document; rewrite bind_generator_uuid4; cbv beta zeta.
      destruct (Hempty doc (or_introl eq_refl)) as [-> | ->]; reflexivity. }
    rewrite (bind_ok _ _ _ _ _ Hdoc).
    rewrite IH by (intros d Hd; apply Hempty; right; exact Hd).
    unfold len; cbn [List.length]; rewrite Nat.add_succ_r; reflexivity.
Qed.

Lemma convert_triple_data_exact (annotator_id text : str) (k : nat)
  (td : triple_data) (g : Graph) (n : nat) :
  exists fact,
    fact_written_at base_uri annotator_id text td n fact /\
    convert_triple_data base_uri annotator_id text k td
      {| graph := g; effects := n |}
    = Ok ((k + 1)%nat,
          {| graph := fold_left graph_add fact g;
             effects := S (S (S n)) |}).
Proof.
  destruct (detect_language_code
              (td_subject td ++ py " " ++ td_predicate td ++ py " "
               ++ td_object td ++ py " " ++ text)) as (lang & Hdl & Hlang).
  unfold convert_triple_data.
  erewrite bind_ok by (apply convert_edge_effect; exact Hdl).
  erewrite bind_ok
    by (apply add_triple_to_graph_effect;
        [reflexivity|apply code_accepted; exact Hlang]).
  eexists; split; [|reflexivity].
  exists lang; split; [exact Hdl|reflexivity].
Qed.

Lemma convert_triples_exact (annotator_id text : str) (tds : list triple_data) :
  forall k g n,
  exists facts,
    facts_written_from base_uri annotator_id text n tds facts /\
    for_fold tds k (convert_triple_data base_uri annotator_id text)
      {| graph := g; effects := n |}
    = Ok ((k + len facts)%nat,
          {| graph := fold_left graph_add (List.concat facts) g;
             effects := (3 * len facts + n)%nat |}).
Proof.
  induction tds as [|td tds IH]; intros k g n.
  - exists []; split; [exact I|].
    unfold len; cbn [for_fold List.length List.concat fold_left].
    rewrite Nat.add_0_r; reflexivity.
  - destruct (convert_triple_data_exact annotator_id text k td g n)
      as (fact & Hfact & Hrun).
    destruct (IH (k + 1)%nat (fold_left graph_add fact g) (S (S (S n))))
      as (facts & Hfacts & Hrest).
    exists (fact :: facts); split; [split; assumption|].
    cbn [for_fold]; rewrite (bind_ok _ _ _ _ _ Hrun), Hrest.
    cbn [List.concat]; rewrite fold_left_app.
    unfold len; cbn [List.length].
    replace (k + 1 + List.length facts)%nat
      with (k + S (List.length facts))%nat by lia.
    replace (3 * List.length facts + S (S (S n)))%nat
      with (3 * S (List.length facts) + n)%nat by lia.
    reflexivity.
Qed.

Lemma convert_document_exact (annotator_id : str) (acc : counters)
  (doc : document) (g : Graph) (n : nat) :
  exists w acc',
    document_writes_at base_uri annotator_id doc n w /\
    convert_document base_uri annotator_id acc doc
      {| graph := g; effects := n |}
    = Ok (acc', {| graph := fold_left graph_add (written_block w) g;
                   effects := (values_drawn w + n)%nat |}) /\
    triples_added acc' = (triples_added acc + len (snd w))%nat.
Proof.
  unfold convert_document, document_writes_at, values_drawn.
  rewrite bind_generator_uuid4; cbv beta zeta.
  destruct (text doc) as [[|c t]|].
  - exists ([], []), acc; split; [reflexivity|].
    split; [reflexivity|unfold len; cbn [snd List.length]; lia].
  - destruct (detect_language_code (c :: t)) as (language & Hdl & Hlanguage).
    rewrite (bind_lift_ok _ _ _ _ Hdl).
    rewrite bind_graph_add_m.
    rewrite (bind_lift_ok _ _ _ _ (literal_lang_code _ _ Hlanguage)); cbv beta.
    rewrite bind_graph_add_m.
    rewrite (bind_lift_ok _ _ _ _ (literal_lang_code _ _ Hlanguage)); cbv beta.
    rewrite !bind_graph_add_m.
    match goal with
    | |- context [bind (for_fold ?tds ?k _) _
                    {| graph := ?g5; effects := ?n5 |}] =>
        destruct (convert_triples_exact annotator_id (c :: t) tds k g5 n5)
          as (facts & Hfacts & Hloop)
    end.
    rewrite (bind_ok _ _ _ _ _ Hloop).
    exists (document_triples base_uri
              (match _id doc with
               | Some i => i
               | None => py "doc_" ++ uuid4 n
               end) (c :: t) language, facts).
    eexists; split; [|split].
    + exists language.
      split; [exact Hdl|]; split; [reflexivity|exact Hfacts].
    + unfold ret, written_block, document_triples; cbv zeta; cbn [fst snd].
      rewrite fold_left_app.
      replace (S (3 * len facts) + n)%nat with (3 * len facts + S n)%nat
        by lia.
      reflexivity.
    + reflexivity.
  - exists ([], []), acc; split; [reflexivity|].
    split; [reflexivity|unfold len; cbn [snd List.length]; lia].
Qed.

Lemma convert_documents_exact (annotator_id : str)
  (corpus_data : list document) :
  forall acc g n,
  exists writes acc',
    corpus_writes_from base_uri annotator_id n corpus_data writes /\
    for_fold corpus_data acc (convert_document base_uri annotator_id)
      {| graph := g; effects := n |}
    = Ok (acc', {| graph :=
                     fold_left graph_add
                       (List.concat (map written_block writes)) g;
                   effects :=
                     fold_left (fun m w => (values_drawn w + m)%nat) writes n |}) /\
    triples_added acc'
    = (triples_added acc + len (List.concat (map snd writes)))%nat.
Proof.
  induction corpus_data as [|doc rest IH]; intros acc g n.
  - exists [], acc; split; [exact I|]; split; [reflexivity|].
    unfold len; cbn [map List.concat List.length]; lia.
  - destruct (convert_document_exact annotator_id acc doc g n)
      as (w & acc1 & Hw & Hrun & Hcount).
    destruct (IH acc1 (fold_left graph_add (written_block w) g)
                (values_drawn w + n)%nat)
      as (writes & acc' & Hwrites & Hrest & Hcount').
    exists (w :: writes), acc'; split; [split; assumption|].
    split.
    + cbn [for_fold]; rewrite (bind_ok _ _ _ _ _ Hrun), Hrest.
      cbn [map List.concat fold_left]; rewrite fold_left_app; reflexivity.
    + rewrite Hcount', Hcount; unfold len; cbn [map List.concat].
      rewrite length_app; lia.
Qed.

(** C3 (as the code has it).  The conversion of a corpus always returns,
    and what it writes is known exactly: the graph afterwards is the graph
    before with the writes for the documents added in their order, and
    the count of triples is the number of facts written.  For a document
    whose text is not empty the writes are the triples of the document
    and, for each candidate of the extractor, that fact and one statement
    of it; the extractor produces exactly one contains_text candidate,
    from the document to its full raw text with confidence 1, so exactly
    one contains_text fact is written, with a statement of confidence 1.0
    whose source text is the raw text; the object of the fact is the text
    as a literal, or the entity minted from the text when the text looks
    like an entity.  A document without text is skipped: nothing is
    written for it, whatever else the corpus holds. *)
Theorem convert_corpus_contains_text (corpus_data : list document)
  (annotator_id : str) (s : state) :
  exists r s' writes,
    convert_limitgraph_corpus base_uri corpus_data annotator_id s = Ok (r, s') /\
    result_graph r = graph s' /\
    corpus_writes_from base_uri annotator_id (effects s) corpus_data writes /\
    graph s'
    = fold_left graph_add (List.concat (map written_block writes)) (graph s) /\
    effects s'
    = S (fold_left (fun m w => (values_drawn w + m)%nat) writes (effects s)) /\
    triples_count r = len (List.concat (map snd writes)) /\
    (forall doc t,
       In doc corpus_data -> text doc = Some t -> t <> [] ->
       (forall doc_id language,
          filter is_contains_text (_extract_simple_triples t doc_id language)
          = [ {| td_subject := py "document_" ++ doc_id;
                 td_predicate := py "contains_text";
                 td_object := t;
                 td_confidence := 1;
                 td_source_doc := doc_id |} ]) /\
       exists doc_id,
         (forall i, _id doc = Some i -> doc_id = i) /\
         contains_text_written base_uri doc_id t (result_graph r)) /\
    ((forall doc, In doc corpus_data -> text doc = None \/ text doc = Some []) ->
     result_graph r = graph s /\ triples_count r = 0%nat).
Proof.
  destruct (convert_limitgraph_corpus_spec corpus_data annotator_id s)
    as (r & s' & Hrun & Hgraph & _ & _ & Hdocs).
  destruct s as [g n].
  destruct (convert_documents_exact annotator_id corpus_data
              {| languages_so_far := []; triples_added := 0%nat |} g n)
    as (writes & acc & Hwrites & Hloop & Hcount).
  assert (Hexact := Hrun); unfold convert_limitgraph_corpus in Hexact.
  rewrite (bind_ok _ _ _ _ _ Hloop), bind_generator_now in Hexact.
  injection Hexact as Hr Hs'.
  exists r, s', writes; split; [exact Hrun|]; split; [exact Hgraph|].
  split; [exact Hwrites|]; split; [rewrite <- Hs'; reflexivity|].
  split; [rewrite <- Hs'; reflexivity|].
  split; [rewrite <- Hr; cbn [triples_count]; rewrite Hcount; reflexivity|].
  split.
  - intros doc t Hdoc Ht Hne; split.
    + intros doc_id language.
      destruct (extract_simple_triples_shape t doc_id language)
        as (domain & -> & Hdomain).
      rewrite filter_app, (filter_contains_text_domain domain Hdomain).
      reflexivity.
    + rewrite Hgraph; exact (Hdocs doc Hdoc t Ht Hne).
  - intros Hempty.
    unfold convert_limitgraph_corpus in Hrun.
    rewrite (bind_ok _ _ _ _ _
               (convert_documents_skip annotator_id corpus_data Hempty _ g n))
      in Hrun.
    rewrite bind_generator_now in Hrun.
    injection Hrun as <- _; split; reflexivity.
Qed.

(** C10.  The classifier names one of the four codes es, ar, id, en of
    its lexicon table; so, after the conversion of any corpus, every
    detected language is one of the four, every source language that the
    conversion recorded on a statement is one of the four, and zh and hi
    are never detected. *)
Theorem convert_corpus_languages_in_lexicon (corpus_data : list document)
  (annotator_id : str) (s : state) :
  classifier_codes = [py "es"; py "ar"; py "id"; py "en"] /\
  exists r s',
    convert_limitgraph_corpus base_uri corpus_data annotator_id s = Ok (r, s') /\
    (forall l, In l (languages_detected r) -> In l classifier_codes) /\
    (forall st o,
       In (st, LGONT base_uri (py "sourceLanguage"), o) (result_graph r) ->
       In (st, LGONT base_uri (py "sourceLanguage"), o) (graph s) \/
       exists l, In l classifier_codes /\ o = Literal l None (XSD "string")) /\
    ~ In (py "zh") (languages_detected r) /\
    ~ In (py "hi") (languages_detected r).
Proof.
  split; [reflexivity|].
  destruct (convert_limitgraph_corpus_spec corpus_data annotator_id s)
    as (r & s' & Hrun & Hgraph & Hlangs & [_ Hnew] & _).
  exists r, s'; split; [exact Hrun|]; split; [exact Hlangs|]; split; [|split].
  - intros st o Hin; rewrite Hgraph in Hin.
    destruct (Hnew _ Hin) as [Hold|Hok]; [left; exact Hold|].
    right; exact (Hok st o eq_refl).
  - intros Hzh; apply Hlangs in Hzh; vm_compute in Hzh.
    repeat destruct Hzh as [Hzh|Hzh]; try discriminate Hzh; exact Hzh.
  - intros Hhi; apply Hlangs in Hhi; vm_compute in Hhi.
    repeat destruct Hhi as [Hhi|Hhi]; try discriminate Hhi; exact Hhi.
Qed.

End Corpus.

(** C3, counterexample.  A document with an empty text is skipped: the
    conversion of the corpus that holds only it returns an empty graph
    and counts no triple, so no contains_text fact exists for it.  And
    for the document d2 with the text Bob owns, the object of the written
    fact is the entity minted from the text, not the text. *)
Lemma convert_corpus_skips_empty_text :
  let base_uri := py "http://limitgraph.org/" in
  let s0 := {| TripleGenerator.graph := []; TripleGenerator.effects := 0 |} in
  let empty_doc := {| TripleGenerator._id := Some (py "d0");
                      TripleGenerator.text := Some [] |} in
  let short_doc := {| TripleGenerator._id := Some (py "d2");
                      TripleGenerator.text := Some (py "Bob owns") |} in
  (exists r s',
     @TripleGenerator.convert_limitgraph_corpus ascii_builtins base_uri
       [empty_doc] (py "corpus_processor") s0 = Ok (r, s') /\
     TripleGenerator.result_graph r = [] /\
     TripleGenerator.triples_count r = 0%nat) /\
  (exists r s',
     @TripleGenerator.convert_limitgraph_corpus ascii_builtins base_uri
       [short_doc] (py "corpus_processor") s0 = Ok (r, s') /\
     In (TripleGenerator.LGDATA base_uri (py "document_d2"),
         TripleGenerator.LGONT base_uri (py "contains_text"),
         TripleGenerator.LGDATA base_uri (py "Bob_owns"))
        (TripleGenerator.result_graph r) /\
     @contains_text_literals ascii_builtins base_uri
       (TripleGenerator.result_graph r) = []).
Proof.
  cbv zeta; split.
  - eexists; eexists; split; [vm_compute; reflexivity|].
    split; reflexivity.
  - eexists; eexists; split; [vm_compute; reflexivity|].
    split; [|vm_compute; reflexivity].
    apply graph_contains_In; vm_compute; reflexivity.
Qed.

Lemma convert_corpus_contains_text_witness :
  let base_uri := py "http://limitgraph.org/" in
  let s0 := {| TripleGenerator.graph := []; TripleGenerator.effects := 0 |} in
  let doc := {| TripleGenerator._id := Some (py "d2");
                TripleGenerator.text := Some (py "Bob owns") |} in
  exists r s',
    @TripleGenerator.convert_limitgraph_corpus ascii_builtins base_uri
      [doc] (py "corpus_processor") s0 = Ok (r, s') /\
    py "Bob owns" <> [] /\
    @contains_text_written ascii_builtins base_uri (py "d2") (py "Bob owns")
      (TripleGenerator.result_graph r).
Proof.
  cbv zeta.
  destruct (@convert_corpus_contains_text ascii_builtins
              (py "http://limitgraph.org/")
              [ {| TripleGenerator._id := Some (py "d2");
                   TripleGenerator.text := Some (py "Bob owns") |} ]
              (py "corpus_processor")
              {| TripleGenerator.graph := []; TripleGenerator.effects := 0 |})
    as (r & s' & writes & Hrun & _ & _ & _ & _ & _ & Hdocs & _).
  exists r, s'; split; [exact Hrun|]; split; [discriminate|].
  destruct (Hdocs _ (py "Bob owns") (or_introl eq_refl) eq_refl)
    as [_ (doc_id & Hid & Hwritten)]; [discriminate|].
  rewrite (Hid (py "d2") eq_refl) in Hwritten; exact Hwritten.
Defined.

Lemma detect_language_total_whitespace_witness :
  forallb (@chr_isspace ascii_builtins) (py "   ") = true /\
  @TripleGenerator.detect_language ascii_builtins (py "   ") = Ok (py "en").
Proof.
  split; [reflexivity|].
  apply (@detect_language_total_whitespace ascii_builtins);
    [discriminate | reflexivity | reflexivity].
Defined.

(** * Further properties *)

(** ** The classifier picks a language of maximal score *)

Lemma dict_set_fresh {V : Type} (d : list (str * V)) (k : str) (v : V) :
  ~ In k (map fst d) -> dict_set d k v = d ++ [(k, v)].
Proof.
  induction d as [|[k' v'] d IH]; intros Hk; [reflexivity|].
  cbn [dict_set]; destruct (str_eqb k' k) eqn:E.
  - apply str_eqb_eq in E; subst; exfalso; apply Hk; left; reflexivity.
  - rewrite IH; [reflexivity|]; intros Hin; apply Hk; right; exact Hin.
Qed.

Lemma Qgtb_lt (a b : Q) : Qgtb a b = true <-> (b < a)%Q.
Proof.
  unfold Qgtb; rewrite negb_true_iff; split.
  - intros H; apply Qnot_le_lt; intros Hle.
    apply Qle_bool_iff in Hle; congruence.
  - intros Hlt; destruct (Qle_bool a b) eqn:E; [|reflexivity].
    apply Qle_bool_iff in E; exfalso; exact (Qlt_not_le _ _ Hlt E).
Qed.

Lemma Qgtb_le (a b : Q) : Qgtb a b = false <-> (a <= b)%Q.
Proof.
  unfold Qgtb; rewrite negb_false_iff; apply Qle_bool_iff.
Qed.

(** The first maximal item: the items before it are smaller, the items
    after it are not larger. *)
Lemma max_by_value_first (items : list (str * Q)) :
  forall best,
  exists pre post,
    best :: items = pre ++ max_by_value best items :: post /\
    (forall x, In x pre -> (snd x < snd (max_by_value best items))%Q) /\
    (forall x, In x post -> (snd x <= snd (max_by_value best items))%Q).
Proof.
  induction items as [|x items IH]; intros best.
  - exists [], []; repeat split; intros y [].
  - cbn [max_by_value]; destruct (Qgtb (snd x) (snd best)) eqn:E.
    + apply Qgtb_lt in E.
      destruct (IH x) as (pre & post & Hsplit & Hpre & Hpost).
      set (m := max_by_value x items) in *; clearbody m.
      exists (best :: pre), post; split; [cbn [app]; rewrite <- Hsplit; reflexivity|].
      split; [|exact Hpost].
      intros y [<-|Hy]; [|exact (Hpre y Hy)].
      eapply Qlt_le_trans; [exact E|].
      destruct pre as [|p pre].
      * injection Hsplit as <- _; apply Qle_refl.
      * injection Hsplit as <- _; apply Qlt_le_weak, Hpre; left; reflexivity.
    + apply Qgtb_le in E.
      destruct (IH best) as (pre & post & Hsplit & Hpre & Hpost).
      set (m := max_by_value best items) in *; clearbody m.
      destruct pre as [|p pre].
      * injection Hsplit as Hbest Hitems.
        exists [], (x :: post); split; [cbn [app]; rewrite <- Hbest, Hitems; reflexivity|].
        split; [intros y []|].
        intros y [<-|Hy]; [rewrite <- Hbest; exact E | exact (Hpost y Hy)].
      * injection Hsplit as <- Hitems.
        exists (best :: x :: pre), post; split;
          [cbn [app]; rewrite Hitems; reflexivity|].
        split; [|exact Hpost].
        intros y [<-|[<-|Hy]].
        -- apply Hpre; left; reflexivity.
        -- eapply Qle_lt_trans; [exact E|]; apply Hpre; left; reflexivity.
        -- apply Hpre; right; exact Hy.
Qed.

Lemma map_filter_split {A B : Type} (f : A -> B) (g : A -> bool) (l : list A) :
  forall spre m spost,
    map f (filter g l) = spre ++ m :: spost ->
    exists pre x post,
      l = pre ++ x :: post /\ g x = true /\ f x = m /\
      spre = map f (filter g pre) /\ spost = map f (filter g post).
Proof.
  induction l as [|a l IH]; intros spre m spost Hsplit.
  - destruct spre; discriminate Hsplit.
  - cbn [filter] in Hsplit; destruct (g a) eqn:Ea.
    + destruct spre as [|b spre]; cbn [map app] in Hsplit.
      * injection Hsplit as Hm Hpost.
        exists [], a, l; repeat split; auto.
      * injection Hsplit as Hb Hrest.
        destruct (IH _ _ _ Hrest) as (pre & x & post & -> & Hx & Hm & -> & ->).
        exists (a :: pre), x, post; repeat split; auto.
        cbn [filter]; rewrite Ea; cbn [map]; rewrite Hb; reflexivity.
    + destruct (IH _ _ _ Hsplit) as (pre & x & post & -> & Hx & Hm & -> & ->).
      exists (a :: pre), x, post; repeat split; auto.
      cbn [filter]; rewrite Ea; reflexivity.
Qed.

Section ClassifierMaximum.
Context {rt : Builtins}.
Import TripleGenerator.

Lemma score_languages_explicit (words : list str)
  (table : list (str * list str)) :
  NoDup (map fst table) ->
  forall acc,
    (forall k, In k (map fst table) -> ~ In k (map fst acc)) ->
    fold_left (score_language words) table (Ok acc)
    = Ok (acc ++ scored_languages words table).
Proof.
  unfold scored_languages.
  induction table as [|[lang patterns] table IH]; intros Hnodup acc Hfresh.
  - cbn [fold_left filter map]; rewrite app_nil_r; reflexivity.
  - cbn [fold_left]; rewrite score_language_step.
    cbn [map] in Hnodup; apply NoDup_cons_iff in Hnodup as [Hlang Hnodup].
    cbn [filter snd fst].
    destruct (0 <? score words patterns)%Z eqn:Hpos.
    + apply Z.ltb_lt in Hpos.
      destruct (truediv_score words patterns Hpos) as [_ ->]; cbn [rbind].
      rewrite dict_set_fresh by (apply Hfresh; left; reflexivity).
      rewrite IH; [cbn [map fst snd]; rewrite <- app_assoc; reflexivity
                  | exact Hnodup |].
      intros k Hk Hin; rewrite map_app, in_app_iff in Hin.
      destruct Hin as [Hin|[<-|[]]]; [|exact (Hlang Hk)].
      exact (Hfresh k (or_intror Hk) Hin).
    + apply IH; [exact Hnodup|].
      intros k Hk; apply Hfresh; right; exact Hk.
Qed.

Lemma language_patterns_nodup : NoDup (map fst language_patterns).
Proof.
  cbn [language_patterns map fst].
  repeat (constructor; [cbn [In]; intros H;
                        repeat destruct H as [H|H]; try discriminate H; exact H|]).
  constructor.
Qed.

Lemma same_denominator_lt (a b : Z) (d : positive) :
  (Qmake a d < Qmake b d)%Q <-> (a < b)%Z.
Proof. unfold Qlt; cbn [Qnum Qden]; nia. Qed.

Lemma same_denominator_le (a b : Z) (d : positive) :
  (Qmake a d <= Qmake b d)%Q <-> (a <= b)%Z.
Proof. unfold Qle; cbn [Qnum Qden]; nia. Qed.

(** X1.  On a text that is not empty the classifier answers en when no
    language of the table has a stop word among the tokens; otherwise it
    answers the first language of the table, in the order es, ar, id, en,
    whose number of stop words among the tokens is the largest. *)
Theorem detect_language_first_maximal (text code : str) :
  text <> [] ->
  detect_language text = Ok code ->
  ((forall lang patterns, In (lang, patterns) language_patterns ->
                          (hits text patterns <= 0)%Z) /\
   code = py "en") \/
  exists pre patterns post,
    language_patterns = pre ++ (code, patterns) :: post /\
    (0 < hits text patterns)%Z /\
    (forall lang p, In (lang, p) pre -> (hits text p < hits text patterns)%Z) /\
    (forall lang p, In (lang, p) post -> (hits text p <= hits text patterns)%Z).
Proof.
  intros Hne Hdl; destruct text as [|c text]; [congruence|].
  unfold detect_language in Hdl.
  rewrite (score_languages_explicit _ _ language_patterns_nodup [])
    in Hdl by (intros k _ []).
  cbn [app rbind] in Hdl; unfold hits.
  set (words := split (str_lower (c :: text))) in *.
  destruct (scored_languages words language_patterns) as [|first rest] eqn:Hs.
  - left; injection Hdl as <-; split; [|reflexivity].
    intros lang patterns Hin.
    destruct (0 <? score words patterns)%Z eqn:Hpos;
      [|apply Z.ltb_ge in Hpos; exact Hpos].
    exfalso; unfold scored_languages in Hs.
    assert (Hf : In (lang, patterns)
                   (filter (fun item : str * list str =>
                              (0 <? score words (snd item))%Z)
                           language_patterns))
      by (apply filter_In; split; [exact Hin | exact Hpos]).
    apply (in_map (fun item : str * list str =>
                     (fst item,
                      Qmake (score words (snd item))
                            (Z.to_pos (Z.of_nat (len words)))))) in Hf.
    rewrite Hs in Hf; destruct Hf.
  - right; injection Hdl as <-.
    destruct (max_by_value_first rest first)
      as (spre & spost & Hsplit & Hpre & Hpost).
    rewrite <- Hs in Hsplit; unfold scored_languages in Hsplit.
    destruct (map_filter_split _ _ _ _ _ _ Hsplit)
      as (pre & [lang patterns] & post & Htable & Hpos & Hm & -> & ->).
    cbn [fst snd] in Hpos, Hm; apply Z.ltb_lt in Hpos.
    rewrite <- Hm in Hpre, Hpost |- *; cbn [fst snd] in Hpre, Hpost |- *.
    exists pre, patterns, post; split; [exact Htable|]; split; [exact Hpos|].
    split.
    + intros l p Hin.
      destruct (0 <? score words p)%Z eqn:Hp;
        [|apply Z.ltb_ge in Hp; lia].
      apply (same_denominator_lt _ _ (Z.to_pos (Z.of_nat (len words)))).
      apply (Hpre (l, Qmake (score words p) (Z.to_pos (Z.of_nat (len words))))).
      apply (in_map (fun item : str * list str =>
                       (fst item,
                        Qmake (score words (snd item))
                              (Z.to_pos (Z.of_nat (len words)))))
                    _ (l, p)).
      apply filter_In; split; [exact Hin | exact Hp].
    + intros l p Hin.
      destruct (0 <? score words p)%Z eqn:Hp;
        [|apply Z.ltb_ge in Hp; lia].
      apply (same_denominator_le _ _ (Z.to_pos (Z.of_nat (len words)))).
      apply (Hpost (l, Qmake (score words p) (Z.to_pos (Z.of_nat (len words))))).
      apply (in_map (fun item : str * list str =>
                       (fst item,
                        Qmake (score words (snd item))
                              (Z.to_pos (Z.of_nat (len words)))))
                    _ (l, p)).
      apply filter_In; split; [exact Hin | exact Hp].
Qed.

End ClassifierMaximum.

Lemma detect_language_first_maximal_witness :
  py "the la" <> [] /\
  @TripleGenerator.detect_language ascii_builtins (py "the la") = Ok (py "es") /\
  ((forall lang patterns,
      In (lang, patterns) TripleGenerator.language_patterns ->
      (@hits ascii_builtins (py "the la") patterns <= 0)%Z) /\
   py "es" = py "en" \/
   exists pre patterns post,
     TripleGenerator.language_patterns = pre ++ (py "es", patterns) :: post /\
     (0 < @hits ascii_builtins (py "the la") patterns)%Z /\
     (forall lang p, In (lang, p) pre ->
        (@hits ascii_builtins (py "the la") p
         < @hits ascii_builtins (py "the la") patterns)%Z) /\
     (forall lang p, In (lang, p) post ->
        (@hits ascii_builtins (py "the la") p
         <= @hits ascii_builtins (py "the la") patterns)%Z)).
Proof.
  split; [discriminate|]; split; [reflexivity|].
  apply (@detect_language_first_maximal ascii_builtins (py "the la") (py "es"));
    [discriminate | reflexivity].
Defined.

(** ** Graphs only grow *)

Lemma graph_add_NoDup (g : Graph) (t : triple) :
  NoDup g -> NoDup (graph_add g t).
Proof.
  intros Hg; unfold graph_add; destruct (graph_contains g t) eqn:E; [exact Hg|].
  apply NoDup_app; [exact Hg | repeat constructor; intros [] |].
  intros x Hx [<-|[]].
  apply graph_contains_In in Hx; congruence.
Qed.

Lemma graph_extends_refl (g : Graph) : graph_extends g g.
Proof. exists []; reflexivity. Qed.

Lemma graph_extends_trans (g1 g2 g3 : Graph) :
  graph_extends g1 g2 -> graph_extends g2 g3 -> graph_extends g1 g3.
Proof.
  intros [ts1 ->] [ts2 ->]; exists (ts1 ++ ts2).
  rewrite fold_left_app; reflexivity.
Qed.

Lemma graph_extends_In (g g' : Graph) (t : triple) :
  graph_extends g g' -> In t g -> In t g'.
Proof. intros [ts ->] Ht; apply graph_add_all_In; left; exact Ht. Qed.

Lemma graph_extends_NoDup (g g' : Graph) :
  graph_extends g g' -> NoDup g -> NoDup g'.
Proof.
  intros [ts ->]; revert g; induction ts as [|t ts IH]; intros g Hg;
    cbn [fold_left]; [exact Hg|].
  apply IH, graph_add_NoDup, Hg.
Qed.

Lemma bind_inv {S A B} (m : prog S A) (k : A -> prog S B) (s : S)
  (r : B * S) :
  bind m k s = Ok r -> exists a s1, m s = Ok (a, s1) /\ k a s1 = Ok r.
Proof.
  unfold bind; destruct (m s) as [[a s1]|e]; [|discriminate].
  intros H; exists a, s1; split; [reflexivity | exact H].
Qed.

Section GeneratorInvariants.
Context {rt : Builtins}.
Variable base_uri : str.
Import TripleGenerator.

Lemma for_fold_extends {A B} (body : B -> A -> prog state B) (xs : list A) :
  (forall x acc s acc' s',
     body acc x s = Ok (acc', s') -> graph_extends (graph s) (graph s')) ->
  forall acc s acc' s',
    for_fold xs acc body s = Ok (acc', s') ->
    graph_extends (graph s) (graph s').
Proof.
  intros Hbody; induction xs as [|x xs IH]; intros acc s acc' s' Hrun.
  - injection Hrun as _ <-; apply graph_extends_refl.
  - cbn [for_fold] in Hrun; apply bind_inv in Hrun as (a & s1 & H1 & Hrest).
    eapply graph_extends_trans; [exact (Hbody _ _ _ _ _ H1) | exact (IH _ _ _ _ Hrest)].
Qed.

Lemma convert_triple_data_run (annotator_id text : str) (k : nat)
  (td : triple_data) (g : Graph) (n : nat) :
  exists tr,
    convert_triple_data base_uri annotator_id text k td
      {| graph := g; effects := n |}
    = Ok ((k + 1)%nat,
          {| graph := fold_left graph_add
                        (written_triples base_uri tr (uuid4 (S (S n)))) g;
             effects := S (S (S n)) |}).
Proof.
  destruct (detect_language_code
              (td_subject td ++ py " " ++ td_predicate td ++ py " "
               ++ td_object td ++ py " " ++ text)) as (lang & Hdl & Hlang).
  unfold convert_triple_data.
  erewrite bind_ok by (apply convert_edge_effect; exact Hdl).
  erewrite bind_ok
    by (apply add_triple_to_graph_effect;
        [reflexivity|apply code_accepted; exact Hlang]).
  eexists; reflexivity.
Qed.

Lemma convert_triples_run (annotator_id text : str) (tds : list triple_data) :
  forall k s k' s',
    for_fold tds k (convert_triple_data base_uri annotator_id text) s
    = Ok (k', s') ->
    k' = (k + len tds)%nat /\ graph_extends (graph s) (graph s').
Proof.
  induction tds as [|td tds IH]; intros k s k' s' Hrun.
  - injection Hrun as <- <-; split;
      [unfold len; cbn [List.length]; lia | apply graph_extends_refl].
  - cbn [for_fold] in Hrun; destruct s as [g n].
    destruct (convert_triple_data_run annotator_id text k td g n) as [tr Htd].
    rewrite (bind_ok _ _ _ _ _ Htd) in Hrun.
    destruct (IH _ _ _ _ Hrun) as [-> Hext]; split.
    + unfold len; cbn [List.length]; lia.
    + eapply graph_extends_trans; [|exact Hext].
      cbn [graph]; eexists; reflexivity.
Qed.

Lemma convert_document_run (annotator_id : str) (acc acc' : counters)
  (doc : document) (s s' : state) :
  convert_document base_uri annotator_id acc doc s = Ok (acc', s') ->
  graph_extends (graph s) (graph s') /\
  (triples_added acc + (if has_text doc then 1 else 0)
   <= triples_added acc')%nat.
Proof.
  destruct s as [g n]; unfold convert_document, has_text.
  rewrite bind_generator_uuid4; cbv beta zeta.
  destruct (text doc) as [[|c t]|].
  - intros H; injection H as <- <-; split; [apply graph_extends_refl | lia].
  - destruct (detect_language_code (c :: t)) as (language & Hdl & Hlanguage).
    rewrite (bind_lift_ok _ _ _ _ Hdl).
    rewrite bind_graph_add_m.
    rewrite (bind_lift_ok _ _ _ _ (literal_lang_code _ _ Hlanguage)); cbv beta.
    rewrite bind_graph_add_m.
    rewrite (bind_lift_ok _ _ _ _ (literal_lang_code _ _ Hlanguage)); cbv beta.
    rewrite !bind_graph_add_m.
    intros H; apply bind_inv in H as (k & s1 & Hloop & Hret).
    injection Hret as <- <-.
    destruct (convert_triples_run _ _ _ _ _ _ _ Hloop) as [-> Hext].
    cbn [graph triples_added] in *; split.
    + eapply graph_extends_trans; [|exact Hext].
      match goal with
      | |- graph_extends _
             (graph_add (graph_add (graph_add (graph_add (graph_add _ ?t1) ?t2)
                                      ?t3) ?t4) ?t5) =>
          exists [t1; t2; t3; t4; t5]; reflexivity
      end.
    + match goal with
      | |- context [_extract_simple_triples ?a ?b ?c] =>
          destruct (extract_simple_triples_shape a b c) as (domain & -> & _)
      end.
      unfold len; rewrite length_app; cbn [List.length]; lia.
  - intros H; injection H as <- <-; split; [apply graph_extends_refl | lia].
Qed.

Lemma convert_documents_run (annotator_id : str) (corpus_data : list document) :
  forall acc s acc' s',
    for_fold corpus_data acc (convert_document base_uri annotator_id) s
    = Ok (acc', s') ->
    graph_extends (graph s) (graph s') /\
    (triples_added acc + len (filter has_text corpus_data)
     <= triples_added acc')%nat.
Proof.
  induction corpus_data as [|doc rest IH]; intros acc s acc' s' Hrun.
  - injection Hrun as <- <-; split;
      [apply graph_extends_refl | unfold len; cbn [filter List.length]; lia].
  - cbn [for_fold] in Hrun; apply bind_inv in Hrun as (a & s1 & Hdoc & Hrest).
    destruct (convert_document_run _ _ _ _ _ _ Hdoc) as [Hext1 Hcount1].
    destruct (IH _ _ _ _ Hrest) as [Hext2 Hcount2]; split.
    + exact (graph_extends_trans _ _ _ Hext1 Hext2).
    + cbn [filter]; unfold len in *; destruct (has_text doc);
        cbn [List.length]; lia.
Qed.

(** X2.  The conversion of a corpus only adds to the graph of the
    generator: every triple that was in the graph is still there, a graph
    without duplicates stays without duplicates, and the graph handed
    back in the result is the graph of the generator. *)
Theorem convert_corpus_append_only (corpus_data : list document)
  (annotator_id : str) (s s' : state) (r : RDFConversionResult) :
  convert_limitgraph_corpus base_uri corpus_data annotator_id s = Ok (r, s') ->
  result_graph r = graph s' /\
  (forall t, In t (graph s) -> In t (result_graph r)) /\
  (NoDup (graph s) -> NoDup (result_graph r)).
Proof.
  unfold convert_limitgraph_corpus; intros Hrun.
  apply bind_inv in Hrun as (acc & [g n] & Hloop & Hrest).
  rewrite bind_generator_now in Hrest; injection Hrest as <- <-.
  destruct (convert_documents_run _ _ _ _ _ _ Hloop) as [Hext _].
  cbn [result_graph graph] in *; split; [reflexivity|]; split.
  - intros t; exact (graph_extends_In _ _ t Hext).
  - exact (graph_extends_NoDup _ _ Hext).
Qed.

(** X3.  The count of triples that the conversion reports is at least
    the number of documents that have a text, since each of them gives at
    least its contains_text fact, while the count of documents processed
    is the length of the corpus, skipped documents included. *)
Theorem convert_corpus_counts (corpus_data : list document)
  (annotator_id : str) (s s' : state) (r : RDFConversionResult) :
  convert_limitgraph_corpus base_uri corpus_data annotator_id s = Ok (r, s') ->
  (len (filter has_text corpus_data) <= triples_count r)%nat /\
  documents_processed r = len corpus_data /\
  annotators r = [annotator_id].
Proof.
  unfold convert_limitgraph_corpus; intros Hrun.
  apply bind_inv in Hrun as (acc & [g n] & Hloop & Hrest).
  rewrite bind_generator_now in Hrest; injection Hrest as <- <-.
  destruct (convert_documents_run _ _ _ _ _ _ Hloop) as [_ Hcount].
  cbn [triples_count documents_processed annotators triples_added] in *.
  repeat split; lia.
Qed.

End GeneratorInvariants.

Lemma convert_corpus_append_only_witness :
  let base_uri := py "http://limitgraph.org/" in
  let t0 := (URIRef (py "urn:a"), URIRef (py "urn:b"), URIRef (py "urn:c")) in
  let s0 := {| TripleGenerator.graph := [t0]; TripleGenerator.effects := 0 |} in
  let doc := {| TripleGenerator._id := Some (py "d2");
                TripleGenerator.text := Some (py "Bob owns") |} in
  exists r s',
    @TripleGenerator.convert_limitgraph_corpus ascii_builtins base_uri
      [doc] (py "corpus_processor") s0 = Ok (r, s') /\
    In t0 (TripleGenerator.result_graph r).
Proof.
  cbv zeta.
  destruct (@TripleGenerator.convert_limitgraph_corpus ascii_builtins
              (py "http://limitgraph.org/")
              [ {| TripleGenerator._id := Some (py "d2");
                   TripleGenerator.text := Some (py "Bob owns") |} ]
              (py "corpus_processor")
              {| TripleGenerator.graph :=
                   [(URIRef (py "urn:a"), URIRef (py "urn:b"),
                     URIRef (py "urn:c"))];
                 TripleGenerator.effects := 0 |})
    as [[r s']|e] eqn:E; [|vm_compute in E; discriminate E].
  exists r, s'; split; [reflexivity|].
  apply (proj1 (proj2 (@convert_corpus_append_only ascii_builtins _ _ _ _ _ _ E))).
  left; reflexivity.
Defined.

Lemma convert_corpus_counts_witness :
  let base_uri := py "http://limitgraph.org/" in
  let s0 := {| TripleGenerator.graph := []; TripleGenerator.effects := 0 |} in
  let corpus :=
    [ {| TripleGenerator._id := Some (py "d0"); TripleGenerator.text := Some [] |};
      {| TripleGenerator._id := Some (py "d2");
         TripleGenerator.text := Some (py "Bob owns") |} ] in
  exists r s',
    @TripleGenerator.convert_limitgraph_corpus ascii_builtins base_uri
      corpus (py "corpus_processor") s0 = Ok (r, s') /\
    (1 <= TripleGenerator.triples_count r)%nat /\
    TripleGenerator.documents_processed r = 2%nat.
Proof.
  cbv zeta.
  destruct (@TripleGenerator.convert_limitgraph_corpus ascii_builtins
              (py "http://limitgraph.org/")
              [ {| TripleGenerator._id := Some (py "d0");
                   TripleGenerator.text := Some [] |};
                {| TripleGenerator._id := Some (py "d2");
                   TripleGenerator.text := Some (py "Bob owns") |} ]
              (py "corpus_processor")
              {| TripleGenerator.graph := []; TripleGenerator.effects := 0 |})
    as [[r s']|e] eqn:E; [|vm_compute in E; discriminate E].
  exists r, s'; split; [reflexivity|].
  destruct (@convert_corpus_counts ascii_builtins _ _ _ _ _ _ E)
    as (Hcount & Hdocs & _).
  split; [exact Hcount | exact Hdocs].
Defined.

(** ** Feedback attached to a triple *)

Section TripleFeedback.
Context {rt : Builtins}.
Variable base_uri : str.
Import TripleGenerator.

Lemma for_each_feedback_extends (feedback_uri : term)
  (fb : list (str * feedback_value)) :
  forall g0 m,
  exists g',
    for_each fb
      (fun '(key, value) =>
         let prop_uri := LGRLHF base_uri (_clean_uri_component key) in
         match value with
         | FbInt k =>
             graph_add_m (feedback_uri, prop_uri,
                          Literal (str_of_Z k) None (XSD "integer"))
         | FbBool b =>
             graph_add_m (feedback_uri, prop_uri,
                          Literal (literal_bool (XSD "integer") b) None
                            (XSD "integer"))
         | FbFloat x =>
             graph_add_m (feedback_uri, prop_uri,
                          Literal (float_repr x) None (XSD "float"))
         | FbOther v =>
             graph_add_m (feedback_uri, prop_uri,
                          Literal v None (XSD "string"))
         end) {| graph := g0; effects := m |}
    = Ok (tt, {| graph := g'; effects := m |}) /\
    graph_extends g0 g' /\
    (forall key b,
       In (key, FbBool b) fb ->
       In (feedback_uri, LGRLHF base_uri (_clean_uri_component key),
           Literal (literal_bool (XSD "integer") b) None (XSD "integer")) g').
Proof.
  induction fb as [|[key value] fb IH]; intros g0 m.
  - exists g0; split; [reflexivity|]; split; [apply graph_extends_refl|].
    intros ? ? [].
  - cbn [for_each]; cbv zeta.
    destruct value as [k|b|x|v]; rewrite bind_graph_add_m;
      match goal with
      | |- context [graph_add g0 ?t] =>
          destruct (IH (graph_add g0 t) m) as (g' & Hrun & Hext & Hbool);
          exists g'; split; [exact Hrun|]; split;
          [eapply graph_extends_trans; [|exact Hext]; exists [t]; reflexivity|];
          intros key' b' [E|Hin]; [|exact (Hbool key' b' Hin)];
          try discriminate E;
          injection E as <- <-; apply (graph_extends_In _ _ _ Hext);
          apply graph_add_In; right; reflexivity
      end.
Qed.

(** X4.  [add_triple_to_graph] builds the object of the fact before it
    writes anything: when the object is not an entity and the language
    tag is neither empty nor well formed, the call raises [ValueError].
    Otherwise it treats an empty feedback dictionary as no feedback: it
    draws one identifier and writes the fact and its statement, nothing
    else.  With a feedback dictionary that is not empty it draws a second
    identifier for a feedback node, still returns the statement
    identifier, and the graph then links the statement to that node,
    which has the type RLHFFeedback; a boolean of the dictionary is
    written as a literal of datatype integer. *)
Theorem add_triple_to_graph_feedback (tr : LimitGraphTriple) (g : Graph)
  (n : nat) :
  (_is_entity (object tr) = false ->
   source_language tr <> [] ->
   _is_valid_langtag (source_language tr) = false ->
   add_triple_to_graph base_uri tr {| graph := g; effects := n |}
   = Raise (ValueError ([39] ++ source_language tr
                        ++ py "' is not a valid language tag!"))) /\
  (object_accepted tr ->
   rlhf_feedback tr = None \/ rlhf_feedback tr = Some [] ->
   add_triple_to_graph base_uri tr {| graph := g; effects := n |}
   = Ok (uuid4 n,
         {| graph := fold_left graph_add
                       (written_triples base_uri tr (uuid4 n)) g;
            effects := S n |})) /\
  (object_accepted tr ->
   forall item items,
     rlhf_feedback tr = Some (item :: items) ->
     exists s',
       add_triple_to_graph base_uri tr {| graph := g; effects := n |}
       = Ok (uuid4 n, s') /\
       effects s' = S (S n) /\
       (forall t, In t g -> In t (graph s')) /\
       (forall t, In t (written_triples base_uri tr (uuid4 n)) ->
                  In t (graph s')) /\
       In (LGRLHF base_uri (py "feedback_" ++ uuid4 (S n)), RDF_type,
           LGONT base_uri (py "RLHFFeedback")) (graph s') /\
       In (LGPROV base_uri (py "statement_" ++ uuid4 n),
           LGONT base_uri (py "hasRLHFFeedback"),
           LGRLHF base_uri (py "feedback_" ++ uuid4 (S n))) (graph s') /\
       (forall key b,
          In (key, FbBool b) (item :: items) ->
          In (LGRLHF base_uri (py "feedback_" ++ uuid4 (S n)),
              LGRLHF base_uri (_clean_uri_component key),
              Literal (literal_bool (XSD "integer") b) None (XSD "integer"))
             (graph s'))).
Proof.
  split; [|split].
  - intros Hentity Hlang Hvalid.
    assert (Hrefused : ~ object_accepted tr).
    { intros [H|[H|H]]; congruence. }
    unfold add_triple_to_graph; cbv zeta.
    unfold bind at 1.
    rewrite (object_term_refused base_uri tr _ Hrefused); reflexivity.
  - intros Hacc Hfb; unfold add_triple_to_graph, written_triples.
    cbv zeta.
    rewrite (bind_ok _ _ _ _ _ (object_term_built base_uri tr _ Hacc)).
    rewrite bind_graph_add_m, bind_generator_uuid4; cbv beta.
    erewrite bind_ok by apply add_provenance_triples_effect.
    destruct Hfb as [-> | ->]; reflexivity.
  - intros Hacc item items Hfb.
    unfold add_triple_to_graph; cbv zeta.
    rewrite (bind_ok _ _ _ _ _ (object_term_built base_uri tr _ Hacc)).
    rewrite bind_graph_add_m, bind_generator_uuid4; cbv beta.
    erewrite bind_ok by apply add_provenance_triples_effect.
    rewrite Hfb; unfold _add_rlhf_triples.
    set (g1 := fold_left graph_add _ (graph_add g _)).
    unfold bind at 1.
    rewrite bind_generator_uuid4; cbv beta zeta.
    rewrite !bind_graph_add_m.
    destruct (for_each_feedback_extends
                (LGRLHF base_uri (py "feedback_" ++ uuid4 (S n)))
                (item :: items)
                (graph_add
                   (graph_add g1
                      (LGRLHF base_uri (py "feedback_" ++ uuid4 (S n)),
                       RDF_type, LGONT base_uri (py "RLHFFeedback")))
                   (LGPROV base_uri (py "statement_" ++ uuid4 n),
                    LGONT base_uri (py "hasRLHFFeedback"),
                    LGRLHF base_uri (py "feedback_" ++ uuid4 (S n))))
                (S (S n))) as (g' & Hrun & Hext & Hbool).
    cbv zeta in Hrun; rewrite Hrun.
    eexists; split; [reflexivity|]; cbn [graph effects].
    split; [reflexivity|].
    assert (Hg1 : forall t, In t g1 -> In t g').
    { intros t Ht; apply (graph_extends_In _ _ t Hext).
      apply graph_add_In; left; apply graph_add_In; left; exact Ht. }
    split; [|split; [|split; [|split]]].
    + intros t Ht; apply Hg1; subst g1.
      apply graph_add_all_In; left; apply graph_add_In; left; exact Ht.
    + intros t Ht; apply Hg1; subst g1.
      unfold written_triples in Ht; cbv zeta in Ht.
      destruct Ht as [<-|Ht].
      * apply graph_add_all_In; left; apply graph_add_In; right; reflexivity.
      * apply graph_add_all_In; right; exact Ht.
    + apply (graph_extends_In _ _ _ Hext).
      apply graph_add_In; left; apply graph_add_In; right; reflexivity.
    + apply (graph_extends_In _ _ _ Hext).
      apply graph_add_In; right; reflexivity.
    + exact Hbool.
Qed.

End TripleFeedback.

Lemma add_triple_to_graph_feedback_witness :
  let tr := {| TripleGenerator.subject := py "Alice";
               TripleGenerator.predicate := py "likes";
               TripleGenerator.object := py "apples, mostly";
               TripleGenerator.confidence := 9 # 10;
               TripleGenerator.source_language := py "en";
               TripleGenerator.annotator_id := py "system";
               TripleGenerator.timestamp := py "2024-01-01T00:00:00";
               TripleGenerator.rlhf_feedback :=
                 Some [(py "helpful", TripleGenerator.FbBool true)];
               TripleGenerator.provenance := None |} in
  let bad := {| TripleGenerator.subject := py "Alice";
                TripleGenerator.predicate := py "likes";
                TripleGenerator.object := py "apples, mostly";
                TripleGenerator.confidence := 9 # 10;
                TripleGenerator.source_language := py "en US";
                TripleGenerator.annotator_id := py "system";
                TripleGenerator.timestamp := py "2024-01-01T00:00:00";
                TripleGenerator.rlhf_feedback := None;
                TripleGenerator.provenance := None |} in
  let s0 := {| TripleGenerator.graph := []; TripleGenerator.effects := 0 |} in
  @object_accepted ascii_builtins tr /\
  (exists s',
     @TripleGenerator.add_triple_to_graph ascii_builtins
       (py "http://limitgraph.org/") tr s0
     = Ok (@uuid4 ascii_builtins 0, s') /\
     TripleGenerator.effects s' = 2%nat) /\
  @TripleGenerator.add_triple_to_graph ascii_builtins
    (py "http://limitgraph.org/") bad s0
  = Raise (ValueError (py "'en US' is not a valid language tag!")).
Proof.
  cbv zeta.
  assert (Hacc : @object_accepted ascii_builtins
                   {| TripleGenerator.subject := py "Alice";
                      TripleGenerator.predicate := py "likes";
                      TripleGenerator.object := py "apples, mostly";
                      TripleGenerator.confidence := 9 # 10;
                      TripleGenerator.source_language := py "en";
                      TripleGenerator.annotator_id := py "system";
                      TripleGenerator.timestamp := py "2024-01-01T00:00:00";
                      TripleGenerator.rlhf_feedback :=
                        Some [(py "helpful", TripleGenerator.FbBool true)];
                      TripleGenerator.provenance := None |})
    by (right; right; reflexivity).
  split; [exact Hacc|]; split.
  - destruct (proj2 (proj2 (@add_triple_to_graph_feedback ascii_builtins
                              (py "http://limitgraph.org/") _ [] 0))
                Hacc _ _ eq_refl) as (s' & Hrun & Heffects & _).
    exists s'; split; [exact Hrun|exact Heffects].
  - apply (proj1 (@add_triple_to_graph_feedback ascii_builtins
                    (py "http://limitgraph.org/")
                    {| TripleGenerator.subject := py "Alice";
                       TripleGenerator.predicate := py "likes";
                       TripleGenerator.object := py "apples, mostly";
                       TripleGenerator.confidence := 9 # 10;
                       TripleGenerator.source_language := py "en US";
                       TripleGenerator.annotator_id := py "system";
                       TripleGenerator.timestamp := py "2024-01-01T00:00:00";
                       TripleGenerator.rlhf_feedback := None;
                       TripleGenerator.provenance := None |} [] 0));
      [reflexivity|discriminate|reflexivity].
Defined.

(** ** Export of the graph of the generator *)

Lemma dict_find_set {V : Type} (d : list (str * V)) (k k' : str) (v : V) :
  dict_find (dict_set d k v) k'
  = if str_eqb k k' then Some v else dict_find d k'.
Proof.
  induction d as [|[k0 v0] d IH]; [reflexivity|].
  cbn [dict_set]; destruct (str_eqb k0 k) eqn:E0.
  - apply str_eqb_eq in E0; subst k0; cbn [dict_find].
    destruct (str_eqb k k'); reflexivity.
  - cbn [dict_find]; rewrite IH.
    destruct (str_eqb k0 k') eqn:E1; [|reflexivity].
    destruct (str_eqb k k') eqn:E2; [|reflexivity].
    apply str_eqb_eq in E1, E2; subst.
    rewrite str_eqb_refl in E0; discriminate E0.
Qed.

Lemma str_eqb_neq (a b : str) : a <> b -> str_eqb a b = false.
Proof.
  intros Hne; destruct (str_eqb a b) eqn:E; [|reflexivity].
  apply str_eqb_eq in E; contradiction.
Qed.

Section GeneratorExport.
Context {rt : Builtins}.
Variable makedirs : str -> result unit.
Variable serialize : Graph -> str -> str -> result unit.
Import TripleGenerator.

Lemma export_formats_fold (g : Graph) (output_dir : str)
  (formats : list (str * str)) :
  NoDup (map fst formats) ->
  forall acc,
    (forall format_name extension,
       In (format_name, extension) formats ->
       let filepath :=
         path_join output_dir (py "limitgraph_triples." ++ extension) in
       match serialize g filepath format_name with
       | Ok _ =>
           dict_find (fold_left (export_format serialize g output_dir) formats acc)
             format_name = Some filepath
       | Raise _ =>
           dict_find (fold_left (export_format serialize g output_dir) formats acc)
             format_name = dict_find acc format_name
       end) /\
    (forall key,
       ~ In key (map fst formats) ->
       dict_find (fold_left (export_format serialize g output_dir) formats acc) key
       = dict_find acc key).
Proof.
  induction formats as [|[f ext] formats IH]; intros Hnodup acc.
  - split; [intros ? ? []|reflexivity].
  - cbn [map fst] in Hnodup; apply NoDup_cons_iff in Hnodup as [Hf Hnodup].
    cbn [fold_left].
    destruct (IH Hnodup (export_format serialize g output_dir acc (f, ext)))
      as [Hin Hout].
    split.
    + intros format_name extension [E|Hrest]; cbv zeta.
      * injection E as <- <-; rewrite (Hout f Hf).
        unfold export_format.
        destruct (serialize g (path_join output_dir
                                 (py "limitgraph_triples." ++ ext)) f);
          [|reflexivity].
        rewrite dict_find_set, str_eqb_refl; reflexivity.
      * pose proof (Hin format_name extension Hrest) as H; cbv zeta in H.
        destruct (serialize g (path_join output_dir
                                 (py "limitgraph_triples." ++ extension))
                    format_name); [exact H|].
        rewrite H; unfold export_format.
        destruct (serialize g (path_join output_dir
                                 (py "limitgraph_triples." ++ ext)) f);
          [|reflexivity].
        rewrite dict_find_set, str_eqb_neq; [reflexivity|].
        intros ->; apply Hf.
        apply (in_map fst _ (format_name, extension)); exact Hrest.
    + intros key Hkey; rewrite Hout by (intros Hk; apply Hkey; right; exact Hk).
      unfold export_format.
      destruct (serialize g (path_join output_dir
                               (py "limitgraph_triples." ++ ext)) f);
        [|reflexivity].
      rewrite dict_find_set, str_eqb_neq; [reflexivity|].
      intros ->; apply Hkey; left; reflexivity.
Qed.

Lemma export_formats_nodup : NoDup (map fst export_formats).
Proof.
  cbn [export_formats map fst].
  repeat (constructor; [cbn [In]; intros H;
                        repeat destruct H as [H|H]; try discriminate H; exact H|]).
  constructor.
Qed.

(** X5.  [export_to_formats] fails only when the output directory
    cannot be made.  Otherwise it tries the four formats one after the
    other: a format is in the dictionary handed back, with the path of
    its file, exactly when its serialization went through, whatever
    happened to the other formats; no other key is in the dictionary, and
    the generator is left as it was. *)
Theorem export_to_formats_collects (output_dir : str) (s : state) :
  (forall e, makedirs output_dir = Raise e ->
             export_to_formats makedirs serialize output_dir s = Raise e) /\
  (forall u, makedirs output_dir = Ok u ->
   exists exported_files,
     export_to_formats makedirs serialize output_dir s = Ok (exported_files, s) /\
     (forall format_name extension,
        In (format_name, extension) export_formats ->
        let filepath :=
          path_join output_dir (py "limitgraph_triples." ++ extension) in
        match serialize (graph s) filepath format_name with
        | Ok _ => dict_find exported_files format_name = Some filepath
        | Raise _ => dict_find exported_files format_name = None
        end) /\
     (forall key, dict_find exported_files key <> None ->
                  In key (map fst export_formats))).
Proof.
  split.
  - intros e He; unfold export_to_formats; rewrite He; reflexivity.
  - intros u Hu; unfold export_to_formats; rewrite Hu; cbn [rbind].
    eexists; split; [reflexivity|].
    destruct (export_formats_fold (graph s) output_dir export_formats
                export_formats_nodup []) as [Hin Hout].
    split; [exact Hin|].
    intros key Hkey; apply str_in_In.
    destruct (str_in key (map fst export_formats)) eqn:E; [reflexivity|].
    exfalso; apply Hkey; rewrite Hout; [reflexivity|].
    intros Hk; apply str_in_In in Hk; congruence.
Qed.

End GeneratorExport.

Lemma export_to_formats_collects_witness :
  let makedirs := fun _ : str => Ok tt in
  let serialize :=
    fun (_ : Graph) (_ : str) (format_name : str) =>
      if str_eqb format_name (py "xml")
      then Raise (ValueError (py "no plugin")) else Ok tt in
  let s0 := {| TripleGenerator.graph := []; TripleGenerator.effects := 0 |} in
  exists exported_files,
    @TripleGenerator.export_to_formats makedirs serialize (py "out") s0
    = Ok (exported_files, s0) /\
    dict_find exported_files (py "xml") = None /\
    dict_find exported_files (py "n3") = Some (py "out/limitgraph_triples.n3").
Proof.
  cbv zeta.
  destruct (@export_to_formats_collects
              (fun _ : str => Ok tt)
              (fun (_ : Graph) (_ : str) (format_name : str) =>
                 if str_eqb format_name (py "xml")
                 then Raise (ValueError (py "no plugin")) else Ok tt)
              (py "out")
              {| TripleGenerator.graph := []; TripleGenerator.effects := 0 |})
    as [_ Hok].
  destruct (Hok tt eq_refl) as (exported_files & Hrun & Hformats & _).
  exists exported_files; split; [exact Hrun|]; split.
  - exact (Hformats (py "xml") (py "rdf") (or_intror (or_introl eq_refl))).
  - exact (Hformats (py "n3") (py "n3")
             (or_intror (or_intror (or_introl eq_refl)))).
Defined.


(** ** The annotator registry, language metadata and provenance records *)

Lemma graph_add_present (g : Graph) (t : triple) :
  In t g -> graph_add g t = g.
Proof.
  intros Ht; unfold graph_add.
  apply graph_contains_In in Ht; rewrite Ht; reflexivity.
Qed.

Lemma graph_add_all_present (ts : list triple) :
  forall g, (forall t, In t ts -> In t g) -> fold_left graph_add ts g = g.
Proof.
  induction ts as [|t ts IH]; intros g Hts; cbn [fold_left]; [reflexivity|].
  rewrite graph_add_present by (apply Hts; left; reflexivity).
  apply IH; intros x Hx; apply Hts; right; exact Hx.
Qed.

Lemma graph_add_all_idempotent (ts : list triple) (g : Graph) :
  fold_left graph_add ts (fold_left graph_add ts g) = fold_left graph_add ts g.
Proof.
  apply graph_add_all_present; intros t Ht.
  apply graph_add_all_In; right; exact Ht.
Qed.

Lemma dict_set_idempotent {V : Type} (d : list (str * V)) (k : str) (v : V) :
  dict_set (dict_set d k v) k v = dict_set d k v.
Proof.
  induction d as [|[k0 v0] d IH]; cbn [dict_set].
  - rewrite str_eqb_refl; reflexivity.
  - destruct (str_eqb k0 k) eqn:E; cbn [dict_set]; rewrite E;
      [reflexivity | rewrite IH; reflexivity].
Qed.

Section StoreOperations.
Context {rt : Builtins}.
Variable base_uri : str.
Variable bool_lexical : option str -> bool -> str.
Import NamedGraphs.

Lemma bind_add_to_annotators {B} (t : triple) (k : unit -> prog state B)
  (m p a l r u : Graph) (n : nat) :
  bind (add_to annotators t) k
    {| dataset := {| g_main := m; g_provenance := p; g_annotators := a;
                     g_languages := l; g_rlhf := r; g_audit := u |};
       effects := n |}
  = k tt {| dataset := {| g_main := m; g_provenance := p;
                          g_annotators := graph_add a t;
                          g_languages := l; g_rlhf := r; g_audit := u |};
            effects := n |}.
Proof. reflexivity. Qed.

Lemma bind_add_to_languages {B} (t : triple) (k : unit -> prog state B)
  (m p a l r u : Graph) (n : nat) :
  bind (add_to languages t) k
    {| dataset := {| g_main := m; g_provenance := p; g_annotators := a;
                     g_languages := l; g_rlhf := r; g_audit := u |};
       effects := n |}
  = k tt {| dataset := {| g_main := m; g_provenance := p; g_annotators := a;
                          g_languages := graph_add l t;
                          g_rlhf := r; g_audit := u |};
            effects := n |}.
Proof. reflexivity. Qed.

Lemma bind_add_to_provenance {B} (t : triple) (k : unit -> prog state B)
  (m p a l r u : Graph) (n : nat) :
  bind (add_to provenance t) k
    {| dataset := {| g_main := m; g_provenance := p; g_annotators := a;
                     g_languages := l; g_rlhf := r; g_audit := u |};
       effects := n |}
  = k tt {| dataset := {| g_main := m; g_provenance := graph_add p t;
                          g_annotators := a; g_languages := l;
                          g_rlhf := r; g_audit := u |};
            effects := n |}.
Proof. reflexivity. Qed.

Lemma for_each_add_to_annotators {A} (f : A -> triple) (xs : list A) :
  forall m p a l r u n,
    for_each xs (fun x => add_to annotators (f x))
      {| dataset := {| g_main := m; g_provenance := p; g_annotators := a;
                       g_languages := l; g_rlhf := r; g_audit := u |};
         effects := n |}
    = Ok (tt, {| dataset :=
                   {| g_main := m; g_provenance := p;
                      g_annotators := fold_left graph_add (map f xs) a;
                      g_languages := l; g_rlhf := r; g_audit := u |};
                 effects := n |}).
Proof.
  induction xs as [|x xs IH]; intros m p a l r u n; [reflexivity|].
  cbn [for_each map fold_left]; rewrite bind_add_to_annotators; apply IH.
Qed.

Lemma register_annotator_effect (profile : AnnotatorProfile)
  (m p a l r u : Graph) (n : nat) (registry : list (str * AnnotatorProfile)) :
  register_annotator base_uri profile
    {| store := {| dataset := {| g_main := m; g_provenance := p;
                                 g_annotators := a; g_languages := l;
                                 g_rlhf := r; g_audit := u |};
                   effects := n |};
       annotator_registry := registry |}
  = Ok (profile_id profile,
        {| store := {| dataset :=
                         {| g_main := m; g_provenance := p;
                            g_annotators :=
                              fold_left graph_add
                                (annotator_triples base_uri profile) a;
                            g_languages := l; g_rlhf := r; g_audit := u |};
                       effects := n |};
           annotator_registry :=
             dict_set registry (profile_id profile) profile |}).
Proof.
  unfold register_annotator, annotator_triples; cbv zeta; cbn [store annotator_registry].
  rewrite !bind_add_to_annotators.
  erewrite bind_ok
    by (apply (for_each_add_to_annotators
                 (fun domain =>
                    (LGANG base_uri (profile_id profile),
                     LGONT base_uri (py "expertiseIn"),
                     Literal domain None None)))).
  rewrite (for_each_add_to_annotators
             (fun lang =>
                (LGANG base_uri (profile_id profile),
                 LGONT base_uri (py "speaksLanguage"), LGLANG base_uri lang))).
  cbn [rbind snd]; rewrite !fold_left_app; reflexivity.
Qed.

(** X6.  Registering an annotator always succeeds and returns the
    annotator's id.  Afterwards the registry holds the profile under that
    id, whatever it held before, and the other entries are as before; the
    annotators graph has lost nothing and holds the name of the profile;
    the other five graphs and the counter of effects are untouched; and
    registering the same profile again changes nothing. *)
Theorem register_annotator_registry (profile : AnnotatorProfile) (mgr : manager) :
  exists mgr',
    register_annotator base_uri profile mgr = Ok (profile_id profile, mgr') /\
    dict_find (annotator_registry mgr') (profile_id profile) = Some profile /\
    (forall k, k <> profile_id profile ->
               dict_find (annotator_registry mgr') k
               = dict_find (annotator_registry mgr) k) /\
    (forall t, In t (g_annotators (dataset (store mgr))) ->
               In t (g_annotators (dataset (store mgr')))) /\
    In (LGANG base_uri (profile_id profile), FOAF_name,
        Literal (profile_name profile) None None)
       (g_annotators (dataset (store mgr'))) /\
    (forall name, name <> annotators ->
                  dataset_graph (dataset (store mgr')) name
                  = dataset_graph (dataset (store mgr)) name) /\
    effects (store mgr') = effects (store mgr) /\
    register_annotator base_uri profile mgr' = Ok (profile_id profile, mgr').
Proof.
  destruct mgr as [[[m p a l r u] n] registry].
  eexists; split; [apply register_annotator_effect|].
  cbn [store dataset annotator_registry g_annotators effects].
  split; [rewrite dict_find_set, str_eqb_refl; reflexivity|].
  split.
  { intros k Hk; rewrite dict_find_set, str_eqb_neq; [reflexivity|].
    intros E; apply Hk; symmetry; exact E. }
  split; [intros t Ht; apply graph_add_all_In; left; exact Ht|].
  split.
  { apply graph_add_all_In; right; unfold annotator_triples; cbv zeta.
    apply in_or_app; left; right; left; reflexivity. }
  split; [intros name Hname; destruct name; try reflexivity; congruence|].
  split; [reflexivity|].
  rewrite register_annotator_effect.
  rewrite graph_add_all_idempotent, dict_set_idempotent; reflexivity.
Qed.

Lemma for_each_provenance_data (prov_uri : term)
  (provenance_data : list (str * pyvalue)) :
  forall m p a l r u n,
    for_each provenance_data (fun '(key, value) =>
      add_to provenance
        (prov_uri, LGPROV base_uri (_clean_uri_component key),
         provenance_literal bool_lexical value))
      {| dataset := {| g_main := m; g_provenance := p; g_annotators := a;
                       g_languages := l; g_rlhf := r; g_audit := u |};
         effects := n |}
    = Ok (tt, {| dataset :=
                   {| g_main := m;
                      g_provenance :=
                        fold_left graph_add
                          (map (fun '(key, value) =>
                                  (prov_uri,
                                   LGPROV base_uri (_clean_uri_component key),
                                   provenance_literal bool_lexical value))
                               provenance_data) p;
                      g_annotators := a;
                      g_languages := l; g_rlhf := r; g_audit := u |};
                 effects := n |}).
Proof.
  induction provenance_data as [|[key value] data IH]; intros m p a l r u n;
    [reflexivity|].
  cbn [for_each map fold_left]; rewrite bind_add_to_provenance; apply IH.
Qed.

Lemma add_provenance_trace_effect (statement_uri : term)
  (provenance_data : list (str * pyvalue)) (m p a l r u : Graph) (n : nat) :
  add_provenance_trace base_uri bool_lexical statement_uri provenance_data
    {| dataset := {| g_main := m; g_provenance := p; g_annotators := a;
                     g_languages := l; g_rlhf := r; g_audit := u |};
       effects := n |}
  = Ok (uuid4 n,
        {| dataset :=
             {| g_main := m;
                g_provenance :=
                  fold_left graph_add
                    (provenance_record_triples base_uri bool_lexical (uuid4 n)
                       (now_isoformat (S n)) statement_uri provenance_data) p;
                g_annotators := a; g_languages := l; g_rlhf := r;
                g_audit := u |};
           effects := S (S n) |}).
Proof.
  unfold add_provenance_trace, provenance_record_triples; cbv zeta.
  rewrite bind_uuid4_m; cbv beta.
  rewrite !bind_add_to_provenance.
  rewrite bind_now_m; cbv beta.
  rewrite bind_add_to_provenance.
  erewrite bind_ok by apply for_each_provenance_data.
  rewrite fold_left_app; reflexivity.
Qed.

(** X7.  [add_provenance_trace] always succeeds and returns the
    identifier it drew; it changes the provenance graph only, and adds
    to it without removing.  Because the test for numbers comes before
    the test for booleans, a boolean value is written as a literal of
    datatype integer, and no literal of datatype boolean is ever added. *)
Theorem add_provenance_trace_types (statement : str)
  (provenance_data : list (str * pyvalue)) (s : state) :
  exists s',
    add_provenance_trace base_uri bool_lexical (URIRef statement)
      provenance_data s
    = Ok (uuid4 (effects s), s') /\
    (forall name, name <> provenance ->
                  dataset_graph (dataset s') name
                  = dataset_graph (dataset s) name) /\
    (forall t, In t (g_provenance (dataset s)) ->
               In t (g_provenance (dataset s'))) /\
    (forall key b,
       In (key, PyBool b) provenance_data ->
       In (LGPROV base_uri (py "provenance_" ++ uuid4 (effects s)),
           LGPROV base_uri (_clean_uri_component key),
           Literal (bool_lexical (XSD "integer") b) None (XSD "integer"))
          (g_provenance (dataset s'))) /\
    (forall subj pred lexical lang,
       In (subj, pred, Literal lexical lang (XSD "boolean"))
          (g_provenance (dataset s')) ->
       In (subj, pred, Literal lexical lang (XSD "boolean"))
          (g_provenance (dataset s))).
Proof.
  destruct s as [[m p a l r u] n].
  eexists; split; [apply add_provenance_trace_effect|].
  cbn [dataset g_provenance effects].
  split; [intros name Hname; destruct name; try reflexivity; congruence|].
  split; [intros t Ht; apply graph_add_all_In; left; exact Ht|].
  split.
  - intros key b Hin; apply graph_add_all_In; right.
    unfold provenance_record_triples; cbv zeta.
    apply in_or_app; right.
    apply (in_map (fun kv : str * pyvalue =>
                     let '(key, value) := kv in
                     (LGPROV base_uri (py "provenance_" ++ uuid4 n),
                      LGPROV base_uri (_clean_uri_component key),
                      provenance_literal bool_lexical value))
                  _ (key, PyBool b) Hin).
  - intros subj pred lexical lang Hin.
    apply graph_add_all_In in Hin as [Hin|Hin]; [exact Hin|exfalso].
    assert (Hdt : forall lx lg dt,
               Literal lx lg dt = Literal lexical lang (XSD "boolean") ->
               dt = XSD "boolean")
      by (intros lx lg dt E; injection E as _ _ E; exact E).
    unfold provenance_record_triples in Hin; cbv zeta in Hin.
    apply in_app_or in Hin as [Hin|Hin].
    + cbn [In] in Hin.
      destruct Hin as [Hin|[Hin|[Hin|[]]]];
        apply (f_equal snd) in Hin; cbn [snd] in Hin.
      * discriminate Hin.
      * discriminate Hin.
      * apply Hdt in Hin; vm_compute in Hin; discriminate Hin.
    + apply in_map_iff in Hin as ([key value] & Heq & _).
      apply (f_equal snd) in Heq; cbn [snd] in Heq.
      destruct value; cbn [provenance_literal] in Heq;
        apply Hdt in Heq; vm_compute in Heq; discriminate Heq.
Qed.

Lemma graph_add_all_length (ts : list triple) :
  forall g, (len (fold_left graph_add ts g) <= len g + len ts)%nat.
Proof.
  unfold len; induction ts as [|t ts IH]; intros g; cbn [fold_left List.length];
    [lia|].
  etransitivity; [apply IH|].
  unfold graph_add; destruct (graph_contains g t);
    [|rewrite length_app; cbn [List.length]]; lia.
Qed.

Lemma ensure_language_metadata_effect (language_code : str)
  (m p a l r u : Graph) (n : nat) :
  _ensure_language_metadata base_uri bool_lexical language_code
    {| dataset := {| g_main := m; g_provenance := p; g_annotators := a;
                     g_languages := l; g_rlhf := r; g_audit := u |};
       effects := n |}
  = Ok (tt,
        {| dataset :=
             {| g_main := m; g_provenance := p; g_annotators := a;
                g_languages :=
                  if graph_contains l
                       (LGLANG base_uri language_code, RDF_type,
                        LGONT base_uri (py "Language"))
                  then l
                  else fold_left graph_add
                         (language_triples base_uri bool_lexical language_code) l;
                g_rlhf := r; g_audit := u |};
           effects := n |}).
Proof.
  unfold _ensure_language_metadata, language_triples; cbv zeta.
  cbn [dataset dataset_graph g_languages].
  destruct (graph_contains l _); [reflexivity|].
  rewrite !bind_add_to_languages.
  destruct (dict_find supported_languages language_code)
    as [[[lang_name rtl] script]|].
  - rewrite !bind_add_to_languages; reflexivity.
  - reflexivity.
Qed.

(** X8.  [_ensure_language_metadata] always succeeds, and afterwards
    the languages graph holds the language node.  It is an upsert: when
    the node is there already nothing changes, so a second call is
    without effect; otherwise the graph gains at most two triples for a
    code outside the table of supported languages and at most five for a
    code of the table.  Nothing is removed, and the other graphs and the
    counter of effects are untouched. *)
Theorem ensure_language_metadata_upsert (language_code : str) (s : state) :
  let node := (LGLANG base_uri language_code, RDF_type,
               LGONT base_uri (py "Language")) in
  exists s',
    _ensure_language_metadata base_uri bool_lexical language_code s
    = Ok (tt, s') /\
    In node (g_languages (dataset s')) /\
    (In node (g_languages (dataset s)) -> s' = s) /\
    _ensure_language_metadata base_uri bool_lexical language_code s'
    = Ok (tt, s') /\
    (forall t, In t (g_languages (dataset s)) ->
               In t (g_languages (dataset s'))) /\
    (len (g_languages (dataset s'))
     <= len (g_languages (dataset s))
        + match dict_find supported_languages language_code with
          | Some _ => 5
          | None => 2
          end)%nat /\
    (forall name, name <> languages ->
                  dataset_graph (dataset s') name
                  = dataset_graph (dataset s) name) /\
    effects s' = effects s.
Proof.
  cbv zeta; destruct s as [[m p a l r u] n].
  eexists; split; [apply ensure_language_metadata_effect|].
  cbn [dataset g_languages effects].
  destruct (graph_contains l
              (LGLANG base_uri language_code, RDF_type,
               LGONT base_uri (py "Language"))) eqn:Hc.
  - assert (Hin := Hc); apply graph_contains_In in Hin.
    split; [exact Hin|]; split; [reflexivity|]; split.
    { rewrite ensure_language_metadata_effect, Hc; reflexivity. }
    split; [auto|]; split.
    { destruct (dict_find supported_languages language_code); lia. }
    split; [intros name Hname; destruct name; try reflexivity; congruence|].
    reflexivity.
  - assert (Hnew : In (LGLANG base_uri language_code, RDF_type,
                       LGONT base_uri (py "Language"))
                      (fold_left graph_add
                         (language_triples base_uri bool_lexical language_code)
                         l)).
    { apply graph_add_all_In; right; left; reflexivity. }
    split; [exact Hnew|]; split.
    { intros Hin; apply graph_contains_In in Hin; congruence. }
    split.
    { rewrite ensure_language_metadata_effect.
      apply graph_contains_In in Hnew; rewrite Hnew; reflexivity. }
    split; [intros t Ht; apply graph_add_all_In; left; exact Ht|].
    split.
    { etransitivity; [apply graph_add_all_length|].
      apply Nat.add_le_mono_l.
      unfold language_triples; cbv zeta.
      destruct (dict_find supported_languages language_code)
        as [[[lang_name rtl] script]|]; apply le_n. }
    split; [intros name Hname; destruct name; try reflexivity; congruence|].
    reflexivity.
Qed.

End StoreOperations.

Lemma ensure_language_metadata_upsert_witness :
  let base_uri := py "http://limitgraph.org/" in
  let lexical := fun (_ : option str) (b : bool) =>
                   if b then py "true" else py "false" in
  let node := (NamedGraphs.LGLANG base_uri (py "ar"), RDF_type,
               NamedGraphs.LGONT base_uri (py "Language")) in
  let s := {| NamedGraphs.dataset :=
                {| NamedGraphs.g_main := []; NamedGraphs.g_provenance := [];
                   NamedGraphs.g_annotators := [];
                   NamedGraphs.g_languages := [node];
                   NamedGraphs.g_rlhf := []; NamedGraphs.g_audit := [] |};
              NamedGraphs.effects := 0 |} in
  In node (NamedGraphs.g_languages (NamedGraphs.dataset s)) /\
  NamedGraphs._ensure_language_metadata base_uri lexical (py "ar") s
  = Ok (tt, s).
Proof.
  cbv zeta; split; [left; reflexivity|].
  destruct (ensure_language_metadata_upsert
              (py "http://limitgraph.org/")
              (fun (_ : option str) (b : bool) =>
                 if b then py "true" else py "false")
              (py "ar")
              {| NamedGraphs.dataset :=
                   {| NamedGraphs.g_main := []; NamedGraphs.g_provenance := [];
                      NamedGraphs.g_annotators := [];
                      NamedGraphs.g_languages :=
                        [(NamedGraphs.LGLANG (py "http://limitgraph.org/")
                            (py "ar"), RDF_type,
                          NamedGraphs.LGONT (py "http://limitgraph.org/")
                            (py "Language"))];
                      NamedGraphs.g_rlhf := []; NamedGraphs.g_audit := [] |};
                 NamedGraphs.effects := 0 |})
    as (s' & Hrun & _ & Hsame & _).
  rewrite Hrun, (Hsame (or_introl eq_refl)); reflexivity.
Defined.


(** ** Export of the named graphs *)

Lemma fold_left_nested {A B C : Type} (F : B -> A -> C -> A) (cs : list C)
  (bs : list B) :
  forall acc,
    fold_left (fun acc b => fold_left (F b) cs acc) bs acc
    = fold_left (fun acc (j : B * C) => F (fst j) acc (snd j))
        (flat_map (fun b => map (pair b) cs) bs) acc.
Proof.
  induction bs as [|b bs IH]; intros acc; [reflexivity|].
  cbn [fold_left flat_map]; rewrite fold_left_app, IH; f_equal.
  generalize acc; clear.
  induction cs as [|c cs IH]; intros acc; [reflexivity|].
  cbn [fold_left map fst snd]; apply IH.
Qed.

Section ManagerExport.
Variable serialize : Graph -> str -> str -> result unit.
Variable d : NamedGraphs.Dataset.
Variable output_dir : str.
Import NamedGraphs.

Lemma export_named_graph_format_path (name : graph_name)
  (acc : list (str * list (str * str))) (f ext k' f' : str) :
  exported_path
    (export_named_graph_format serialize d output_dir name acc (f, ext)) k' f'
  = match serialize (dataset_graph d name)
            (path_join output_dir (graph_name_str name ++ py "_graph." ++ ext))
            f with
    | Ok _ =>
        if str_eqb (graph_name_str name) k' && str_eqb f f'
        then Some (path_join output_dir
                     (graph_name_str name ++ py "_graph." ++ ext))
        else exported_path acc k' f'
    | Raise _ => exported_path acc k' f'
    end.
Proof.
  unfold export_named_graph_format; cbv zeta.
  destruct (serialize _ _ f); [|reflexivity].
  unfold exported_path.
  destruct (str_eqb (graph_name_str name) k') eqn:Ek.
  - apply str_eqb_eq in Ek; subst k'.
    destruct (dict_find acc (graph_name_str name)) as [inner|] eqn:Ea;
      repeat rewrite ?Ea, ?dict_find_set, ?str_eqb_refl; cbn [andb];
      destruct (str_eqb f f'); reflexivity.
  - cbn [andb].
    destruct (dict_find acc (graph_name_str name)) as [inner|] eqn:Ea;
      repeat rewrite ?Ea, ?dict_find_set, ?str_eqb_refl, ?Ek; reflexivity.
Qed.

Lemma export_named_graph_format_key (name : graph_name)
  (acc : list (str * list (str * str))) (f ext k' : str) :
  dict_find
    (export_named_graph_format serialize d output_dir name acc (f, ext)) k'
  = None
  <-> dict_find acc k' = None /\
      (graph_name_str name = k' ->
       exists e,
         serialize (dataset_graph d name)
           (path_join output_dir (graph_name_str name ++ py "_graph." ++ ext))
           f = Raise e).
Proof.
  unfold export_named_graph_format; cbv zeta.
  destruct (serialize _ _ f) as [u|e].
  - destruct (str_eqb (graph_name_str name) k') eqn:Ek.
    + destruct (dict_find acc (graph_name_str name)) as [inner|] eqn:Ea;
        repeat rewrite ?Ea, ?dict_find_set, ?str_eqb_refl, ?Ek;
        apply str_eqb_eq in Ek;
        (split; [discriminate|intros [_ H]; destruct (H Ek) as [e He];
                              discriminate He]).
    + assert (Hne : graph_name_str name <> k')
        by (intros E; apply str_eqb_eq in E; congruence).
      destruct (dict_find acc (graph_name_str name)) as [inner|] eqn:Ea;
        repeat rewrite ?Ea, ?dict_find_set, ?str_eqb_refl, ?Ek;
        (split; [intros H; split; [exact H|intros E; contradiction]
                |intros [H _]; exact H]).
  - split; [intros H; split; [exact H|intros _; exists e; reflexivity]
           |intros [H _]; exact H].
Qed.

Lemma export_jobs_fold (jobs : list (graph_name * (str * str))) :
  NoDup (map (fun j => (graph_name_str (fst j), fst (snd j))) jobs) ->
  forall acc,
    let out :=
      fold_left (fun acc (j : graph_name * (str * str)) =>
                   export_named_graph_format serialize d output_dir
                     (fst j) acc (snd j)) jobs acc in
    (forall name f ext,
       In (name, (f, ext)) jobs ->
       let filepath :=
         path_join output_dir (graph_name_str name ++ py "_graph." ++ ext) in
       match serialize (dataset_graph d name) filepath f with
       | Ok _ => exported_path out (graph_name_str name) f = Some filepath
       | Raise _ =>
           exported_path out (graph_name_str name) f
           = exported_path acc (graph_name_str name) f
       end) /\
    (forall k',
       dict_find out k' = None
       <-> dict_find acc k' = None /\
           forall name f ext,
             In (name, (f, ext)) jobs -> graph_name_str name = k' ->
             exists e,
               serialize (dataset_graph d name)
                 (path_join output_dir
                    (graph_name_str name ++ py "_graph." ++ ext)) f
               = Raise e) /\
    (forall k' f',
       ~ In (k', f')
           (map (fun j => (graph_name_str (fst j), fst (snd j))) jobs) ->
       exported_path out k' f' = exported_path acc k' f').
Proof.
  induction jobs as [|[n0 [f0 e0]] jobs IH]; intros Hnodup acc.
  - cbv zeta; cbn [fold_left]; split; [intros ? ? ? []|]; split.
    + intros k'; split; [intros H; split; [exact H|intros ? ? ? []]|].
      intros [H _]; exact H.
    + reflexivity.
  - cbn [map fst snd] in Hnodup; apply NoDup_cons_iff in Hnodup as [Hj Hnodup].
    cbv zeta; cbn [fold_left fst snd].
    specialize (IH Hnodup
                  (export_named_graph_format serialize d output_dir n0 acc
                     (f0, e0))).
    cbv zeta in IH; destruct IH as (Hin & Hkey & Hout).
    assert (Hother : forall k f,
               (k, f) <> (graph_name_str n0, f0) ->
               exported_path
                 (export_named_graph_format serialize d output_dir n0 acc
                    (f0, e0)) k f
               = exported_path acc k f).
    { intros k f Hne; rewrite export_named_graph_format_path.
      destruct (serialize _ _ f0); [|reflexivity].
      destruct (str_eqb (graph_name_str n0) k) eqn:Ek; [|reflexivity].
      destruct (str_eqb f0 f) eqn:Ef; [|reflexivity].
      apply str_eqb_eq in Ek, Ef; subst; contradiction Hne; reflexivity. }
    split; [|split].
    + intros name f ext [E|Hrest].
      * injection E as <- <- <-.
        rewrite (Hout _ _ Hj), export_named_graph_format_path.
        destruct (serialize _ _ f0); [|reflexivity].
        rewrite !str_eqb_refl; reflexivity.
      * pose proof (Hin name f ext Hrest) as H.
        destruct (serialize (dataset_graph d name) _ f); [exact H|].
        rewrite H; apply Hother; intros E; apply Hj; rewrite <- E.
        apply (in_map (fun j => (graph_name_str (fst j), fst (snd j)))
                 _ (name, (f, ext))); exact Hrest.
    + intros k'; rewrite Hkey, export_named_graph_format_key; split.
      * intros [[Hacc H0] Hjobs]; split; [exact Hacc|].
        intros name f ext [E|Hrest] Hk.
        -- injection E as <- <- <-; exact (H0 Hk).
        -- exact (Hjobs name f ext Hrest Hk).
      * intros [Hacc Hjobs]; split; [split; [exact Hacc|]|].
        -- intros Hk; exact (Hjobs n0 f0 e0 (or_introl eq_refl) Hk).
        -- intros name f ext Hrest Hk;
             exact (Hjobs name f ext (or_intror Hrest) Hk).
    + intros k' f' Hnot; rewrite Hout.
      * apply Hother; intros E; apply Hnot; left; symmetry; exact E.
      * intros H; apply Hnot; right; exact H.
Qed.

Lemma export_jobs_nodup :
  NoDup (map (fun j : graph_name * (str * str) =>
                (graph_name_str (fst j), fst (snd j)))
           (flat_map (fun name => map (pair name) named_graph_formats)
              graph_names)).
Proof.
  cbn [graph_names named_graph_formats flat_map map app fst snd].
  repeat (constructor; [cbn [In]; intros H;
                        repeat destruct H as [H|H]; try discriminate H; exact H|]).
  constructor.
Qed.

End ManagerExport.

Section ManagerExportRun.
Variable makedirs : str -> result unit.
Variable serialize : Graph -> str -> str -> result unit.
Import NamedGraphs.

Lemma graph_names_all (name : graph_name) : In name graph_names.
Proof. destruct name; cbn [graph_names In]; tauto. Qed.

Lemma graph_name_str_inj (a b : graph_name) :
  graph_name_str a = graph_name_str b -> a = b.
Proof. destruct a, b; intros E; try reflexivity; discriminate E. Qed.

Lemma export_jobs_In (name : graph_name) (item : str * str) :
  In (name, item)
     (flat_map (fun name => map (pair name) named_graph_formats) graph_names)
  <-> In item named_graph_formats.
Proof.
  rewrite in_flat_map; split.
  - intros (n & _ & Hin); apply in_map_iff in Hin as (i & E & Hi).
    injection E as _ <-; exact Hi.
  - intros Hi; exists name; split; [apply graph_names_all|].
    apply in_map; exact Hi.
Qed.

(** X9.  [export_named_graphs] fails only when the output directory
    cannot be made.  Otherwise it tries the three formats for each of the
    six graphs: the nested dictionary handed back holds the path of a
    file under the graph's name and the format exactly when that
    serialization went through, whatever happened to the others; a graph
    has no entry at all exactly when its three serializations all failed;
    no other key is there, and the store is left as it was. *)
Theorem export_named_graphs_collects (output_dir : str) (s : state) :
  (forall e, makedirs output_dir = Raise e ->
             export_named_graphs makedirs serialize output_dir s = Raise e) /\
  (forall u, makedirs output_dir = Ok u ->
   exists exported_files,
     export_named_graphs makedirs serialize output_dir s
     = Ok (exported_files, s) /\
     (forall name format_name extension,
        In (format_name, extension) named_graph_formats ->
        let filepath :=
          path_join output_dir
            (graph_name_str name ++ py "_graph." ++ extension) in
        match serialize (dataset_graph (dataset s) name) filepath
                format_name with
        | Ok _ =>
            exported_path exported_files (graph_name_str name) format_name
            = Some filepath
        | Raise _ =>
            exported_path exported_files (graph_name_str name) format_name
            = None
        end) /\
     (forall name,
        dict_find exported_files (graph_name_str name) = None
        <-> forall format_name extension,
              In (format_name, extension) named_graph_formats ->
              exists e,
                serialize (dataset_graph (dataset s) name)
                  (path_join output_dir
                     (graph_name_str name ++ py "_graph." ++ extension))
                  format_name
                = Raise e) /\
     (forall key, dict_find exported_files key <> None ->
                  exists name, key = graph_name_str name)).
Proof.
  split.
  - intros e He; unfold export_named_graphs; rewrite He; reflexivity.
  - intros u Hu; unfold export_named_graphs; rewrite Hu; cbn [rbind].
    rewrite (fold_left_nested
               (export_named_graph_format serialize (dataset s) output_dir)).
    eexists; split; [reflexivity|].
    destruct (export_jobs_fold serialize (dataset s) output_dir _
                (export_jobs_nodup) []) as (Hin & Hkey & _).
    split; [|split].
    + intros name f ext Hitem.
      apply (Hin name f ext), export_jobs_In; exact Hitem.
    + intros name; rewrite Hkey; split.
      * intros [_ H] f ext Hitem.
        apply (H name f ext); [apply export_jobs_In; exact Hitem|reflexivity].
      * intros H; split; [reflexivity|].
        intros name' f ext Hjob E; apply graph_name_str_inj in E; subst name'.
        apply H, (export_jobs_In name); exact Hjob.
    + intros key Hfound.
      destruct (str_in key (map graph_name_str graph_names)) eqn:E.
      * apply str_in_In, in_map_iff in E as (name & <- & _).
        exists name; reflexivity.
      * exfalso; apply Hfound, Hkey; split; [reflexivity|].
        intros name f ext _ Hk.
        assert (Hin' : In key (map graph_name_str graph_names))
          by (rewrite <- Hk; apply in_map, graph_names_all).
        apply str_in_In in Hin'; congruence.
Qed.

End ManagerExportRun.

Lemma export_named_graphs_collects_witness :
  let makedirs := fun _ : str => Ok tt in
  let serialize :=
    fun (g : Graph) (_ : str) (format_name : str) =>
      match g with
      | [] => Raise (ValueError (py "nothing to write"))
      | _ => if str_eqb format_name (py "xml")
             then Raise (ValueError (py "no plugin")) else Ok tt
      end in
  let s0 :=
    {| NamedGraphs.dataset :=
         {| NamedGraphs.g_main :=
              [(URIRef (py "s"), URIRef (py "p"), URIRef (py "o"))];
            NamedGraphs.g_provenance := []; NamedGraphs.g_annotators := [];
            NamedGraphs.g_languages := []; NamedGraphs.g_rlhf := [];
            NamedGraphs.g_audit := [] |};
       NamedGraphs.effects := 0 |} in
  exists exported_files,
    NamedGraphs.export_named_graphs makedirs serialize (py "out") s0
    = Ok (exported_files, s0) /\
    exported_path exported_files (py "main") (py "turtle")
    = Some (py "out/main_graph.ttl") /\
    exported_path exported_files (py "main") (py "xml") = None /\
    dict_find exported_files (py "audit") = None.
Proof.
  cbv zeta.
  destruct (export_named_graphs_collects
              (fun _ : str => Ok tt)
              (fun (g : Graph) (_ : str) (format_name : str) =>
                 match g with
                 | [] => Raise (ValueError (py "nothing to write"))
                 | _ => if str_eqb format_name (py "xml")
                        then Raise (ValueError (py "no plugin")) else Ok tt
                 end)
              (py "out")
              {| NamedGraphs.dataset :=
                   {| NamedGraphs.g_main :=
                        [(URIRef (py "s"), URIRef (py "p"), URIRef (py "o"))];
                      NamedGraphs.g_provenance := [];
                      NamedGraphs.g_annotators := [];
                      NamedGraphs.g_languages := []; NamedGraphs.g_rlhf := [];
                      NamedGraphs.g_audit := [] |};
                 NamedGraphs.effects := 0 |})
    as [_ Hok].
  destruct (Hok tt eq_refl) as (exported_files & Hrun & Hpaths & Hkeys & _).
  exists exported_files; split; [exact Hrun|]; split; [|split].
  - exact (Hpaths NamedGraphs.main (py "turtle") (py "ttl")
             (or_introl eq_refl)).
  - exact (Hpaths NamedGraphs.main (py "xml") (py "rdf")
             (or_intror (or_introl eq_refl))).
  - apply (Hkeys NamedGraphs.audit).
    intros f ext _; eexists; reflexivity.
Defined.

(** ** The languages found by a query *)

Lemma set_add_NoDup (s : list str) (x : str) : NoDup s -> NoDup (set_add s x).
Proof.
  intros Hs; unfold set_add; destruct (str_in x s) eqn:E; [exact Hs|].
  apply NoDup_app; [exact Hs|repeat constructor; intros []|].
  intros y Hy [<-|[]]; apply str_in_In in Hy; congruence.
Qed.

Section QueryLanguages.
Context {rt : Builtins}.
Variable dataset_query : str -> result SparqlInterface.answer.
Import SparqlInterface.

Lemma process_bindings_languages (r : row) :
  forall d langs,
    let out :=
      snd (fold_left
             (fun (st : list (str * str) * list str)
                  (binding : str * option term) =>
                let '(result_dict, languages_found) := st in
                let '(var, value) := binding in
                match value with
                | Some (Literal _ (Some ((_ :: _) as language)) _) =>
                    (dict_set result_dict var (term_str value),
                     set_add languages_found language)
                | _ => (dict_set result_dict var (term_str value),
                        languages_found)
                end) r (d, langs)) in
    (NoDup langs -> NoDup out) /\
    (forall x,
       In x out
       <-> In x langs \/
           (x <> [] /\
            exists var lexical datatype,
              In (var, Some (Literal lexical (Some x) datatype)) r)).
Proof.
  induction r as [|[var value] r IH]; intros d langs; cbv zeta.
  - cbn [fold_left snd]; split; [auto|].
    intros x; split; [auto|intros [H|(_ & ? & ? & ? & [])]; exact H].
  - cbn [fold_left].
    destruct value as [[u|lexical [[|c language]|] datatype]|];
      match goal with
      | |- context [fold_left _ r (?d', ?l')] =>
          destruct (IH d' l') as [Hnodup Hin]
      end; cbv zeta in Hnodup, Hin.
    + split; [exact Hnodup|]; intros x; rewrite Hin; split.
      * intros [H|(Hx & v & lx & dt & H)]; [left; exact H|].
        right; split; [exact Hx|]; exists v, lx, dt; right; exact H.
      * intros [H|(Hx & v & lx & dt & [E|H])];
          [left; exact H|discriminate E|].
        right; split; [exact Hx|]; exists v, lx, dt; exact H.
    + split; [exact Hnodup|]; intros x; rewrite Hin; split.
      * intros [H|(Hx & v & lx & dt & H)]; [left; exact H|].
        right; split; [exact Hx|]; exists v, lx, dt; right; exact H.
      * intros [H|(Hx & v & lx & dt & [E|H])]; [left; exact H| |].
        -- injection E as _ _ <- _; contradiction Hx; reflexivity.
        -- right; split; [exact Hx|]; exists v, lx, dt; exact H.
    + split; [intros H; apply Hnodup, set_add_NoDup; exact H|].
      intros x; rewrite Hin, set_add_In; split.
      * intros [[H| ->]|(Hx & v & lx & dt & H)].
        -- left; exact H.
        -- right; split; [discriminate|].
           exists var, lexical, datatype; left; reflexivity.
        -- right; split; [exact Hx|]; exists v, lx, dt; right; exact H.
      * intros [H|(Hx & v & lx & dt & [E|H])].
        -- left; left; exact H.
        -- injection E as _ _ <- _; left; right; reflexivity.
        -- right; split; [exact Hx|]; exists v, lx, dt; exact H.
    + split; [exact Hnodup|]; intros x; rewrite Hin; split.
      * intros [H|(Hx & v & lx & dt & H)]; [left; exact H|].
        right; split; [exact Hx|]; exists v, lx, dt; right; exact H.
      * intros [H|(Hx & v & lx & dt & [E|H])];
          [left; exact H|discriminate E|].
        right; split; [exact Hx|]; exists v, lx, dt; exact H.
    + split; [exact Hnodup|]; intros x; rewrite Hin; split.
      * intros [H|(Hx & v & lx & dt & H)]; [left; exact H|].
        right; split; [exact Hx|]; exists v, lx, dt; right; exact H.
      * intros [H|(Hx & v & lx & dt & [E|H])];
          [left; exact H|discriminate E|].
        right; split; [exact Hx|]; exists v, lx, dt; exact H.
Qed.

Lemma process_rows_languages (rows : list row) :
  forall processed langs,
    let out := snd (fold_left process_row rows (processed, langs)) in
    (NoDup langs -> NoDup out) /\
    (forall x,
       In x out
       <-> In x langs \/
           (x <> [] /\
            exists r var lexical datatype,
              In r rows /\
              In (var, Some (Literal lexical (Some x) datatype)) r)).
Proof.
  induction rows as [|r rows IH]; intros processed langs; cbv zeta.
  - cbn [fold_left snd]; split; [auto|].
    intros x; split; [auto|intros [H|(_ & ? & ? & ? & ? & [] & _)]; exact H].
  - cbn [fold_left].
    destruct (process_bindings_languages r [] langs) as [Hnodup Hin].
    cbv zeta in Hnodup, Hin.
    match goal with
    | H : NoDup langs -> NoDup (snd ?f) |- _ =>
        destruct f as [result_dict langs'] eqn:Ef
    end.
    cbn [snd] in Hnodup, Hin.
    assert (E : process_row (processed, langs) r
                = (processed ++ [result_dict], langs'))
      by (unfold process_row; rewrite Ef; reflexivity).
    rewrite E; clear E.
    destruct (IH (processed ++ [result_dict]) langs') as [Hnodup' Hin'].
    cbv zeta in Hnodup', Hin'.
    split; [intros H; apply Hnodup', Hnodup; exact H|].
    intros x; rewrite Hin', Hin; split.
    + intros [[H|(Hx & v & lx & dt & H)]|(Hx & r' & v & lx & dt & Hr & H)].
      * left; exact H.
      * right; split; [exact Hx|]; exists r, v, lx, dt.
        split; [left; reflexivity|exact H].
      * right; split; [exact Hx|]; exists r', v, lx, dt.
        split; [right; exact Hr|exact H].
    + intros [H|(Hx & r' & v & lx & dt & [<-|Hr] & H)].
      * left; left; exact H.
      * left; right; split; [exact Hx|]; exists v, lx, dt; exact H.
      * right; split; [exact Hx|]; exists r', v, lx, dt.
        split; [exact Hr|exact H].
Qed.

(** X10.  When the engine answers, the languages reported by
    [execute_query] are exactly the language tags that are not empty of
    the literals bound in the rows, each reported once. *)
Theorem execute_query_languages_found (query : str) (start_time end_time : Q)
  (rows : list row) :
  dataset_query query = Ok (SelectRows rows) ->
  let r := execute_query dataset_query query start_time end_time in
  NoDup (languages_found r) /\
  (forall language,
     In language (languages_found r)
     <-> language <> [] /\
         exists bindings var lexical datatype,
           In bindings rows /\
           In (var, Some (Literal lexical (Some language) datatype)) bindings).
Proof.
  intros Hrows; cbv zeta; unfold execute_query.
  rewrite (execute_query_rows _ _ _ _ _ Hrows); cbn [languages_found].
  destruct (process_rows_languages rows [] []) as [Hnodup Hin].
  cbv zeta in Hnodup, Hin.
  split; [apply Hnodup; constructor|].
  intros language; rewrite Hin; split; [intros [[]|H]; exact H|auto].
Qed.

End QueryLanguages.

Lemma execute_query_languages_found_witness :
  let rows : list SparqlInterface.row :=
    [ [ (py "label", Some (Literal (py "manzana") (Some (py "es")) None));
        (py "entity", Some (URIRef (py "http://limitgraph.org/data/apple"))) ];
      [ (py "label", Some (Literal (py "apple") (Some []) None)) ];
      [ (py "label", Some (Literal (py "pera") (Some (py "es")) None)) ] ] in
  let engine := fun _ : str => Ok (SparqlInterface.SelectRows rows) in
  engine (py "SELECT ?entity ?label") = Ok (SparqlInterface.SelectRows rows) /\
  SparqlInterface.languages_found
    (@SparqlInterface.execute_query ascii_builtins engine
       (py "SELECT ?entity ?label") 0 1)
  = [py "es"] /\
  NoDup (SparqlInterface.languages_found
           (@SparqlInterface.execute_query ascii_builtins engine
              (py "SELECT ?entity ?label") 0 1)).
Proof.
  cbv zeta; split; [reflexivity|]; split; [reflexivity|].
  apply (@execute_query_languages_found ascii_builtins
           (fun _ : str =>
              Ok (SparqlInterface.SelectRows
                    [ [ (py "label",
                         Some (Literal (py "manzana") (Some (py "es")) None));
                        (py "entity",
                         Some (URIRef
                                 (py "http://limitgraph.org/data/apple"))) ];
                      [ (py "label",
                         Some (Literal (py "apple") (Some []) None)) ];
                      [ (py "label",
                         Some (Literal (py "pera") (Some (py "es")) None)) ] ]))
           (py "SELECT ?entity ?label") 0 1 _ eq_refl).
Defined.

(** ** The query builders *)

Section QueryBuilders.
Context {rt : Builtins}.
Variable base_uri : str.
Import SparqlInterface.

Lemma format_entities_by_type_template
  (lgont lgdata rdfs entity_type language_filter : str) :
  exists query,
    format entities_by_type_template
      [ (py "lgont", lgont); (py "lgdata", lgdata); (py "rdfs", rdfs);
        (py "entity_type", entity_type);
        (py "language_filter", language_filter) ]
    = Ok query.
Proof. eexists; reflexivity. Qed.

Lemma format_relationships_template
  (lgont lgdata rdfs subject_filter predicate_filter language_filter : str) :
  exists query,
    format relationships_template
      [ (py "lgont", lgont); (py "lgdata", lgdata); (py "rdfs", rdfs);
        (py "subject_filter", subject_filter);
        (py "predicate_filter", predicate_filter);
        (py "language_filter", language_filter) ]
    = Ok query.
Proof. eexists; reflexivity. Qed.

Lemma format_rlhf_analysis_template
  (lgont lgrlhf dcterms feedback_type_filter quality_filter : str) :
  exists query,
    format rlhf_analysis_template
      [ (py "lgont", lgont); (py "lgrlhf", lgrlhf); (py "dcterms", dcterms);
        (py "feedback_type_filter", feedback_type_filter);
        (py "quality_filter", quality_filter) ]
    = Ok query.
Proof. eexists; reflexivity. Qed.

Lemma format_cross_cultural_template
  (lgont lglang skos rdfs concept_term language_filter : str) :
  exists query,
    format cross_cultural_template
      [ (py "lgont", lgont); (py "lglang", lglang); (py "skos", skos);
        (py "rdfs", rdfs); (py "concept_term", concept_term);
        (py "language_filter", language_filter) ]
    = Ok query.
Proof. eexists; reflexivity. Qed.

(** X11.  The four query builders produce a query for all arguments:
    every replacement field of their templates is supplied and the text
    of the caller is not scanned for fields, so the formatting never
    raises.  The query ends with a line break and the limit, and the part
    before does not depend on the limit. *)
Theorem query_builders_never_raise :
  (forall entity_type language,
   exists body, forall limit,
     find_entities_by_type_query base_uri entity_type language limit
     = Ok (body ++ nl ++ py "LIMIT " ++ str_of_Z limit)) /\
  (forall subject predicate language,
   exists body, forall limit,
     find_relationships_query base_uri subject predicate language limit
     = Ok (body ++ nl ++ py "LIMIT " ++ str_of_Z limit)) /\
  (forall feedback_type min_quality,
   exists body, forall limit,
     analyze_rlhf_feedback_query base_uri feedback_type min_quality limit
     = Ok (body ++ nl ++ py "LIMIT " ++ str_of_Z limit)) /\
  (forall concept_term languages,
   exists body, forall limit,
     cross_cultural_analysis_query base_uri concept_term languages limit
     = Ok (body ++ nl ++ py "LIMIT " ++ str_of_Z limit)).
Proof.
  split; [|split; [|split]].
  - intros entity_type language; unfold find_entities_by_type_query; cbv zeta.
    match goal with
    | |- context [format _ [(_, ?a); (_, ?b); (_, ?c); (_, ?d); (_, ?e)]] =>
        destruct (format_entities_by_type_template a b c d e) as [q Hq]
    end.
    exists q; intros limit.
    match goal with
    | |- context [format ?t ?kw] =>
        assert (Hq' : format t kw = Ok q) by exact Hq; rewrite Hq'
    end.
    reflexivity.
  - intros subject predicate language; unfold find_relationships_query;
      cbv zeta.
    match goal with
    | |- context [format _ [(_, ?a); (_, ?b); (_, ?c); (_, ?d); (_, ?e);
                            (_, ?f)]] =>
        destruct (format_relationships_template a b c d e f) as [q Hq]
    end.
    exists q; intros limit.
    match goal with
    | |- context [format ?t ?kw] =>
        assert (Hq' : format t kw = Ok q) by exact Hq; rewrite Hq'
    end.
    reflexivity.
  - intros feedback_type min_quality; unfold analyze_rlhf_feedback_query;
      cbv zeta.
    match goal with
    | |- context [format _ [(_, ?a); (_, ?b); (_, ?c); (_, ?d); (_, ?e)]] =>
        destruct (format_rlhf_analysis_template a b c d e) as [q Hq]
    end.
    exists q; intros limit.
    match goal with
    | |- context [format ?t ?kw] =>
        assert (Hq' : format t kw = Ok q) by exact Hq; rewrite Hq'
    end.
    reflexivity.
  - intros concept_term languages; unfold cross_cultural_analysis_query;
      cbv zeta.
    match goal with
    | |- context [format _ [(_, ?a); (_, ?b); (_, ?c); (_, ?d); (_, ?e);
                            (_, ?f)]] =>
        destruct (format_cross_cultural_template a b c d e f) as [q Hq]
    end.
    exists q; intros limit.
    match goal with
    | |- context [format ?t ?kw] =>
        assert (Hq' : format t kw = Ok q) by exact Hq; rewrite Hq'
    end.
    reflexivity.
Qed.

(** X12.  The filters of the query builders are left out for the
    values that mean no choice: a missing or empty language, subject,
    predicate or kind of feedback, the language all, a list of languages
    that is empty or holds all, and a least quality that is not above
    zero.  The query is then the one built with no argument given. *)
Theorem query_filters_switched_off (limit : Z) :
  (forall entity_type language,
     language = Some [] \/ language = Some (py "all") ->
     find_entities_by_type_query base_uri entity_type language limit
     = find_entities_by_type_query base_uri entity_type None limit) /\
  (forall subject predicate language,
     subject = None \/ subject = Some [] ->
     predicate = None \/ predicate = Some [] ->
     language = None \/ language = Some [] \/ language = Some (py "all") ->
     find_relationships_query base_uri subject predicate language limit
     = find_relationships_query base_uri None None None limit) /\
  (forall feedback_type min_quality,
     feedback_type = None \/ feedback_type = Some [] ->
     (min_quality <= 0)%Q ->
     analyze_rlhf_feedback_query base_uri feedback_type min_quality limit
     = analyze_rlhf_feedback_query base_uri None 0 limit) /\
  (forall concept_term languages,
     languages = [] \/ In (py "all") languages ->
     cross_cultural_analysis_query base_uri concept_term (Some languages) limit
     = cross_cultural_analysis_query base_uri concept_term None limit).
Proof.
  assert (Hall : negb (str_eqb (py "all") (py "all")) = false) by reflexivity.
  split; [|split; [|split]].
  - intros entity_type language Hlanguage.
    unfold find_entities_by_type_query; cbv zeta.
    destruct Hlanguage as [-> | ->]; cbv beta iota; rewrite ?Hall;
      reflexivity.
  - intros subject predicate language Hsubject Hpredicate Hlanguage.
    unfold find_relationships_query; cbv zeta.
    destruct Hsubject as [-> | ->], Hpredicate as [-> | ->],
             Hlanguage as [-> |[-> | ->]];
      cbv beta iota; rewrite ?Hall; reflexivity.
  - intros feedback_type min_quality Hkind Hq.
    unfold analyze_rlhf_feedback_query; cbv zeta.
    apply Qgtb_le in Hq; rewrite Hq.
    assert (Hzero : Qgtb 0 0 = false) by reflexivity; rewrite Hzero.
    destruct Hkind as [-> | ->]; reflexivity.
  - intros concept_term languages [-> |Hin]; [reflexivity|].
    unfold cross_cultural_analysis_query; cbv zeta.
    apply str_in_In in Hin; rewrite Hin.
    destruct languages; reflexivity.
Qed.

End QueryBuilders.

Lemma query_filters_switched_off_witness :
  @SparqlInterface.analyze_rlhf_feedback_query ascii_builtins
    (py "http://limitgraph.org/") (Some []) (-1 # 2) 100
  = @SparqlInterface.analyze_rlhf_feedback_query ascii_builtins
      (py "http://limitgraph.org/") None 0 100 /\
  SparqlInterface.cross_cultural_analysis_query (py "http://limitgraph.org/")
    (py "apple") (Some [py "es"; py "all"]) 50
  = SparqlInterface.cross_cultural_analysis_query (py "http://limitgraph.org/")
      (py "apple") None 50.
Proof.
  destruct (@query_filters_switched_off ascii_builtins
              (py "http://limitgraph.org/") 100) as (_ & _ & Hrlhf & _).
  destruct (@query_filters_switched_off ascii_builtins
              (py "http://limitgraph.org/") 50) as (_ & _ & _ & Hcross).
  split.
  - apply Hrlhf; [right; reflexivity|discriminate].
  - apply Hcross; right; right; left; reflexivity.
Defined.


(** ** Listings read from a query result *)

Lemma split_on_go_nonempty (sep : char) (s : str) :
  forall cur, split_on_go sep cur s <> [].
Proof.
  induction s as [|c s IH]; intros cur; cbn [split_on_go]; [discriminate|].
  destruct (c =? sep)%N; [discriminate|apply IH].
Qed.

Lemma existsb_rev_false {A : Type} (f : A -> bool) (l : list A) :
  existsb f l = false -> existsb f (rev l) = false.
Proof.
  intros H; destruct (existsb f (rev l)) eqn:E; [|reflexivity].
  apply existsb_exists in E as (x & Hx & Hf).
  apply in_rev in Hx.
  assert (existsb f l = true) by (apply existsb_exists; exists x; auto).
  congruence.
Qed.

Lemma split_on_go_last (sep : char) (s : str) :
  forall cur,
    existsb (N.eqb sep) cur = false ->
    exists pre,
      rev cur ++ s = pre ++ last (split_on_go sep cur s) [] /\
      existsb (N.eqb sep) (last (split_on_go sep cur s) []) = false /\
      (pre = [] \/ exists pre', pre = pre' ++ [sep]).
Proof.
  induction s as [|c s IH]; intros cur Hcur; cbn [split_on_go].
  - exists []; cbn [last app]; rewrite app_nil_r.
    split; [reflexivity|]; split; [apply existsb_rev_false; exact Hcur|].
    left; reflexivity.
  - destruct (c =? sep)%N eqn:Ec; cbv beta iota.
    + apply N.eqb_eq in Ec; subst c.
      destruct (IH [] eq_refl) as (pre & Hpre & Hno & Hend).
      cbn [rev app] in Hpre.
      pose proof (split_on_go_nonempty sep s []) as Hne.
      match goal with
      | |- context [@last ?A (@cons ?B ?x ?l) ?d] =>
          assert (Hlast : @last A (@cons B x l) d = @last A l d)
            by (destruct l; [contradiction|reflexivity]);
            rewrite Hlast
      end.
      exists (rev cur ++ [sep] ++ pre); split; [|split; [exact Hno|]].
      * rewrite <- !app_assoc; cbn [app]; do 2 f_equal; exact Hpre.
      * right; destruct Hend as [-> |[pre' ->]].
        -- exists (rev cur); rewrite app_nil_r; reflexivity.
        -- exists (rev cur ++ [sep] ++ pre'); rewrite <- !app_assoc;
             reflexivity.
    + assert (Hcur' : existsb (N.eqb sep) (c :: cur) = false).
      { cbn [existsb]; rewrite N.eqb_sym, Ec; exact Hcur. }
      destruct (IH (c :: cur) Hcur') as (pre & Hpre & Hno & Hend).
      exists pre; split; [|split; [exact Hno|exact Hend]].
      cbn [rev] in Hpre; rewrite <- app_assoc in Hpre; exact Hpre.
Qed.

Section Listings.
Context {rt : Builtins}.
Variable base_uri : str.
Variable dataset_query : str -> result SparqlInterface.answer.
Variable int_of_str : str -> result Z.
Import SparqlInterface.

Lemma execute_query_results_ok (query : str) (start_time end_time : Q)
  (rows : list row) :
  dataset_query query = Ok (SelectRows rows) ->
  results (execute_query dataset_query query start_time end_time)
  = map row_dict rows.
Proof.
  intros Hrows; unfold execute_query.
  rewrite (execute_query_rows _ _ _ _ _ Hrows); reflexivity.
Qed.

Lemma execute_query_results_raise (query : str) (start_time end_time : Q)
  (e : exn) :
  dataset_query query = Raise e ->
  results (execute_query dataset_query query start_time end_time)
  = [[(py "error", exn_str e)]].
Proof.
  intros Hrows; unfold execute_query, execute_query_try.
  rewrite Hrows; reflexivity.
Qed.

Lemma language_rows_raise (rs : list (list (str * str))) (e : exn) :
  fold_left (language_of_row int_of_str) rs (Raise e) = Raise e.
Proof. induction rs as [|r rs IH]; [reflexivity|exact IH]. Qed.

Lemma language_rows_ok (rs : list (list (str * str))) :
  Forall (fun r => exists z, row_count int_of_str r = Ok z) rs ->
  forall acc,
  exists entries,
    fold_left (language_of_row int_of_str) rs (Ok acc) = Ok (acc ++ entries) /\
    Forall2 (language_listed int_of_str) rs entries.
Proof.
  induction 1 as [|r rs [z Hz] _ IH]; intros acc.
  - exists []; rewrite app_nil_r; split; [reflexivity|constructor].
  - cbn [fold_left]; unfold language_of_row at 2; cbn [rbind]; rewrite Hz.
    cbn [rbind].
    match goal with
    | |- context [Ok (acc ++ [?entry])] =>
        destruct (IH (acc ++ [entry])) as (entries & Hrun & Hall);
          exists (entry :: entries)
    end.
    split; [rewrite Hrun, <- app_assoc; reflexivity|].
    constructor; [|exact Hall].
    unfold language_listed; cbn [le_code le_name le_annotation_count].
    split; [reflexivity|]; split; [|exact Hz].
    unfold row_get; destruct (dict_find r (py "languageName")); reflexivity.
Qed.

(** X13.  [get_available_languages] reads its entries off the rows of
    the answer, one entry per row and in their order, when every count
    that is bound reads as a number; a count that does not makes it
    raise what [int] raises.  When the engine fails the call does not
    fail: the row that carries the message is read as a language, and the
    listing holds one entry with an empty code, an empty name and the
    count zero. *)
Theorem get_available_languages_listing (start_time end_time : Q) :
  let listing :=
    get_available_languages base_uri dataset_query int_of_str
      start_time end_time in
  (forall e,
     dataset_query (available_languages_query base_uri) = Raise e ->
     listing = Ok [ {| le_code := []; le_name := [];
                       le_annotation_count := 0 |} ]) /\
  (forall rows,
     dataset_query (available_languages_query base_uri)
     = Ok (SelectRows rows) ->
     Forall (fun r => exists z, row_count int_of_str (row_dict r) = Ok z)
            rows ->
     exists entries,
       listing = Ok entries /\
       Forall2 (fun r entry => language_listed int_of_str (row_dict r) entry)
               rows entries) /\
  (forall before r after e,
     dataset_query (available_languages_query base_uri)
     = Ok (SelectRows (before ++ r :: after)) ->
     Forall (fun r => exists z, row_count int_of_str (row_dict r) = Ok z)
            before ->
     row_count int_of_str (row_dict r) = Raise e ->
     listing = Raise e).
Proof.
  cbv zeta; unfold get_available_languages; cbv zeta; split; [|split].
  - intros e He; rewrite (execute_query_results_raise _ _ _ e He).
    reflexivity.
  - intros rows Hrows Hcounts; rewrite (execute_query_results_ok _ _ _ _ Hrows).
    destruct (language_rows_ok (map row_dict rows)) with (acc := @nil language_entry)
      as (entries & Hrun & Hall).
    { apply Forall_map; exact Hcounts. }
    exists entries; split; [exact Hrun|].
    clear Hrun Hrows Hcounts; revert entries Hall.
    induction rows as [|r rows IH]; intros entries Hall;
      inversion Hall; subst; constructor; auto.
  - intros before r after e Hrows Hcounts He.
    rewrite (execute_query_results_ok _ _ _ _ Hrows).
    rewrite map_app, fold_left_app; cbn [map fold_left].
    destruct (language_rows_ok (map row_dict before)) with (acc := @nil language_entry)
      as (entries & Hrun & _).
    { apply Forall_map; exact Hcounts. }
    rewrite Hrun; unfold language_of_row at 2; cbn [rbind]; rewrite He.
    apply language_rows_raise.
Qed.

Lemma entity_type_rows_raise (rs : list (list (str * str))) (e : exn) :
  fold_left (entity_type_of_row int_of_str) rs (Raise e) = Raise e.
Proof. induction rs as [|r rs IH]; [reflexivity|exact IH]. Qed.

Lemma entity_type_rows_ok (rs : list (list (str * str))) :
  Forall (fun r => exists z, row_count int_of_str r = Ok z) rs ->
  forall acc,
  exists entries,
    fold_left (entity_type_of_row int_of_str) rs (Ok acc)
    = Ok (acc ++ entries) /\
    Forall2 (entity_type_listed int_of_str) rs entries.
Proof.
  induction 1 as [|r rs [z Hz] _ IH]; intros acc.
  - exists []; rewrite app_nil_r; split; [reflexivity|constructor].
  - cbn [fold_left]; unfold entity_type_of_row at 2; cbn [rbind]; rewrite Hz.
    cbn [rbind].
    match goal with
    | |- context [Ok (acc ++ [?entry])] =>
        destruct (IH (acc ++ [entry])) as (entries & Hrun & Hall);
          exists (entry :: entries)
    end.
    split; [rewrite Hrun, <- app_assoc; reflexivity|].
    constructor; [|exact Hall].
    unfold entity_type_listed; cbn [et_uri et_name et_label et_count].
    split; [reflexivity|]; split; [reflexivity|]; split; [exact Hz|].
    destruct (existsb (N.eqb (chr "/")) (row_get r (py "type") [])) eqn:Eslash.
    + destruct (split_on_go_last (chr "/") (row_get r (py "type") []) []
                  eq_refl) as (pre & Hpre & Hno & Hend).
      split; [exact Hno|]; exists pre; split; [exact Hpre|exact Hend].
    + split; [exact Eslash|]; exists []; split; [reflexivity|].
      left; reflexivity.
Qed.

(** X14.  [get_entity_types] reads its entries off the rows of the
    answer, one entry per row and in their order, when every count that
    is bound reads as a number; a count that does not makes it raise.
    The name of an entry is the part of its URI after the last slash: it
    holds no slash, and the URI is the name, or ends with a slash and the
    name.  When the engine fails the call does not fail: the listing
    holds one entry with an empty URI, name and label and the count
    zero. *)
Theorem get_entity_types_listing (start_time end_time : Q) :
  let listing :=
    get_entity_types base_uri dataset_query int_of_str start_time end_time in
  (forall e,
     dataset_query (entity_types_query base_uri) = Raise e ->
     listing = Ok [ {| et_uri := []; et_name := []; et_label := [];
                       et_count := 0 |} ]) /\
  (forall rows,
     dataset_query (entity_types_query base_uri) = Ok (SelectRows rows) ->
     Forall (fun r => exists z, row_count int_of_str (row_dict r) = Ok z)
            rows ->
     exists entries,
       listing = Ok entries /\
       Forall2 (fun r entry => entity_type_listed int_of_str (row_dict r) entry)
               rows entries) /\
  (forall before r after e,
     dataset_query (entity_types_query base_uri)
     = Ok (SelectRows (before ++ r :: after)) ->
     Forall (fun r => exists z, row_count int_of_str (row_dict r) = Ok z)
            before ->
     row_count int_of_str (row_dict r) = Raise e ->
     listing = Raise e).
Proof.
  cbv zeta; unfold get_entity_types; cbv zeta; split; [|split].
  - intros e He; rewrite (execute_query_results_raise _ _ _ e He).
    reflexivity.
  - intros rows Hrows Hcounts; rewrite (execute_query_results_ok _ _ _ _ Hrows).
    destruct (entity_type_rows_ok (map row_dict rows))
      with (acc := @nil entity_type_entry) as (entries & Hrun & Hall).
    { apply Forall_map; exact Hcounts. }
    exists entries; split; [exact Hrun|].
    clear Hrun Hrows Hcounts; revert entries Hall.
    induction rows as [|r rows IH]; intros entries Hall;
      inversion Hall; subst; constructor; auto.
  - intros before r after e Hrows Hcounts He.
    rewrite (execute_query_results_ok _ _ _ _ Hrows).
    rewrite map_app, fold_left_app; cbn [map fold_left].
    destruct (entity_type_rows_ok (map row_dict before))
      with (acc := @nil entity_type_entry) as (entries & Hrun & _).
    { apply Forall_map; exact Hcounts. }
    rewrite Hrun; unfold entity_type_of_row at 2; cbn [rbind]; rewrite He.
    apply entity_type_rows_raise.
Qed.

End Listings.

Lemma get_available_languages_listing_witness :
  let engine := fun _ : str => @Raise SparqlInterface.answer
                                 (EngineError (py "syntax error")) in
  let int_of_str := fun _ : str => @Raise Z (ValueError (py "invalid literal")) in
  @SparqlInterface.get_available_languages ascii_builtins
    (py "http://limitgraph.org/") engine int_of_str 0 1
  = Ok [ {| SparqlInterface.le_code := []; SparqlInterface.le_name := [];
            SparqlInterface.le_annotation_count := 0 |} ].
Proof.
  cbv zeta.
  apply (@get_available_languages_listing ascii_builtins
           (py "http://limitgraph.org/")
           (fun _ => Raise (EngineError (py "syntax error")))
           (fun _ => Raise (ValueError (py "invalid literal"))) 0 1)
    with (e := EngineError (py "syntax error")).
  reflexivity.
Defined.

Lemma get_entity_types_listing_witness :
  let rows : list SparqlInterface.row :=
    [ [ (py "type",
         Some (URIRef (py "http://limitgraph.org/ontology/Person")));
        (py "typeLabel", Some (Literal (py "Person") (Some (py "en")) None));
        (py "count", Some (Literal (py "3") None (XSD "integer"))) ] ] in
  let engine := fun _ : str => Ok (SparqlInterface.SelectRows rows) in
  let int_of_str :=
    fun v : str => if str_eqb v (py "3") then Ok 3%Z
                   else Raise (ValueError (py "invalid literal")) in
  Forall (fun r => exists z,
            SparqlInterface.row_count int_of_str (row_dict r) = Ok z) rows /\
  exists entries,
    @SparqlInterface.get_entity_types ascii_builtins
      (py "http://limitgraph.org/") engine int_of_str 0 1
    = Ok entries /\
    Forall2 (fun r entry => entity_type_listed int_of_str (row_dict r) entry)
            rows entries.
Proof.
  cbv zeta.
  assert (Hcounts :
            Forall (fun r => exists z,
                      SparqlInterface.row_count
                        (fun v : str =>
                           if str_eqb v (py "3") then Ok 3%Z
                           else Raise (ValueError (py "invalid literal")))
                        (row_dict r) = Ok z)
              [ [ (py "type",
                   Some (URIRef (py "http://limitgraph.org/ontology/Person")));
                  (py "typeLabel",
                   Some (Literal (py "Person") (Some (py "en")) None));
                  (py "count",
                   Some (Literal (py "3") None (XSD "integer"))) ] ])
    by (repeat constructor; exists 3%Z; reflexivity).
  split; [exact Hcounts|].
  apply (@get_entity_types_listing ascii_builtins
           (py "http://limitgraph.org/")
           (fun _ =>
              Ok (SparqlInterface.SelectRows
                    [ [ (py "type",
                         Some (URIRef
                                 (py "http://limitgraph.org/ontology/Person")));
                        (py "typeLabel",
                         Some (Literal (py "Person") (Some (py "en")) None));
                        (py "count",
                         Some (Literal (py "3") None (XSD "integer"))) ] ]))
           (fun v : str =>
              if str_eqb v (py "3") then Ok 3%Z
              else Raise (ValueError (py "invalid literal"))) 0 1);
    [reflexivity|exact Hcounts].
Defined.

(** ** Export of a query result *)

Section QueryExport.
Variable json_dumps : SparqlInterface.SPARQLQueryResult -> str.
Variable csv_write : list (list (str * str)) -> result str.
Variable open_w : str -> result unit.
Import SparqlInterface.

(** X15.  [export_query_results] knows the formats json and csv and
    raises [ValueError] for any other, whatever the output file.  With
    no output file it hands back the text and writes nothing.  With an
    output file it writes that same text to the file and hands back the
    path, and fails when the file cannot be opened; the one exception is
    a csv export of a result with no rows, which hands back the empty
    string and writes no file even when an output file is given. *)
Theorem export_query_results_outcomes (result : SPARQLQueryResult)
  (fs : files) :
  let export := export_query_results json_dumps csv_write open_w result in
  (forall output_format output_file,
     output_format <> py "json" -> output_format <> py "csv" ->
     export output_format output_file fs
     = Raise (ValueError (py "Unsupported output format: " ++ output_format))) /\
  (forall output_file,
     results result = [] ->
     export (py "csv") output_file fs = Ok ([], fs)) /\
  (forall output_format,
     export output_format (Some []) fs = export output_format None fs) /\
  (forall output_format content fs',
     export output_format None fs = Ok (content, fs') -> fs' = fs) /\
  (forall output_format content path,
     export output_format None fs = Ok (content, fs) ->
     output_format = py "json" \/ results result <> [] ->
     path <> [] ->
     (forall u, open_w path = Ok u ->
                export output_format (Some path) fs
                = Ok (path, dict_set fs path content)) /\
     (forall e, open_w path = Raise e ->
                export output_format (Some path) fs = Raise e)).
Proof.
  cbv zeta; unfold export_query_results.
  split; [|split; [|split; [|split]]].
  - intros output_format output_file Hjson Hcsv.
    rewrite (str_eqb_neq _ _ Hjson), (str_eqb_neq _ _ Hcsv); reflexivity.
  - intros output_file Hrows.
    assert (E : str_eqb (py "csv") (py "json") = false) by reflexivity.
    rewrite E, str_eqb_refl, Hrows; reflexivity.
  - intros output_format.
    destruct (str_eqb output_format (py "json")); [reflexivity|].
    destruct (str_eqb output_format (py "csv")); [|reflexivity].
    destruct (results result); reflexivity.
  - intros output_format content fs'.
    destruct (str_eqb output_format (py "json")).
    { intros E; injection E as _ E; symmetry; exact E. }
    destruct (str_eqb output_format (py "csv")); [|discriminate].
    destruct (results result) as [|r rs].
    { intros E; injection E as _ E; symmetry; exact E. }
    unfold bind, lift, ret; destruct (csv_write (r :: rs)); [|discriminate].
    intros E; injection E as _ E; symmetry; exact E.
  - intros output_format content path Hrun Hformat Hpath.
    destruct path as [|c path]; [contradiction Hpath; reflexivity|].
    destruct (str_eqb output_format (py "json")) eqn:Ejson.
    { unfold ret in Hrun; injection Hrun as <-.
      unfold bind, write_file, ret; split.
      - intros u ->; reflexivity.
      - intros e ->; reflexivity. }
    destruct (str_eqb output_format (py "csv")); [|discriminate Hrun].
    destruct (results result) as [|r rs].
    { destruct Hformat as [-> |Hrows];
        [discriminate Ejson|contradiction Hrows; reflexivity]. }
    unfold bind, lift, ret, write_file in *.
    destruct (csv_write (r :: rs)) as [csv_content|e]; [|discriminate Hrun].
    injection Hrun as <-; split.
    + intros u ->; reflexivity.
    + intros e ->; reflexivity.
Qed.

End QueryExport.

Lemma export_query_results_outcomes_witness :
  let json_dumps := fun _ : SparqlInterface.SPARQLQueryResult => py "{}" in
  let csv_write :=
    fun _ : list (list (str * str)) => Ok (py "entity,label") in
  let open_w := fun _ : str => Ok tt in
  let result :=
    {| SparqlInterface.query := py "SELECT ?entity";
       SparqlInterface.results := [];
       SparqlInterface.execution_time := 0;
       SparqlInterface.result_count := 0;
       SparqlInterface.languages_found := [];
       SparqlInterface.query_type := py "select" |} in
  SparqlInterface.export_query_results json_dumps csv_write open_w result
    (py "csv") (Some (py "out.csv")) []
  = Ok ([], []) /\
  SparqlInterface.export_query_results json_dumps csv_write open_w result
    (py "json") (Some (py "out.json")) []
  = Ok (py "out.json", [(py "out.json", py "{}")]) /\
  SparqlInterface.export_query_results json_dumps csv_write open_w result
    (py "xml") (Some (py "out.xml")) []
  = Raise (ValueError (py "Unsupported output format: xml")).
Proof.
  cbv zeta.
  destruct (export_query_results_outcomes
              (fun _ => py "{}") (fun _ => Ok (py "entity,label"))
              (fun _ => Ok tt)
              {| SparqlInterface.query := py "SELECT ?entity";
                 SparqlInterface.results := [];
                 SparqlInterface.execution_time := 0;
                 SparqlInterface.result_count := 0;
                 SparqlInterface.languages_found := [];
                 SparqlInterface.query_type := py "select" |} [])
    as (Hother & Hempty & _ & _ & Hfile).
  split; [apply Hempty; reflexivity|]; split.
  - apply (Hfile (py "json") (py "{}") (py "out.json") eq_refl
             (or_introl eq_refl)) with (u := tt);
      [discriminate|reflexivity].
  - apply Hother; discriminate.
Defined.

(** ** The plain conversion of triples *)

Lemma fold_left_graph_add_map {A : Type} (f : A -> triple) (l : list A) :
  forall g,
    fold_left (fun g x => graph_add g (f x)) l g
    = fold_left graph_add (map f l) g.
Proof.
  induction l as [|x l IH]; intros g; [reflexivity|].
  cbn [fold_left map]; apply IH.
Qed.

Lemma graph_add_all_NoDup (ts : list triple) :
  forall g, NoDup g -> NoDup (fold_left graph_add ts g).
Proof.
  induction ts as [|t ts IH]; intros g Hg; [exact Hg|].
  cbn [fold_left]; apply IH, graph_add_NoDup; exact Hg.
Qed.

Lemma limitgraph_to_rdf_fold (triples : list (str * str * str))
  (base_uri : str) :
  LimitgraphToRdf.limitgraph_to_rdf triples base_uri
  = fold_left graph_add (map (plain_triple base_uri) triples) [].
Proof.
  unfold LimitgraphToRdf.limitgraph_to_rdf.
  rewrite <- (fold_left_graph_add_map (plain_triple base_uri)).
  generalize (@nil triple).
  induction triples as [|[[subj pred] obj] triples IH]; intros g;
    [reflexivity|].
  cbn [fold_left]; apply IH.
Qed.

(** X16.  [limitgraph_to_rdf] builds a set: the graph holds exactly
    the triples made of the input triples by putting the base in front
    of each of the three names, each of them once however often it is
    given, so that it is never larger than the input and giving the input
    twice changes nothing.  All three positions are URI references: an
    object is never written as a literal. *)
Theorem limitgraph_to_rdf_set (triples : list (str * str * str))
  (base_uri : str) :
  let g := LimitgraphToRdf.limitgraph_to_rdf triples base_uri in
  NoDup g /\
  (len g <= len triples)%nat /\
  (forall t,
     In t g
     <-> exists subj pred obj,
           In (subj, pred, obj) triples /\
           t = (URIRef (base_uri ++ subj), URIRef (base_uri ++ pred),
                URIRef (base_uri ++ obj))) /\
  (forall s p lexical language datatype,
     ~ In (s, p, Literal lexical language datatype) g) /\
  LimitgraphToRdf.limitgraph_to_rdf (triples ++ triples) base_uri = g.
Proof.
  cbv zeta; rewrite !limitgraph_to_rdf_fold.
  assert (Hin : forall t,
             In t (fold_left graph_add (map (plain_triple base_uri) triples) [])
             <-> exists subj pred obj,
                   In (subj, pred, obj) triples /\
                   t = (URIRef (base_uri ++ subj), URIRef (base_uri ++ pred),
                        URIRef (base_uri ++ obj))).
  { intros t; rewrite graph_add_all_In, in_map_iff; split.
    - intros [[]|([[subj pred] obj] & <- & Hin)].
      exists subj, pred, obj; split; [exact Hin|reflexivity].
    - intros (subj & pred & obj & Hin & ->); right.
      exists (subj, pred, obj); split; [reflexivity|exact Hin]. }
  split; [apply graph_add_all_NoDup; constructor|].
  split.
  { etransitivity; [apply graph_add_all_length|].
    unfold len; rewrite length_map; apply le_n. }
  split; [exact Hin|]; split.
  - intros s p lexical language datatype H.
    apply Hin in H as (subj & pred & obj & _ & E); discriminate E.
  - rewrite map_app, fold_left_app; apply graph_add_all_idempotent.
Qed.

(** ** Statistics of the generator after a conversion *)

Lemma startswith_app (p b : str) : startswith p (p ++ b) = true.
Proof.
  induction p as [|x p IH]; [reflexivity|].
  cbn [app startswith]; rewrite N.eqb_refl; exact IH.
Qed.

Lemma contains_app_middle (p a b : str) : contains p (a ++ p ++ b) = true.
Proof.
  induction a as [|x a IH]; cbn [app].
  - apply startswith_contains, startswith_app.
  - cbn [contains]; rewrite IH; apply orb_true_r.
Qed.

Lemma graph_add_all_length_ge (ts : list triple) :
  forall g, (len g <= len (fold_left graph_add ts g))%nat.
Proof.
  unfold len; induction ts as [|t ts IH]; intros g; cbn [fold_left]; [lia|].
  etransitivity; [|apply IH].
  unfold graph_add; destruct (graph_contains g t);
    [|rewrite length_app; cbn [List.length]]; lia.
Qed.

Lemma term_eqb_refl (t : term) : term_eqb t t = true.
Proof. apply term_eqb_eq; reflexivity. Qed.

Lemma object_strings_fold (p : term) (g : Graph) :
  forall acc l,
    In l (fold_left
            (fun acc (t : triple) =>
               if term_eqb (snd (fst t)) p
               then set_add acc (term_lexical (snd t)) else acc) g acc)
    <-> In l acc \/ has_object_string g p l.
Proof.
  unfold has_object_string.
  induction g as [|[[sb q] o] g IH]; intros acc l; cbn [fold_left fst snd].
  - split; [left; assumption|intros [H|(? & ? & [] & _)]; exact H].
  - rewrite IH; destruct (term_eqb q p) eqn:E.
    + apply term_eqb_eq in E; subst q; rewrite set_add_In; split.
      * intros [[H| ->]|(sb' & o' & Hin & Hl)].
        -- left; exact H.
        -- right; exists sb, o; split; [left; reflexivity|reflexivity].
        -- right; exists sb', o'; split; [right; exact Hin|exact Hl].
      * intros [H|(sb' & o' & [E|Hin] & Hl)].
        -- left; left; exact H.
        -- injection E as _ <-; left; right; symmetry; exact Hl.
        -- right; exists sb', o'; split; [exact Hin|exact Hl].
    + split.
      * intros [H|(sb' & o' & Hin & Hl)]; [left; exact H|].
        right; exists sb', o'; split; [right; exact Hin|exact Hl].
      * intros [H|(sb' & o' & [E'|Hin] & Hl)]; [left; exact H| |].
        -- injection E' as _ -> _; rewrite term_eqb_refl in E; discriminate E.
        -- right; exists sb', o'; split; [exact Hin|exact Hl].
Qed.

Section GeneratorStatistics.
Context {rt : Builtins}.
Variable base_uri : str.
Variable graph_namespaces : list (str * str).
Import TripleGenerator.

Lemma object_strings_In (g : Graph) (p : term) (l : str) :
  In l (object_strings g p) <-> has_object_string g p l.
Proof.
  unfold object_strings; rewrite object_strings_fold; split;
    [intros [[]|H]; exact H|right; assumption].
Qed.

Lemma RDF_type_not_LGONT (name : str) : RDF_type <> LGONT base_uri name.
Proof.
  unfold RDF_type, LGONT, ns_term; intros E; injection E as E.
  pose proof (contains_app_middle (py "ontology/") base_uri name) as H.
  rewrite app_assoc, <- E in H; vm_compute in H; discriminate H.
Qed.

Lemma RDFS_label_not_LGONT (name : str) : RDFS_label <> LGONT base_uri name.
Proof.
  unfold RDFS_label, RDFS_ns, LGONT, ns_term; intros E; injection E as E.
  pose proof (contains_app_middle (py "ontology/") base_uri name) as H.
  rewrite app_assoc, <- E in H; vm_compute in H; discriminate H.
Qed.

Lemma clean_chars (s : str) (c : char) :
  In c (_clean_uri_component s) -> In c s \/ c = chr "_".
Proof.
  unfold _clean_uri_component; cbv zeta; intros H.
  apply filter_In in H as [H _]; unfold replace_char in H.
  apply in_map_iff in H as (x & <- & H).
  apply in_map_iff in H as (y & <- & H).
  destruct (y =? chr " ")%N;
    match goal with
    | |- context [(?a =? ?b)%N] => destruct (a =? b)%N
    end; auto.
Qed.

Lemma clean_differs (s name : str) (c : char) :
  In c name -> ~ In c s -> c <> chr "_" -> _clean_uri_component s <> name.
Proof.
  intros Hc Hs Hu E; rewrite <- E in Hc.
  apply clean_chars in Hc as [H|H]; auto.
Qed.

Lemma extracted_predicates_clean (text doc_id language : str) :
  Forall (fun td =>
            _clean_uri_component (td_predicate td) <> py "language" /\
            _clean_uri_component (td_predicate td) <> py "annotatorId")
         (_extract_simple_triples text doc_id language).
Proof.
  assert (Hlikes : _clean_uri_component (py "likes") <> py "language" /\
                   _clean_uri_component (py "likes") <> py "annotatorId").
  { split; [apply (clean_differs _ _ (chr "a"))|apply (clean_differs _ _ (chr "I"))];
      try discriminate; vm_compute; intuition discriminate. }
  assert (Hallergic :
            _clean_uri_component (py "allergic_to") <> py "language" /\
            _clean_uri_component (py "allergic_to") <> py "annotatorId").
  { split; [apply (clean_differs _ _ (chr "n"))|apply (clean_differs _ _ (chr "I"))];
      try discriminate; vm_compute; intuition discriminate. }
  assert (Hcontains :
            _clean_uri_component (py "contains_text") <> py "language" /\
            _clean_uri_component (py "contains_text") <> py "annotatorId").
  { split; [apply (clean_differs _ _ (chr "l"))|apply (clean_differs _ _ (chr "I"))];
      try discriminate; vm_compute; intuition discriminate. }
  destruct (extract_simple_triples_shape text doc_id language)
    as (domain & -> & Hdomain).
  apply Forall_app; split.
  - eapply Forall_impl; [|exact Hdomain].
    cbv beta; intros td [-> | ->]; assumption.
  - constructor; [exact Hcontains|constructor].
Qed.

Lemma written_triples_predicate (tr : LimitGraphTriple)
  (statement_id name : str) (t : triple) :
  In t (written_triples base_uri tr statement_id) ->
  snd (fst t) = LGONT base_uri name ->
  name = _clean_uri_component (predicate tr) \/
  (name = py "annotatorId" /\
   snd t = Literal (TripleGenerator.annotator_id tr) None (XSD "string")) \/
  In name [py "hasSubject"; py "hasPredicate"; py "hasObject";
           py "confidence"; py "sourceLanguage"; py "timestamp"].
Proof.
  intros [<-|Ht] E; cbn [fst snd] in E.
  - left; symmetry; exact (LGONT_inj _ _ _ E).
  - unfold statement_triples in Ht; cbv zeta in Ht.
    apply in_app_or in Ht as [Ht|Ht].
    + cbn [In] in Ht.
      destruct Ht as [<-|[<-|[<-|[<-|[<-|[<-|[<-|[<-|[]]]]]]]]];
        cbn [fst snd] in E;
        try (exfalso; exact (RDF_type_not_LGONT _ E));
        apply LGONT_inj in E; subst name;
        try (right; right; cbn [In]; tauto).
      right; left; split; reflexivity.
    + exfalso; destruct (provenance tr) as [[|item items]|];
        [destruct Ht| |destruct Ht].
      apply in_map_iff in Ht as ([key value] & <- & _); cbn [fst snd] in E.
      exact (LGPROV_not_LGONT _ _ _ E).
Qed.

Lemma convert_triple_data_written (annotator_id text : str) (k : nat)
  (td : triple_data) (g : Graph) (n : nat) :
  exists tr,
    convert_triple_data base_uri annotator_id text k td
      {| graph := g; effects := n |}
    = Ok ((k + 1)%nat,
          {| graph := fold_left graph_add
                        (written_triples base_uri tr (uuid4 (S (S n)))) g;
             effects := S (S (S n)) |}) /\
    predicate tr = td_predicate td /\
    TripleGenerator.annotator_id tr = annotator_id.
Proof.
  destruct (detect_language_code
              (td_subject td ++ py " " ++ td_predicate td ++ py " "
               ++ td_object td ++ py " " ++ text)) as (lang & Hdl & Hlang).
  unfold convert_triple_data.
  erewrite bind_ok by (apply convert_edge_effect; exact Hdl).
  erewrite bind_ok
    by (apply add_triple_to_graph_effect;
        [reflexivity|apply code_accepted; exact Hlang]).
  eexists; split; [reflexivity|split; reflexivity].
Qed.

Lemma convert_triples_statistics (annotator_id text : str)
  (tds : list triple_data) :
  Forall (fun td =>
            _clean_uri_component (td_predicate td) <> py "language" /\
            _clean_uri_component (td_predicate td) <> py "annotatorId") tds ->
  forall k s k' s',
    for_fold tds k (convert_triple_data base_uri annotator_id text) s
    = Ok (k', s') ->
    (forall t, In t (graph s) -> In t (graph s')) /\
    (forall sb o,
       In (sb, LGONT base_uri (py "language"), o) (graph s') ->
       In (sb, LGONT base_uri (py "language"), o) (graph s)) /\
    (forall sb o,
       In (sb, LGONT base_uri (py "annotatorId"), o) (graph s') ->
       In (sb, LGONT base_uri (py "annotatorId"), o) (graph s) \/
       o = Literal annotator_id None (XSD "string")) /\
    (tds <> [] ->
     exists sb,
       In (sb, LGONT base_uri (py "annotatorId"),
           Literal annotator_id None (XSD "string")) (graph s')).
Proof.
  induction 1 as [|td tds [Hl Ha] _ IH]; intros k s k' s' Hrun.
  - injection Hrun as <- <-; repeat split; auto.
    intros H; contradiction H; reflexivity.
  - cbn [for_fold] in Hrun; destruct s as [g n].
    destruct (convert_triple_data_written annotator_id text k td g n)
      as (tr & Htd & Hp & Hw).
    rewrite (bind_ok _ _ _ _ _ Htd) in Hrun.
    destruct (IH _ _ _ _ Hrun) as (Hkeep & Hlang & Hann & _).
    cbn [graph] in *.
    split; [|split; [|split]].
    + intros t Ht; apply Hkeep, graph_add_all_In; left; exact Ht.
    + intros sb o Hin; apply Hlang, graph_add_all_In in Hin as [Hin|Hin];
        [exact Hin|exfalso].
      destruct (written_triples_predicate tr _ (py "language") _ Hin eq_refl)
        as [E|[[E _]|E]].
      * rewrite Hp in E; exact (Hl (eq_sym E)).
      * discriminate E.
      * cbn [In] in E; repeat destruct E as [E|E]; try discriminate E; exact E.
    + intros sb o Hin; apply Hann in Hin as [Hin|Hin]; [|right; exact Hin].
      apply graph_add_all_In in Hin as [Hin|Hin]; [left; exact Hin|right].
      destruct (written_triples_predicate tr _ (py "annotatorId") _ Hin eq_refl)
        as [E|[[_ E]|E]].
      * rewrite Hp in E; exfalso; exact (Ha (eq_sym E)).
      * cbn [snd] in E; rewrite E, Hw; reflexivity.
      * exfalso; cbn [In] in E; repeat destruct E as [E|E];
          try discriminate E; exact E.
    + intros _; exists (LGPROV base_uri (py "statement_" ++ uuid4 (S (S n)))).
      apply Hkeep, graph_add_all_In; right.
      unfold written_triples; cbv zeta; right.
      unfold statement_triples; cbv zeta; apply in_or_app; left.
      rewrite <- Hw; do 6 right; left; reflexivity.
Qed.

Lemma convert_document_statistics (annotator_id : str) (acc acc' : counters)
  (doc : document) (s s' : state) :
  convert_document base_uri annotator_id acc doc s = Ok (acc', s') ->
  (has_text doc = false /\ acc' = acc /\ graph s' = graph s) \/
  (has_text doc = true /\
   exists language,
     languages_so_far acc' = set_add (languages_so_far acc) language /\
     (forall l,
        has_object_string (graph s') (LGONT base_uri (py "language")) l
        <-> has_object_string (graph s) (LGONT base_uri (py "language")) l \/
            l = language) /\
     (forall a,
        has_object_string (graph s') (LGONT base_uri (py "annotatorId")) a
        <-> has_object_string (graph s) (LGONT base_uri (py "annotatorId")) a \/
            a = annotator_id)).
Proof.
  destruct s as [g n]; unfold convert_document, has_text.
  rewrite bind_generator_uuid4; cbv beta zeta.
  destruct (text doc) as [[|c t]|].
  - intros H; injection H as <- <-; left; repeat split.
  - destruct (detect_language_code (c :: t)) as (language & Hdl & Hlanguage).
    rewrite (bind_lift_ok _ _ _ _ Hdl).
    rewrite bind_graph_add_m.
    rewrite (bind_lift_ok _ _ _ _ (literal_lang_code _ _ Hlanguage)); cbv beta.
    rewrite bind_graph_add_m.
    rewrite (bind_lift_ok _ _ _ _ (literal_lang_code _ _ Hlanguage)); cbv beta.
    rewrite !bind_graph_add_m.
    intros H; apply bind_inv in H as (k & s1 & Hloop & Hret).
    injection Hret as <- <-; right; split; [reflexivity|].
    exists language; split; [reflexivity|].
    match type of Hloop with
    | for_fold ?tds _ _
        {| graph := graph_add (graph_add (graph_add (graph_add (graph_add _ ?t1)
                                                       ?t2) ?t3) ?t4) ?t5;
           effects := _ |} = _ =>
        destruct (convert_triples_statistics annotator_id (c :: t) tds
                    (extracted_predicates_clean _ _ _) _ _ _ _ Hloop)
          as (Hkeep & Hlang & Hann & Hsome);
          assert (Hne : tds <> []);
          [destruct (extract_simple_triples_shape (c :: t)
                       (match _id doc with
                        | Some i => i
                        | None => py "doc_" ++ uuid4 n
                        end) language) as (domain & Hshape & _);
           rewrite Hshape; destruct domain; discriminate|];
          assert (Hg5 : forall x,
                     In x (graph_add (graph_add (graph_add (graph_add
                             (graph_add g t1) t2) t3) t4) t5)
                     <-> In x g \/ In x [t1; t2; t3; t4; t5])
            by (intros x; rewrite !graph_add_In; cbn [In]; intuition auto)
    end.
    cbn [graph] in *; unfold has_object_string; split.
    + intros l; split.
      * intros (sb & o & Hin & Hl).
        apply Hlang, Hg5 in Hin as [Hin|Hin]; [left; exists sb, o; auto|].
        right; cbn [In] in Hin.
        destruct Hin as [E|[E|[E|[E|[E|[]]]]]];
          pose proof (f_equal (fun x : triple => snd (fst x)) E) as Ep;
          cbn [fst snd] in Ep.
        -- exfalso; exact (RDF_type_not_LGONT _ Ep).
        -- exfalso; exact (RDFS_label_not_LGONT _ Ep).
        -- apply LGONT_inj in Ep; discriminate Ep.
        -- apply LGONT_inj in Ep; discriminate Ep.
        -- apply (f_equal snd) in E; cbn [snd] in E; subst o l; reflexivity.
      * intros [(sb & o & Hin & Hl)| ->].
        -- exists sb, o; split; [|exact Hl].
           apply Hkeep, Hg5; left; exact Hin.
        -- eexists; eexists; split;
             [apply Hkeep, Hg5; right; do 4 right; left; reflexivity
             |reflexivity].
    + intros a; split.
      * intros (sb & o & Hin & Hl).
        apply Hann in Hin as [Hin| ->]; [|right; symmetry; exact Hl].
        apply Hg5 in Hin as [Hin|Hin]; [left; exists sb, o; auto|].
        exfalso; cbn [In] in Hin.
        destruct Hin as [E|[E|[E|[E|[E|[]]]]]];
          pose proof (f_equal (fun x : triple => snd (fst x)) E) as Ep;
          cbn [fst snd] in Ep.
        -- exact (RDF_type_not_LGONT _ Ep).
        -- exact (RDFS_label_not_LGONT _ Ep).
        -- apply LGONT_inj in Ep; discriminate Ep.
        -- apply LGONT_inj in Ep; discriminate Ep.
        -- apply LGONT_inj in Ep; discriminate Ep.
      * intros [(sb & o & Hin & Hl)| ->].
        -- exists sb, o; split; [|exact Hl].
           apply Hkeep, Hg5; left; exact Hin.
        -- destruct (Hsome Hne) as [sb Hin].
           exists sb; eexists; split; [exact Hin|reflexivity].
  - intros H; injection H as <- <-; left; repeat split.
Qed.

Lemma convert_documents_statistics (annotator_id : str)
  (corpus_data : list document) :
  forall acc s acc' s',
    for_fold corpus_data acc (convert_document base_uri annotator_id) s
    = Ok (acc', s') ->
    (forall l, In l (languages_so_far acc) ->
               has_object_string (graph s) (LGONT base_uri (py "language")) l) ->
    (forall l, In l (languages_so_far acc) -> In l (languages_so_far acc')) /\
    (forall l,
       has_object_string (graph s') (LGONT base_uri (py "language")) l
       <-> has_object_string (graph s) (LGONT base_uri (py "language")) l \/
           In l (languages_so_far acc')) /\
    (forall a,
       has_object_string (graph s') (LGONT base_uri (py "annotatorId")) a
       <-> has_object_string (graph s) (LGONT base_uri (py "annotatorId")) a \/
           (a = annotator_id /\
            exists doc, In doc corpus_data /\ has_text doc = true)).
Proof.
  induction corpus_data as [|doc rest IH]; intros acc s acc' s' Hrun Hacc.
  - injection Hrun as <- <-; split; [auto|]; split.
    + intros l; split; [left; assumption|intros [H|H]; auto].
    + intros a; split; [left; assumption|].
      intros [H|(_ & doc & [] & _)]; exact H.
  - cbn [for_fold] in Hrun; apply bind_inv in Hrun as (acc1 & s1 & Hdoc & Hrest).
    destruct (convert_document_statistics _ _ _ _ _ _ Hdoc)
      as [(Htext & -> & Hgraph)|(Htext & language & Hset & Hlang & Hann)].
    + rewrite <- Hgraph in Hacc |- *.
      destruct (IH _ _ _ _ Hrest Hacc) as (Hmono & Hl & Ha).
      split; [exact Hmono|]; split; [exact Hl|].
      intros a; rewrite Ha; split.
      * intros [H|(-> & d & Hd & Ht)]; [left; exact H|].
        right; split; [reflexivity|]; exists d; split; [right; exact Hd|exact Ht].
      * intros [H|(-> & d & [<-|Hd] & Ht)]; [left; exact H|congruence|].
        right; split; [reflexivity|]; exists d; split; [exact Hd|exact Ht].
    + assert (Hacc1 : forall l,
                 In l (languages_so_far acc1) ->
                 has_object_string (graph s1) (LGONT base_uri (py "language")) l).
      { intros l Hl; rewrite Hset in Hl; apply set_add_In in Hl.
        apply Hlang; destruct Hl as [Hl| ->]; [left; apply Hacc; exact Hl|].
        right; reflexivity. }
      destruct (IH _ _ _ _ Hrest Hacc1) as (Hmono & Hl & Ha).
      assert (Hin1 : In language (languages_so_far acc1))
        by (rewrite Hset; apply set_add_In; right; reflexivity).
      split; [|split].
      * intros l Hin; apply Hmono; rewrite Hset; apply set_add_In; left;
          exact Hin.
      * intros l; rewrite Hl, Hlang; split.
        -- intros [[H| ->]|H]; [left; exact H|right; apply Hmono; exact Hin1|].
           right; exact H.
        -- intros [H|H]; [left; left; exact H|right; exact H].
      * intros a; rewrite Ha, Hann; split.
        -- intros [[H| ->]|(-> & d & Hd & Ht)].
           ++ left; exact H.
           ++ right; split; [reflexivity|]; exists doc; split;
                [left; reflexivity|exact Htext].
           ++ right; split; [reflexivity|]; exists d; split;
                [right; exact Hd|exact Ht].
        -- intros [H|(-> & d & [<-|Hd] & Ht)].
           ++ left; left; exact H.
           ++ left; right; reflexivity.
           ++ right; split; [reflexivity|]; exists d; split;
                [exact Hd|exact Ht].
Qed.

(** X17.  After a conversion the statistics of the generator count the
    triples of the graph handed back, which are at least as many as
    before.  Their languages are those that were there before and those
    that the conversion reports as detected: the languages of the
    documents, not those of the single facts.  Their annotators are those
    that were there before and, when some document of the corpus had a
    text, the annotator of the conversion; with no such document the
    annotator is not among them although the result of the conversion
    names it. *)
Theorem get_statistics_after_conversion (corpus_data : list document)
  (annotator_id : str) (s s' : state) (r : RDFConversionResult) :
  convert_limitgraph_corpus base_uri corpus_data annotator_id s = Ok (r, s') ->
  let before := get_statistics base_uri graph_namespaces s in
  let after := get_statistics base_uri graph_namespaces s' in
  stat_total_triples after = len (result_graph r) /\
  (stat_total_triples before <= stat_total_triples after)%nat /\
  (forall l,
     In l (stat_languages after)
     <-> In l (stat_languages before) \/ In l (languages_detected r)) /\
  (forall a,
     In a (stat_annotators after)
     <-> In a (stat_annotators before) \/
         (a = annotator_id /\
          exists doc, In doc corpus_data /\ has_text doc = true)) /\
  annotators r = [annotator_id].
Proof.
  unfold convert_limitgraph_corpus; intros Hrun; cbv zeta.
  apply bind_inv in Hrun as (acc & [g n] & Hloop & Hrest).
  rewrite bind_generator_now in Hrest; injection Hrest as <- <-.
  destruct (convert_documents_run _ _ _ _ _ _ _ Hloop) as [[ts Hext] _].
  destruct (convert_documents_statistics _ _ _ _ _ _ Hloop)
    as (_ & Hl & Ha); [intros l []|].
  unfold get_statistics;
    cbn [stat_total_triples stat_languages stat_annotators result_graph
         languages_detected annotators graph] in *.
  split; [reflexivity|]; split.
  { rewrite Hext; apply graph_add_all_length_ge. }
  split; [|split; [|reflexivity]].
  - intros l; rewrite !object_strings_In; apply Hl.
  - intros a; rewrite !object_strings_In; apply Ha.
Qed.

End GeneratorStatistics.

Lemma get_statistics_after_conversion_witness :
  let base_uri := py "http://limitgraph.org/" in
  let s0 := {| TripleGenerator.graph := []; TripleGenerator.effects := 0 |} in
  let doc := {| TripleGenerator._id := Some (py "d1");
                TripleGenerator.text := None |} in
  exists r s',
    @TripleGenerator.convert_limitgraph_corpus ascii_builtins base_uri
      [doc] (py "corpus_processor") s0 = Ok (r, s') /\
    TripleGenerator.annotators r = [py "corpus_processor"] /\
    ~ In (py "corpus_processor")
         (TripleGenerator.stat_annotators
            (TripleGenerator.get_statistics base_uri [] s')).
Proof.
  cbv zeta.
  destruct (@TripleGenerator.convert_limitgraph_corpus ascii_builtins
              (py "http://limitgraph.org/")
              [ {| TripleGenerator._id := Some (py "d1");
                   TripleGenerator.text := None |} ]
              (py "corpus_processor")
              {| TripleGenerator.graph := []; TripleGenerator.effects := 0 |})
    as [[r s']|e] eqn:E; [|vm_compute in E; discriminate E].
  exists r, s'; split; [reflexivity|].
  destruct (@get_statistics_after_conversion ascii_builtins _ [] _ _ _ _ _ E)
    as (_ & _ & _ & Hann & Hnames).
  split; [exact Hnames|].
  intros Hin; apply Hann in Hin as [[]|(_ & doc & [<-|[]] & Htext)].
  discriminate Htext.
Defined.
